(** * Role-based permission evaluation of the cooperative backend

    A shallow embedding of the permission logic of
    [cooperativa/models.py], [cooperativa/serializers.py] and
    [cooperativa/views.py]: the JSON permission matrix of a role, its
    gap filling, the per-role lookup [tiene_permiso], the consolidated
    check of a user, and the role-management views (create, update,
    delete, duplicate, assign, revoke); then the bootstrap of the
    system roles, the report of permissions, the validators and
    [clean] methods of users and socios, the pagination of the search
    views and the transfer of parcels. *)

From Stdlib Require Import ZArith Ascii String.
From stdpp Require Import gmap strings list fin_maps pretty.

Local Open Scope string_scope.

(** ** JSON values

    [Rol.permisos] is a [models.JSONField]: it holds whatever JSON the
    caller stored, not only mappings of mappings of booleans.  Numbers
    are the integers of JSON. *)

#[local] Set Warnings "-register-all".
Inductive json : Type :=
  | JNull
  | JBool (b : bool)
  | JNum (n : Z)
  | JStr (s : string)
  | JArr (l : list json)
  | JObj (m : gmap string json).

(** ** Python exceptions and the result monad *)

Inductive exc : Type :=
  | TypeError
  | AttributeError
  | KeyError
  | ValidationError (detail : json)
  | Http404
  | IntegrityError
  | DoesNotExist
  | MultipleObjectsReturned.

Inductive result (A : Type) : Type :=
  | Ok (a : A)
  | Raise (e : exc).
Arguments Ok {A} a.
Arguments Raise {A} e.

#[global] Instance result_ret : MRet result := λ A a, Ok a.
#[global] Instance result_bind : MBind result := λ A B k r,
  match r with
  | Ok a => k a
  | Raise e => Raise e
  end.

(** A [for] loop whose body can raise: the accumulator is threaded
    through the items from left to right and the first exception ends
    the loop. *)
Fixpoint for_each {A B} (body : A → B → result A) (acc : A) (xs : list B)
  : result A :=
  match xs with
  | [] => Ok acc
  | x :: xs' => acc' ← body acc x; for_each body acc' xs'
  end.

(** ** Python primitives on JSON values *)

(** [bool(v)]: the truth value Python gives to a JSON value. *)
Definition truthy (v : json) : bool :=
  match v with
  | JNull => false
  | JBool b => b
  | JNum n => negb (Z.eqb n 0%Z)
  | JStr s => negb (String.eqb s "")
  | JArr l => match l with [] => false | _ => true end
  | JObj m => negb (Nat.eqb (size m) 0)
  end.

(** [sub in s] on strings: [sub] occurs somewhere in [s]. *)
Fixpoint is_substring (sub s : string) : bool :=
  String.prefix sub s ||
  match s with
  | EmptyString => false
  | String _ s' => is_substring sub s'
  end.

(** [k == v] for a string [k] and a JSON value [v]. *)
Definition str_eq_json (k : string) (v : json) : bool :=
  match v with
  | JStr s => String.eqb k s
  | _ => false
  end.

(** [k in v] for a string [k]: key membership on a dict, element
    membership on a list, substring on a string, [TypeError] on
    anything else. *)
Definition py_in (k : string) (v : json) : result bool :=
  match v with
  | JObj m => Ok (bool_decide (is_Some (m !! k)))
  | JArr l => Ok (existsb (str_eq_json k) l)
  | JStr s => Ok (is_substring k s)
  | _ => Raise TypeError
  end.

(** [v[k]] for a string [k]. *)
Definition py_getitem (v : json) (k : string) : result json :=
  match v with
  | JObj m => match m !! k with Some x => Ok x | None => Raise KeyError end
  | _ => Raise TypeError
  end.

(** [v[k] = x] for a string [k]. *)
Definition py_setitem (v : json) (k : string) (x : json) : result json :=
  match v with
  | JObj m => Ok (JObj (<[k := x]> m))
  | _ => Raise TypeError
  end.

(** [v.get(k, d)]: only dicts have the method. *)
Definition py_get (v : json) (k : string) (d : json) : result json :=
  match v with
  | JObj m => Ok (default d (m !! k))
  | _ => Raise AttributeError
  end.

(** [v.items()]: only dicts have the method. *)
Definition py_items (v : json) : result (list (string * json)) :=
  match v with
  | JObj m => Ok (map_to_list m)
  | _ => Raise AttributeError
  end.

(** [v.copy()]: dicts and lists have the method. *)
Definition py_copy (v : json) : result json :=
  match v with
  | JObj _ | JArr _ => Ok v
  | _ => Raise AttributeError
  end.

(** ** The closed module and action sets *)

(** The list [permisos_requeridos] / [modulos_requeridos] / [modulos]
    that models.py, serializers.py and views.py each spell out. *)
Definition modulos : list string :=
  [ "usuarios"; "socios"; "parcelas"; "cultivos";
    "ciclos_cultivo"; "cosechas"; "tratamientos";
    "analisis_suelo"; "transferencias"; "reportes";
    "auditoria"; "configuracion" ].

Definition acciones : list string :=
  [ "ver"; "crear"; "editar"; "eliminar"; "aprobar" ].

(** [{'ver': b, 'crear': b, 'editar': b, 'eliminar': b, 'aprobar': b}] *)
Definition acciones_todas (b : bool) : gmap string json :=
  <["ver" := JBool b]> (<["crear" := JBool b]> (<["editar" := JBool b]>
  (<["eliminar" := JBool b]> (<["aprobar" := JBool b]> ∅)))).

Definition sin_permisos : json := JObj (acciones_todas false).

(** ** models.py: [Rol] *)

Module Rol.

(** The body of the loop of [_validar_estructura_permisos]. *)
Definition completar (permisos : json) (permiso : string) : result json :=
  presente ← py_in permiso permisos;
  if negb presente then py_setitem permisos permiso sin_permisos
  else Ok permisos.

(** [Rol._validar_estructura_permisos]: the method updates
    [self.permisos] in place; the embedding returns the updated
    value. *)
Definition _validar_estructura_permisos (permisos : json) : result json :=
  for_each completar permisos modulos.

(** [Rol.tiene_permiso]. *)
Definition tiene_permiso (permisos : json) (modulo accion : string)
  : result json :=
  if negb (truthy permisos) then Ok (JBool false)
  else
    presente ← py_in modulo permisos;
    if negb presente then Ok (JBool false)
    else
      permisos_modulo ← py_getitem permisos modulo;
      py_get permisos_modulo accion (JBool false).

End Rol.

(** ** serializers.py: the two [RolSerializer] classes

    serializers.py defines [class RolSerializer] twice, at line 12 and
    at line 554.  The first carries [validate_permisos] and [validate];
    the second is a bare [ModelSerializer] with [fields = '__all__'].
    A Python module binds a name to its last definition, so the
    [RolSerializer] that views.py imports is the second class. *)

(** The writable fields of a request body after field parsing.  [None]
    is an absent key.  The timestamp columns [creado_en] and
    [actualizado_en] are left out of the embedding: no operation below
    reads them. *)
Record RolData : Type := {
  d_nombre : option string;
  d_descripcion : option (option string);
  d_permisos : option json;
  d_es_sistema : option bool
}.

Record Rol : Type := {
  nombre : string;
  descripcion : option string;
  permisos : json;
  es_sistema : bool
}.

(** [nombre__iexact]: the database compares the two names with their
    letters folded to one case; the fold is the one of ASCII letters. *)
Definition upper_ascii (c : ascii) : ascii :=
  let n := nat_of_ascii c in
  if (Nat.leb 97 n && Nat.leb n 122)%bool then ascii_of_nat (n - 32) else c.

Fixpoint upper (s : string) : string :=
  match s with
  | EmptyString => EmptyString
  | String c s' => String (upper_ascii c) (upper s')
  end.

Definition iexact (a b : string) : bool := String.eqb (upper a) (upper b).

(** [Rol.objects.filter(nombre__iexact=n).exclude(id=excluido).exists()];
    [exclude(id=None)] excludes no row. *)
Definition existe_nombre_iexact (tabla : gmap Z Rol) (n : string)
    (excluido : option Z) : bool :=
  existsb (λ fila : Z * Rol,
             iexact (nombre fila.2) n &&
             negb (bool_decide (excluido = Some fila.1)))
          (map_to_list tabla).

Module RolSerializer_12.

(** [RolSerializer.validate_permisos] (serializers.py line 32). *)
Definition validate_permisos (value : json) : result json :=
  match value with
  | JObj _ =>
      for_each (λ value modulo,
                  presente ← py_in modulo value;
                  if negb presente then py_setitem value modulo sin_permisos
                  else Ok value)
               value modulos
  | _ => Raise (ValidationError
                  (JStr "Los permisos deben ser un objeto JSON válido"))
  end.

(** [set(data.keys()) - {'descripcion', 'permisos'}] *)
Definition campos_invalidos (data : RolData) : list string :=
  (if d_nombre data is Some _ then ["nombre"] else []) ++
  (if d_es_sistema data is Some _ then ["es_sistema"] else []).

(** [RolSerializer.validate] (serializers.py line 57); [instance] is
    the role under update with its id, [None] on creation. *)
Definition validate (tabla : gmap Z Rol) (instance : option (Z * Rol))
    (data : RolData) : result RolData :=
  let nombre := d_nombre data in
  if match nombre with
     | Some n => negb (String.eqb n "") &&
                 existe_nombre_iexact tabla n (fst <$> instance)
     | None => false
     end
  then Raise (ValidationError
                (JObj {[ "nombre" := JStr "Ya existe un rol con este nombre" ]}))
  else
    if match instance with
       | Some (_, rol) => es_sistema rol
       | None => false
       end
    then
      match campos_invalidos data with
      | [] => Ok data
      | campos =>
          Raise (ValidationError
                   (JObj (list_to_map
                            ((λ field,
                               (field,
                                JStr ("No se puede modificar el campo " ++
                                      field ++ " de un rol del sistema")))
                             <$> campos))))
      end
    else Ok data.

End RolSerializer_12.

Module RolSerializer_554.

(** The second class has no validator of its own.  What runs is what
    the framework derives from the declaration of [Rol.nombre] in
    models.py: the name is required unless the update is partial, is
    not blank, has at most 50 characters, matches
    [^[a-zA-Z0-9_\-\s]+$] (here on ASCII characters) and is unique by
    exact comparison.  The framework's message texts are not modelled;
    the error detail names the field. *)
Definition caracter_valido (c : ascii) : bool :=
  let n := nat_of_ascii c in
  (Nat.leb 97 n && Nat.leb n 122) || (Nat.leb 65 n && Nat.leb n 90) ||
  (Nat.leb 48 n && Nat.leb n 57) || Nat.eqb n 95 || Nat.eqb n 45 ||
  Nat.eqb n 32 || (Nat.leb 9 n && Nat.leb n 13).

Definition nombre_valido (n : string) : bool :=
  negb (String.eqb n "") && Nat.leb (String.length n) 50 &&
  forallb caracter_valido (list_ascii_of_string n).

(** [unique=True]: exact comparison, the row under update excluded. *)
Definition existe_nombre (tabla : gmap Z Rol) (n : string)
    (excluido : option Z) : bool :=
  existsb (λ fila : Z * Rol,
             String.eqb (nombre fila.2) n &&
             negb (bool_decide (excluido = Some fila.1)))
          (map_to_list tabla).

Definition is_valid (tabla : gmap Z Rol) (instance : option (Z * Rol))
    (partial : bool) (data : RolData) : result RolData :=
  match d_nombre data with
  | None =>
      if partial then Ok data
      else Raise (ValidationError (JObj {[ "nombre" := JStr "required" ]}))
  | Some n =>
      if negb (nombre_valido n)
      then Raise (ValidationError (JObj {[ "nombre" := JStr "invalid" ]}))
      else if existe_nombre tabla n (fst <$> instance)
      then Raise (ValidationError (JObj {[ "nombre" := JStr "unique" ]}))
      else Ok data
  end.

End RolSerializer_554.

(** The name [RolSerializer] as views.py sees it. *)
Module RolSerializer := RolSerializer_554.

(** ** The database

    The tables the role logic reads and writes.  [Rol] and [Usuario]
    rows are keyed by primary key; the [usuario_rol] rows are kept in
    insertion order, the order in which a query iterates over them. *)

Record Usuario : Type := {
  usuario : string;
  nombres : string;
  apellidos : string;
  is_staff : bool;
  is_superuser : bool
}.

Definition get_full_name (u : Usuario) : string :=
  nombres u ++ " " ++ apellidos u.

Record UsuarioRol : Type := {
  ur_id : Z;
  ur_usuario : Z;
  ur_rol : Z
}.

(** An audit row; the client address and user agent of the request are
    left out. *)
Record BitacoraAuditoria : Type := {
  b_usuario : Z;
  b_accion : string;
  b_tabla_afectada : string;
  b_registro_id : Z;
  b_detalles : json
}.

Record DB : Type := {
  roles : gmap Z Rol;
  usuarios : gmap Z Usuario;
  usuario_roles : list UsuarioRol;
  bitacora : list BitacoraAuditoria;
  rol_seq : Z;
  usuario_rol_seq : Z
}.

Record Response : Type := {
  status : Z;
  data : json
}.

Definition error_response (st : Z) (msg : string) : Response :=
  {| status := st; data := JObj {[ "error" := JStr msg ]} |}.

Definition registrar (db : DB) (entrada : BitacoraAuditoria) : DB :=
  {| roles := roles db; usuarios := usuarios db;
     usuario_roles := usuario_roles db;
     bitacora := bitacora db ++ [entrada];
     rol_seq := rol_seq db; usuario_rol_seq := usuario_rol_seq db |}.

(** [Rol.objects.create(...)]: the next primary key of the sequence;
    the unique index on [nombre] refuses an exact duplicate. *)
Definition insertar_rol (db : DB) (rol : Rol) : result (DB * Z) :=
  if RolSerializer_554.existe_nombre (roles db) (nombre rol) None
  then Raise IntegrityError
  else
    let pk := (rol_seq db + 1)%Z in
    Ok ({| roles := <[pk := rol]> (roles db); usuarios := usuarios db;
           usuario_roles := usuario_roles db; bitacora := bitacora db;
           rol_seq := pk; usuario_rol_seq := usuario_rol_seq db |}, pk).

(** [instance.save()] on an existing role. *)
Definition guardar_rol (db : DB) (pk : Z) (rol : Rol) : DB :=
  {| roles := <[pk := rol]> (roles db); usuarios := usuarios db;
     usuario_roles := usuario_roles db; bitacora := bitacora db;
     rol_seq := rol_seq db; usuario_rol_seq := usuario_rol_seq db |}.

(** [rol.delete()]: [UsuarioRol.rol] is declared with
    [on_delete=models.CASCADE], so the assignments of the role go with
    it. *)
Definition borrar_rol (db : DB) (pk : Z) : DB :=
  {| roles := delete pk (roles db); usuarios := usuarios db;
     usuario_roles :=
       filter (λ ur, ur_rol ur ≠ pk) (usuario_roles db);
     bitacora := bitacora db;
     rol_seq := rol_seq db; usuario_rol_seq := usuario_rol_seq db |}.

(** [usuario_rol.delete()] *)
Definition borrar_usuario_rol (db : DB) (id : Z) : DB :=
  {| roles := roles db; usuarios := usuarios db;
     usuario_roles := filter (λ ur, ur_id ur ≠ id) (usuario_roles db);
     bitacora := bitacora db;
     rol_seq := rol_seq db; usuario_rol_seq := usuario_rol_seq db |}.

(** [Model.objects.get(...)] on the rows a filter selected. *)
Definition obj_get {A} (filas : list A) : result A :=
  match filas with
  | [] => Raise DoesNotExist
  | [fila] => Ok fila
  | _ => Raise MultipleObjectsReturned
  end.

(** [UsuarioRol.objects.filter(usuario=usuario)] *)
Definition asignaciones_de (db : DB) (usuario_id : Z) : list UsuarioRol :=
  filter (λ ur, ur_usuario ur = usuario_id) (usuario_roles db).

(** [... .select_related('rol')]: each row with the role it points to. *)
Definition con_rol (db : DB) (filas : list UsuarioRol)
  : list (UsuarioRol * Rol) :=
  omap (λ ur, (λ rol, (ur, rol)) <$> roles db !! ur_rol ur) filas.

(** [rol__es_sistema=True] *)
Definition rol_es_sistema (db : DB) (ur : UsuarioRol) : bool :=
  match roles db !! ur_rol ur with
  | Some rol => es_sistema rol
  | None => false
  end.

(** The serialized form of a role. *)
Definition rol_data (pk : Z) (rol : Rol) : json :=
  JObj (<["id" := JNum pk]>
       (<["nombre" := JStr (nombre rol)]>
       (<["descripcion" :=
            match descripcion rol with Some d => JStr d | None => JNull end]>
       (<["permisos" := permisos rol]>
       (<["es_sistema" := JBool (es_sistema rol)]> ∅))))).

(** [not usuario_id] on an id read from a JSON body. *)
Definition sin_id (id : option Z) : bool :=
  match id with
  | None => true
  | Some n => Z.eqb n 0
  end.

(** [not s] on an optional string. *)
Definition sin_texto (s : option string) : bool :=
  match s with
  | None => true
  | Some t => String.eqb t ""
  end.

(** The common end of [RolViewSet.quitar_usuario] and
    [quitar_rol_usuario]: the assignment is deleted, the removal is
    logged, and the response is 200. *)
Definition quitar (db : DB) (request_user : Z * Usuario) (rol : Rol)
    (usuario_ : Usuario) (usuario_rol : UsuarioRol) : DB * result Response :=
  let usuario_rol_id := ur_id usuario_rol in
  let db1 := borrar_usuario_rol db usuario_rol_id in
  let db2 := registrar db1
    {| b_usuario := request_user.1; b_accion := "ELIMINAR";
       b_tabla_afectada := "usuario_rol";
       b_registro_id := usuario_rol_id;
       b_detalles :=
         JObj (<["rol_removido" := JStr (nombre rol)]>
              (<["usuario_afectado" := JStr (usuario usuario_)]>
              (<["removido_por" := JStr (usuario request_user.2)]> ∅))) |} in
  (db2, Ok {| status := 200;
              data := JObj {[ "mensaje" :=
                                JStr "Rol removido exitosamente" ]} |}).

(** ** views.py: [RolViewSet]

    A view takes the database, the authenticated user of the request
    ([request.user], with its id) and the parsed request, and returns
    the database it leaves with the response, or the exception that
    escapes it. *)

Module RolViewSet.

(** [get_queryset]: system roles are hidden from non-staff users. *)
Definition get_queryset (db : DB) (request_user : Z * Usuario)
  : gmap Z Rol :=
  if negb (is_staff request_user.2)
  then filter (λ fila : Z * Rol, es_sistema fila.2 = false) (roles db)
  else roles db.

(** [get_object]: the role of the URL, looked up in the queryset. *)
Definition get_object (db : DB) (request_user : Z * Usuario) (pk : Z)
  : result Rol :=
  match get_queryset db request_user !! pk with
  | Some rol => Ok rol
  | None => Raise Http404
  end.

(** [perform_destroy] (views.py line 393). *)
Definition perform_destroy (db : DB) (request_user : Z * Usuario)
    (pk : Z) (instance : Rol) : DB * result unit :=
  if es_sistema instance
  then (db, Raise (ValidationError
                     (JStr "No se puede eliminar un rol del sistema")))
  else
    let db1 := registrar db
      {| b_usuario := request_user.1; b_accion := "ELIMINAR";
         b_tabla_afectada := "rol"; b_registro_id := pk;
         b_detalles :=
           JObj {[ "eliminado_por" := JStr (usuario request_user.2) ]} |} in
    (borrar_rol db1 pk, Ok ()).

(** [destroy]: [get_object], [perform_destroy], then 204. *)
Definition destroy (db : DB) (request_user : Z * Usuario) (pk : Z)
  : DB * result Response :=
  match get_object db request_user pk with
  | Raise e => (db, Raise e)
  | Ok instance =>
      match perform_destroy db request_user pk instance with
      | (db', Raise e) => (db', Raise e)
      | (db', Ok _) => (db', Ok {| status := 204; data := JNull |})
      end
  end.

(** [serializer.save()] on creation: absent fields take the defaults
    of the model. *)
Definition rol_nuevo (n : string) (validated : RolData) : Rol :=
  {| nombre := n;
     descripcion := default None (d_descripcion validated);
     permisos := default (JObj ∅) (d_permisos validated);
     es_sistema := default false (d_es_sistema validated) |}.

(** [serializer.save()] on update: present fields are assigned. *)
Definition rol_actualizado (instance : Rol) (validated : RolData) : Rol :=
  {| nombre := default (nombre instance) (d_nombre validated);
     descripcion := default (descripcion instance) (d_descripcion validated);
     permisos := default (permisos instance) (d_permisos validated);
     es_sistema := default (es_sistema instance) (d_es_sistema validated) |}.

(** [create]: the serializer of [serializer_class] validates, then
    [perform_create] (views.py line 371) saves and logs. *)
Definition create (db : DB) (request_user : Z * Usuario) (body : RolData)
  : DB * result Response :=
  match RolSerializer.is_valid (roles db) None false body with
  | Raise e => (db, Raise e)
  | Ok validated =>
      match insertar_rol db (rol_nuevo (default "" (d_nombre validated))
                                       validated) with
      | Raise e => (db, Raise e)
      | Ok (db1, pk) =>
          let db2 := registrar db1
            {| b_usuario := request_user.1; b_accion := "CREAR";
               b_tabla_afectada := "rol"; b_registro_id := pk;
               b_detalles :=
                 JObj {[ "creado_por" := JStr (usuario request_user.2) ]} |} in
          (db2, Ok {| status := 201;
                      data := default JNull (rol_data pk <$> roles db2 !! pk) |})
      end
  end.

(** [update]: [get_object], validation against the instance, then
    [perform_update] (views.py line 382) saves and logs.  [partial] is
    false for PUT and true for PATCH. *)
Definition update (db : DB) (request_user : Z * Usuario) (pk : Z)
    (partial : bool) (body : RolData) : DB * result Response :=
  match get_object db request_user pk with
  | Raise e => (db, Raise e)
  | Ok instance =>
      match RolSerializer.is_valid (roles db) (Some (pk, instance)) partial
              body with
      | Raise e => (db, Raise e)
      | Ok validated =>
          let rol := rol_actualizado instance validated in
          let db1 := guardar_rol db pk rol in
          let db2 := registrar db1
            {| b_usuario := request_user.1; b_accion := "ACTUALIZAR";
               b_tabla_afectada := "rol"; b_registro_id := pk;
               b_detalles :=
                 JObj {[ "actualizado_por" := JStr (usuario request_user.2) ]} |} in
          (db2, Ok {| status := 200; data := rol_data pk rol |})
      end
  end.

(** [quitar_usuario] (views.py line 456). *)
Definition quitar_usuario (db : DB) (request_user : Z * Usuario) (pk : Z)
    (usuario_id : option Z) : DB * result Response :=
  match get_object db request_user pk with
  | Raise e => (db, Raise e)
  | Ok rol =>
      if sin_id usuario_id
      then (db, Ok (error_response 400 "usuario_id es requerido"))
      else
        let uid := default 0%Z usuario_id in
        match usuarios db !! uid with
        | None => (db, Ok (error_response 404 "Usuario no encontrado"))
        | Some usuario_ =>
            match obj_get (filter (λ ur, ur_rol ur = pk)
                                  (asignaciones_de db uid)) with
            | Raise DoesNotExist =>
                (db, Ok (error_response 404
                           "El usuario no tiene asignado este rol"))
            | Raise e => (db, Raise e)
            | Ok usuario_rol =>
                let otros_roles_sistema :=
                  length (filter (λ ur, ur_id ur ≠ ur_id usuario_rol)
                            (filter (λ ur, rol_es_sistema db ur = true)
                               (asignaciones_de db uid))) in
                if es_sistema rol && Nat.eqb otros_roles_sistema 0
                then (db, Ok (error_response 400
                        "No se puede quitar el último rol del sistema del usuario"))
                else quitar db request_user rol usuario_ usuario_rol
            end
        end
  end.

(** [duplicar] (views.py line 522). *)
Definition duplicar (db : DB) (request_user : Z * Usuario) (pk : Z)
    (nuevo_nombre : option string) (descripcion_ : option string)
  : DB * result Response :=
  match get_object db request_user pk with
  | Raise e => (db, Raise e)
  | Ok rol_original =>
      if sin_texto nuevo_nombre
      then (db, Ok (error_response 400 "nuevo_nombre es requerido"))
      else
        let nuevo := default "" nuevo_nombre in
        if existe_nombre_iexact (roles db) nuevo None
        then (db, Ok (error_response 400 "Ya existe un rol con este nombre"))
        else
          match copia ← py_copy (permisos rol_original);
                insertar_rol db
                  {| nombre := nuevo;
                     descripcion :=
                       Some (default ("Copia de " ++ nombre rol_original)
                                     descripcion_);
                     permisos := copia;
                     es_sistema := false |} with
          | Raise e => (db, Raise e)
          | Ok (db1, nuevo_id) =>
              let db2 := registrar db1
                {| b_usuario := request_user.1; b_accion := "CREAR";
                   b_tabla_afectada := "rol"; b_registro_id := nuevo_id;
                   b_detalles :=
                     JObj (<["rol_duplicado" := JStr (nombre rol_original)]>
                          (<["creado_por" :=
                               JStr (usuario request_user.2)]> ∅)) |} in
              (db2, Ok {| status := 201;
                          data := default JNull
                                    (rol_data nuevo_id <$> roles db2 !! nuevo_id) |})
          end
  end.

End RolViewSet.

(** ** views.py: the function views of the role use case *)

(** The serialized form of an assignment. *)
Definition usuario_rol_data (db : DB) (ur : UsuarioRol) : json :=
  JObj (<["id" := JNum (ur_id ur)]>
       (<["usuario" := JNum (ur_usuario ur)]>
       (<["rol" := JNum (ur_rol ur)]>
       (<["usuario_nombre" :=
            default JNull ((λ u, JStr (get_full_name u)) <$>
                           usuarios db !! ur_usuario ur)]>
       (<["rol_nombre" :=
            default JNull ((λ r, JStr (nombre r)) <$> roles db !! ur_rol ur)]>
          ∅))))).

(** [asignar_rol_usuario] (views.py line 1888), up to its [return]; the
    statements after it are never reached. *)
Definition asignar_rol_usuario (db : DB) (request_user : Z * Usuario)
    (usuario_id rol_id : option Z) : DB * result Response :=
  if negb (is_staff request_user.2)
  then (db, Ok (error_response 403 "Permisos insuficientes"))
  else if sin_id usuario_id || sin_id rol_id
  then (db, Ok (error_response 400 "usuario_id y rol_id son requeridos"))
  else
    let uid := default 0%Z usuario_id in
    let rid := default 0%Z rol_id in
    match usuarios db !! uid with
    | None => (db, Ok (error_response 404 "Usuario no encontrado"))
    | Some usuario_ =>
        match roles db !! rid with
        | None => (db, Ok (error_response 404 "Rol no encontrado"))
        | Some rol =>
            match filter (λ ur, ur_rol ur = rid) (asignaciones_de db uid) with
            | _ :: _ =>
                (db, Ok (error_response 400
                           "El usuario ya tiene asignado este rol"))
            | [] =>
                let id := (usuario_rol_seq db + 1)%Z in
                let usuario_rol :=
                  {| ur_id := id; ur_usuario := uid; ur_rol := rid |} in
                let db1 :=
                  {| roles := roles db; usuarios := usuarios db;
                     usuario_roles := usuario_roles db ++ [usuario_rol];
                     bitacora := bitacora db;
                     rol_seq := rol_seq db; usuario_rol_seq := id |} in
                let db2 := registrar db1
                  {| b_usuario := request_user.1; b_accion := "CREAR";
                     b_tabla_afectada := "usuario_rol"; b_registro_id := id;
                     b_detalles :=
                       JObj (<["rol_asignado" := JStr (nombre rol)]>
                            (<["usuario_afectado" := JStr (usuario usuario_)]>
                            (<["asignado_por" :=
                                 JStr (usuario request_user.2)]> ∅))) |} in
                (db2, Ok {| status := 201;
                            data := JObj (<["mensaje" :=
                                      JStr "Rol asignado exitosamente"]>
                                    (<["usuario_rol" :=
                                         usuario_rol_data db2 usuario_rol]> ∅)) |})
            end
        end
    end.

(** [quitar_rol_usuario] (views.py line 2076). *)
Definition quitar_rol_usuario (db : DB) (request_user : Z * Usuario)
    (usuario_id rol_id : option Z) : DB * result Response :=
  if negb (is_staff request_user.2)
  then (db, Ok (error_response 403 "Permisos insuficientes"))
  else if sin_id usuario_id || sin_id rol_id
  then (db, Ok (error_response 400 "usuario_id y rol_id son requeridos"))
  else
    let uid := default 0%Z usuario_id in
    let rid := default 0%Z rol_id in
    match usuarios db !! uid with
    | None => (db, Ok (error_response 404 "Usuario no encontrado"))
    | Some usuario_ =>
        match roles db !! rid with
        | None => (db, Ok (error_response 404 "Rol no encontrado"))
        | Some rol =>
            match obj_get (filter (λ ur, ur_rol ur = rid)
                                  (asignaciones_de db uid)) with
            | Raise DoesNotExist =>
                (db, Ok (error_response 404
                           "El usuario no tiene asignado este rol"))
            | Raise e => (db, Raise e)
            | Ok usuario_rol =>
                let otros_roles_usuario :=
                  length (filter (λ ur, ur_id ur ≠ ur_id usuario_rol)
                                 (asignaciones_de db uid)) in
                if es_sistema rol && Nat.eqb otros_roles_usuario 0
                then (db, Ok (error_response 400
                        "No se puede quitar el último rol del usuario"))
                else quitar db request_user rol usuario_ usuario_rol
            end
        end
    end.

(** The loop of [validar_permiso_usuario] over the roles of the user:
    it stops at the first role whose [tiene_permiso] is true. *)
Fixpoint algun_rol_permite (roles_usuario : list (UsuarioRol * Rol))
    (modulo accion : string) : result bool :=
  match roles_usuario with
  | [] => Ok false
  | usuario_rol :: resto =>
      permitido ← Rol.tiene_permiso (permisos usuario_rol.2) modulo accion;
      if truthy permitido then Ok true
      else algun_rol_permite resto modulo accion
  end.

(** The decision of [validar_permiso_usuario] (views.py lines 2244 to
    2253): the value of [tiene_permiso] for the user. *)
Definition tiene_permiso_usuario (usuario_ : Usuario)
    (roles_usuario : list (UsuarioRol * Rol)) (modulo accion : string)
  : result bool :=
  if is_staff usuario_ || is_superuser usuario_ then Ok true
  else algun_rol_permite roles_usuario modulo accion.

(** [validar_permiso_usuario] (views.py line 2212).  The query
    parameters arrive parsed; [None] is an absent or empty one. *)
Definition validar_permiso_usuario (db : DB) (request_user : Z * Usuario)
    (usuario_id : option Z) (modulo accion : option string)
  : result Response :=
  match usuario_id with
  | None => Ok (error_response 400 "usuario_id, modulo y accion son requeridos")
  | Some uid =>
      if sin_texto modulo || sin_texto accion
      then Ok (error_response 400 "usuario_id, modulo y accion son requeridos")
      else
        let modulo_ := default "" modulo in
        let accion_ := default "" accion in
        match usuarios db !! uid with
        | None => Ok (error_response 404 "Usuario no encontrado")
        | Some usuario_ =>
            if negb (is_staff request_user.2) &&
               negb (bool_decide (request_user.1 = uid))
            then Ok (error_response 403 "Permisos insuficientes")
            else
              tiene_permiso ←
                tiene_permiso_usuario usuario_
                  (con_rol db (asignaciones_de db uid)) modulo_ accion_;
              Ok {| status := 200;
                    data := JObj (<["usuario_id" := JNum uid]>
                                 (<["usuario" := JStr (usuario usuario_)]>
                                 (<["modulo" := JStr modulo_]>
                                 (<["accion" := JStr accion_]>
                                 (<["tiene_permiso" := JBool tiene_permiso]>
                                    ∅))))) |}
        end
  end.

(** The body of the innermost loop of [permisos_usuario]: a true value
    of the role switches the action on. *)
Definition activar (permisos_modulo : gmap string json)
    (item : string * json) : gmap string json :=
  if truthy item.2 then <[item.1 := JBool true]> permisos_modulo
  else permisos_modulo.

(** The loop of [permisos_usuario] over the roles, for one module. *)
Definition consolidar_rol (modulo : string)
    (permisos_modulo : gmap string json) (usuario_rol : UsuarioRol * Rol)
  : result (gmap string json) :=
  let rol_permisos := permisos usuario_rol.2 in
  presente ← py_in modulo rol_permisos;
  if (presente : bool) then
    acciones_rol ← py_getitem rol_permisos modulo;
    items ← py_items acciones_rol;
    Ok (foldl activar permisos_modulo items)
  else Ok permisos_modulo.

(** The consolidated permissions of one module (views.py lines 2185 to
    2197). *)
Definition permisos_de_modulo (usuario_ : Usuario)
    (roles_usuario : list (UsuarioRol * Rol)) (modulo : string)
  : result (gmap string json) :=
  if is_staff usuario_ || is_superuser usuario_
  then Ok (acciones_todas true)
  else for_each (consolidar_rol modulo) (acciones_todas false) roles_usuario.

(** [permisos_consolidados] (views.py lines 2176 to 2199). *)
Definition permisos_consolidados (usuario_ : Usuario)
    (roles_usuario : list (UsuarioRol * Rol)) : result (gmap string json) :=
  for_each (λ consolidados modulo,
              permisos_modulo ← permisos_de_modulo usuario_ roles_usuario modulo;
              Ok (<[modulo := JObj permisos_modulo]> consolidados))
           ∅ modulos.

(** [permisos_usuario] (views.py line 2152). *)
Definition permisos_usuario (db : DB) (request_user : Z * Usuario)
    (usuario_id : Z) : result Response :=
  match usuarios db !! usuario_id with
  | None => Ok (error_response 404 "Usuario no encontrado")
  | Some usuario_ =>
      if negb (is_staff request_user.2) &&
         negb (bool_decide (request_user.1 = usuario_id))
      then Ok (error_response 403 "Permisos insuficientes")
      else
        let roles_usuario := con_rol db (asignaciones_de db usuario_id) in
        consolidados ← permisos_consolidados usuario_ roles_usuario;
        Ok {| status := 200;
              data := JObj (<["usuario_id" := JNum usuario_id]>
                           (<["usuario" := JStr (usuario usuario_)]>
                           (<["nombre_completo" := JStr (get_full_name usuario_)]>
                           (<["roles" :=
                                JArr ((λ ur, JStr (nombre ur.2)) <$> roles_usuario)]>
                           (<["permisos" := JObj consolidados]> ∅))))) |}
  end.

(** [crear_rol_personalizado] (views.py line 2333); [descripcion] and
    [permisos] arrive with their defaults [''] and [{}] applied. *)
Definition crear_rol_personalizado (db : DB) (request_user : Z * Usuario)
    (nombre_ : option string) (descripcion_ : string) (permisos_ : json)
  : DB * result Response :=
  if negb (is_staff request_user.2)
  then (db, Ok (error_response 403 "Permisos insuficientes"))
  else if sin_texto nombre_
  then (db, Ok (error_response 400 "El nombre del rol es requerido"))
  else
    let n := default "" nombre_ in
    if existe_nombre_iexact (roles db) n None
    then (db, Ok (error_response 400 "Ya existe un rol con este nombre"))
    else
      match insertar_rol db {| nombre := n; descripcion := Some descripcion_;
                               permisos := permisos_; es_sistema := false |} with
      | Raise e => (db, Raise e)
      | Ok (db1, pk) =>
          let db2 := registrar db1
            {| b_usuario := request_user.1; b_accion := "CREAR";
               b_tabla_afectada := "rol"; b_registro_id := pk;
               b_detalles :=
                 JObj (<["tipo_rol" := JStr "personalizado"]>
                      (<["creado_por" := JStr (usuario request_user.2)]> ∅)) |} in
          (db2, Ok {| status := 201;
                      data := JObj (<["mensaje" :=
                                JStr "Rol personalizado creado exitosamente"]>
                              (<["rol" := default JNull
                                   (rol_data pk <$> roles db2 !! pk)]> ∅)) |})
      end.

(** ** Auxiliary definitions for the statements *)

(** One step of gap filling on a mapping. *)
Definition paso (m : gmap string json) (k : string) : gmap string json :=
  if bool_decide (is_Some (m !! k)) then m else <[k := sin_permisos]> m.

(** Gap filling of a mapping for a list of module names. *)
Definition rellenar (m : gmap string json) (ks : list string)
  : gmap string json :=
  foldl paso m ks.

Definition es_dict (v : json) : bool :=
  match v with JObj _ => true | _ => false end.

Definition es_bool (v : json) : bool :=
  match v with JBool _ => true | _ => false end.

(** A mapping from action names to booleans. *)
Definition es_acciones (v : json) : bool :=
  match v with
  | JObj acts => forallb (λ kv : string * json, es_bool kv.2) (map_to_list acts)
  | _ => false
  end.

(** A permission matrix: a mapping from module names to mappings from
    action names to booleans.  Neither level is required to be
    complete, and neither is confined to the closed sets. *)
Definition es_matriz (v : json) : bool :=
  match v with
  | JObj m => forallb (λ kv : string * json, es_acciones kv.2) (map_to_list m)
  | _ => false
  end.

(** The matrix holds the boolean [true] at cell (modulo, accion). *)
Definition concede (v : json) (modulo accion : string) : Prop :=
  ∃ m acts, v = JObj m ∧ m !! modulo = Some (JObj acts) ∧
            acts !! accion = Some (JBool true).

(** The number of system roles a user holds. *)
Definition roles_sistema_de (db : DB) (usuario_id : Z) : nat :=
  length (filter (λ ur, rol_es_sistema db ur = true)
                 (asignaciones_de db usuario_id)).

(** The property C3 asks of a normalized matrix: every module of the
    closed set is present, and within it every action of the closed set
    is present with a boolean value. *)
Definition matriz_completa (m : gmap string json) : Prop :=
  ∀ modulo accion, modulo ∈ modulos → accion ∈ acciones →
    ∃ (acts : gmap string json) (b : bool),
      m !! modulo = Some (JObj acts) ∧ acts !! accion = Some (JBool b).

(** ** Sample data *)

(** [{'ver': .., 'crear': .., 'editar': .., 'eliminar': .., 'aprobar': ..}] *)
Definition fila (ver crear editar eliminar aprobar : bool) : json :=
  JObj (<["ver" := JBool ver]> (<["crear" := JBool crear]>
       (<["editar" := JBool editar]> (<["eliminar" := JBool eliminar]>
       (<["aprobar" := JBool aprobar]> ∅))))).

(** [permisos_socio] of [Rol.crear_rol_socio] (models.py line 182). *)
Definition permisos_socio : json :=
  JObj (<["usuarios" := fila false false false false false]>
       (<["socios" := fila true false true false false]>
       (<["parcelas" := fila true true true false false]>
       (<["cultivos" := fila true true true true false]>
       (<["ciclos_cultivo" := fila true true true true false]>
       (<["cosechas" := fila true true true true false]>
       (<["tratamientos" := fila true true true true false]>
       (<["analisis_suelo" := fila true true true true false]>
       (<["transferencias" := fila true true false false false]>
       (<["reportes" := fila true false false false false]>
       (<["auditoria" := fila false false false false false]>
       (<["configuracion" := fila false false false false false]> ∅)))))))))))).

(** [permisos_admin] of [Rol.crear_rol_administrador] (models.py line
    147). *)
Definition permisos_admin : json :=
  JObj (<["usuarios" := fila true true true true true]>
       (<["socios" := fila true true true true true]>
       (<["parcelas" := fila true true true true true]>
       (<["cultivos" := fila true true true true true]>
       (<["ciclos_cultivo" := fila true true true true true]>
       (<["cosechas" := fila true true true true true]>
       (<["tratamientos" := fila true true true true true]>
       (<["analisis_suelo" := fila true true true true true]>
       (<["transferencias" := fila true true true true true]>
       (<["reportes" := fila true true true true true]>
       (<["auditoria" := fila true true true true true]>
       (<["configuracion" := fila true true true true true]> ∅)))))))))))).

(** A partial input: one module, one action. *)
Definition entrada_parcial : gmap string json :=
  {[ "usuarios" := JObj {[ "ver" := JBool true ]} ]}.

(** A mapping whose leaf is a string, not a boolean. *)
Definition entrada_hoja_texto : gmap string json :=
  {[ "usuarios" := JObj {[ "ver" := JStr "si" ]} ]}.

(** A matrix with a module outside the closed set. *)
Definition matriz_extra : json :=
  JObj {[ "extra" := JObj {[ "ver" := JBool true ]} ]}.

(** Roles and users in the manner of the set-up of
    test_cu6_gestionar_roles_permisos.py. *)
Definition rol_socio : Rol :=
  {| nombre := "SOCIO"; descripcion := Some "Rol para socios de la cooperativa";
     permisos := permisos_socio; es_sistema := true |}.

Definition rol_admin : Rol :=
  {| nombre := "ADMINISTRADOR"; descripcion := Some "Rol con permisos completos";
     permisos := permisos_admin; es_sistema := true |}.

Definition rol_personalizado : Rol :=
  {| nombre := "ROL PERSONALIZADO";
     descripcion := Some "Rol personalizado para pruebas";
     permisos := JObj {[ "usuarios" := fila true false false false false ]};
     es_sistema := false |}.

Definition admin_user : Usuario :=
  {| usuario := "admin"; nombres := "Admin"; apellidos := "Sistema";
     is_staff := true; is_superuser := false |}.

Definition usuario1 : Usuario :=
  {| usuario := "usuario1"; nombres := "Juan"; apellidos := "Perez";
     is_staff := false; is_superuser := false |}.

Definition superusuario : Usuario :=
  {| usuario := "root"; nombres := "Root"; apellidos := "Sistema";
     is_staff := false; is_superuser := true |}.

(** Roles 1 (system), 2 (system) and 4 (custom); [usuario1] (id 2)
    holds the system role SOCIO and the custom role. *)
Definition db_ejemplo : DB :=
  {| roles := <[1%Z := rol_admin]> (<[2%Z := rol_socio]>
              (<[4%Z := rol_personalizado]> ∅));
     usuarios := <[1%Z := admin_user]> (<[2%Z := usuario1]> ∅);
     usuario_roles :=
       [ {| ur_id := 1; ur_usuario := 1; ur_rol := 1 |};
         {| ur_id := 2; ur_usuario := 2; ur_rol := 2 |};
         {| ur_id := 4; ur_usuario := 2; ur_rol := 4 |} ];
     bitacora := [];
     rol_seq := 4; usuario_rol_seq := 4 |}.

(** A request body that asks for a role named like ADMINISTRADOR but
    in another case. *)
Definition cuerpo_administrador : RolData :=
  {| d_nombre := Some "Administrador"; d_descripcion := None;
     d_permisos := None; d_es_sistema := None |}.

(** The report of a user who holds everything: each module of the
    closed set with all five actions [true]. *)
Definition todos_los_permisos : gmap string json :=
  foldl (λ consolidados modulo,
           <[modulo := JObj (acciones_todas true)]> consolidados)
        ∅ modulos.

(** The status of the response a view ends with, if it ends with one. *)
Definition estado (salida : DB * result Response) : option Z :=
  match salida.2 with
  | Ok respuesta => Some (status respuesta)
  | Raise _ => None
  end.

(** ** Text helpers of Python

    Strings are taken as ASCII text; on it [str.strip], [str.lower] and
    [str.title] are the functions below ([upper] is above). *)

Definition es_espacio (c : ascii) : bool :=
  let n := nat_of_ascii c in
  (Nat.leb 9 n && Nat.leb n 13) || (Nat.leb 28 n && Nat.leb n 32).

Definition es_minuscula (c : ascii) : bool :=
  let n := nat_of_ascii c in Nat.leb 97 n && Nat.leb n 122.

Definition es_mayuscula (c : ascii) : bool :=
  let n := nat_of_ascii c in Nat.leb 65 n && Nat.leb n 90.

Definition es_letra (c : ascii) : bool := es_minuscula c || es_mayuscula c.

Definition es_digito (c : ascii) : bool :=
  let n := nat_of_ascii c in Nat.leb 48 n && Nat.leb n 57.

Definition lower_ascii (c : ascii) : ascii :=
  if es_mayuscula c then ascii_of_nat (nat_of_ascii c + 32) else c.

Fixpoint lower (s : string) : string :=
  match s with
  | EmptyString => EmptyString
  | String c s' => String (lower_ascii c) (lower s')
  end.

Fixpoint lstrip (s : string) : string :=
  match s with
  | EmptyString => EmptyString
  | String c s' => if es_espacio c then lstrip s' else s
  end.

Fixpoint rstrip (s : string) : string :=
  match s with
  | EmptyString => EmptyString
  | String c s' =>
      match rstrip s' with
      | EmptyString => if es_espacio c then EmptyString else String c EmptyString
      | resto => String c resto
      end
  end.

(** [s.strip()] *)
Definition py_strip (s : string) : string := rstrip (lstrip s).

(** [s.title()]: a letter that follows a letter is lowered, any other
    letter is raised; [previo] tells whether the character before was a
    letter. *)
Fixpoint title_desde (previo : bool) (s : string) : string :=
  match s with
  | EmptyString => EmptyString
  | String c s' =>
      String (if previo then lower_ascii c else upper_ascii c)
             (title_desde (es_letra c) s')
  end.

Definition py_title (s : string) : string := title_desde false s.

(** ** More of models.py: the other methods of [Rol] *)

Module RolMetodos.

(** [Rol.clean] (models.py line 78). *)
Definition clean (self : Rol) : result Rol :=
  let nombre_ :=
    if negb (String.eqb (nombre self) "")
    then py_title (py_strip (nombre self))
    else nombre self in
  permisos_ ←
    (if truthy (permisos self)
     then Rol._validar_estructura_permisos (permisos self)
     else Ok (permisos self));
  Ok {| nombre := nombre_; descripcion := descripcion self;
        permisos := permisos_; es_sistema := es_sistema self |}.

(** The inner loop of [obtener_permisos_completos]: the titles of the
    actions whose value is true. *)
Definition acciones_permitidas (items : list (string * json)) : list string :=
  (λ item : string * json, py_title item.1)
    <$> filter (λ item : string * json, truthy item.2 = true) items.

(** The body of the outer loop. *)
Definition describir_modulo (permisos_completos : gmap string (list string))
    (item : string * json) : result (gmap string (list string)) :=
  items ← py_items item.2;
  match acciones_permitidas items with
  | [] => Ok permisos_completos
  | permisos_modulo =>
      Ok (<[py_title item.1 := permisos_modulo]> permisos_completos)
  end.

(** [Rol.obtener_permisos_completos] (models.py line 123).  A Python
    dict iterates in insertion order; the embedding iterates in the
    order of [map_to_list]. *)
Definition obtener_permisos_completos (permisos : json)
  : result (gmap string (list string)) :=
  if negb (truthy permisos) then Ok ∅
  else
    items ← py_items permisos;
    for_each describir_modulo ∅ items.

(** [permisos_operador] of [crear_rol_operador] (models.py line 217). *)
Definition permisos_operador : json :=
  JObj (<["usuarios" := fila true false false false false]>
       (<["socios" := fila true true true false true]>
       (<["parcelas" := fila true true true false true]>
       (<["cultivos" := fila true true true true true]>
       (<["ciclos_cultivo" := fila true true true true true]>
       (<["cosechas" := fila true true true true true]>
       (<["tratamientos" := fila true true true true true]>
       (<["analisis_suelo" := fila true true true true true]>
       (<["transferencias" := fila true true true false true]>
       (<["reportes" := fila true true true false false]>
       (<["auditoria" := fila true false false false false]>
       (<["configuracion" := fila true false false false false]> ∅)))))))))))).

(** [Rol.objects.filter(nombre=n)]: the rows with exactly this name. *)
Definition filas_con_nombre (tabla : gmap Z Rol) (n : string)
  : list (Z * Rol) :=
  map_to_list (filter (λ fila : Z * Rol, nombre fila.2 = n) tabla).

(** The body the three [crear_rol_...] class methods share:
    [get_or_create] by exact name with the given defaults and, when the
    role was already there, the refresh of its description, permissions
    and system flag. *)
Definition crear_rol_sistema (db : DB) (n descripcion_ : string)
    (permisos_ : json) : result (DB * Z) :=
  match filas_con_nombre (roles db) n with
  | [] =>
      insertar_rol db {| nombre := n; descripcion := Some descripcion_;
                         permisos := permisos_; es_sistema := true |}
  | [(pk, rol)] =>
      Ok (guardar_rol db pk
            {| nombre := nombre rol; descripcion := Some descripcion_;
               permisos := permisos_; es_sistema := true |}, pk)
  | _ => Raise MultipleObjectsReturned
  end.

(** [Rol.crear_rol_administrador] (models.py line 145). *)
Definition crear_rol_administrador (db : DB) : result (DB * Z) :=
  crear_rol_sistema db "Administrador"
    "Rol con permisos completos de administración del sistema"
    permisos_admin.

(** [Rol.crear_rol_socio] (models.py line 180). *)
Definition crear_rol_socio (db : DB) : result (DB * Z) :=
  crear_rol_sistema db "Socio"
    "Rol para socios de la cooperativa con acceso limitado a sus propios datos"
    permisos_socio.

(** [Rol.crear_rol_operador] (models.py line 215). *)
Definition crear_rol_operador (db : DB) : result (DB * Z) :=
  crear_rol_sistema db "Operador"
    "Rol para operadores con permisos intermedios de gestión operativa"
    permisos_operador.

End RolMetodos.

(** ** More of views.py: the other actions of [RolViewSet] *)

Module RolViewSetAcciones.

(** [asignar_usuario] (views.py line 408). *)
Definition asignar_usuario (db : DB) (request_user : Z * Usuario) (pk : Z)
    (usuario_id : option Z) : DB * result Response :=
  match RolViewSet.get_object db request_user pk with
  | Raise e => (db, Raise e)
  | Ok rol =>
      if sin_id usuario_id
      then (db, Ok (error_response 400 "usuario_id es requerido"))
      else
        let uid := default 0%Z usuario_id in
        match usuarios db !! uid with
        | None => (db, Ok (error_response 404 "Usuario no encontrado"))
        | Some usuario_ =>
            match filter (λ ur, ur_rol ur = pk) (asignaciones_de db uid) with
            | _ :: _ =>
                (db, Ok (error_response 400
                           "El usuario ya tiene asignado este rol"))
            | [] =>
                let id := (usuario_rol_seq db + 1)%Z in
                let usuario_rol :=
                  {| ur_id := id; ur_usuario := uid; ur_rol := pk |} in
                let db1 :=
                  {| roles := roles db; usuarios := usuarios db;
                     usuario_roles := usuario_roles db ++ [usuario_rol];
                     bitacora := bitacora db;
                     rol_seq := rol_seq db; usuario_rol_seq := id |} in
                let db2 := registrar db1
                  {| b_usuario := request_user.1; b_accion := "CREAR";
                     b_tabla_afectada := "usuario_rol"; b_registro_id := id;
                     b_detalles :=
                       JObj (<["rol_asignado" := JStr (nombre rol)]>
                            (<["usuario_afectado" := JStr (usuario usuario_)]>
                            (<["asignado_por" :=
                                 JStr (usuario request_user.2)]> ∅))) |} in
                (db2, Ok {| status := 201;
                            data := usuario_rol_data db2 usuario_rol |})
            end
        end
  end.

(** [usuarios] (views.py line 514): the assignments of the role. *)
Definition usuarios_de_rol (db : DB) (request_user : Z * Usuario) (pk : Z)
  : result Response :=
  rol ← RolViewSet.get_object db request_user pk;
  Ok {| status := 200;
        data := JArr (usuario_rol_data db
                        <$> filter (λ ur, ur_rol ur = pk) (usuario_roles db)) |}.

End RolViewSetAcciones.

(** ** Auxiliary definitions for the statements about the registry *)

(** The three bootstrap methods, each with the role it leaves. *)
Definition arranques : list ((DB → result (DB * Z)) * Rol) :=
  [ (RolMetodos.crear_rol_administrador,
     {| nombre := "Administrador";
        descripcion :=
          Some "Rol con permisos completos de administración del sistema";
        permisos := permisos_admin; es_sistema := true |});
    (RolMetodos.crear_rol_socio,
     {| nombre := "Socio";
        descripcion :=
          Some "Rol para socios de la cooperativa con acceso limitado a sus propios datos";
        permisos := permisos_socio; es_sistema := true |});
    (RolMetodos.crear_rol_operador,
     {| nombre := "Operador";
        descripcion :=
          Some "Rol para operadores con permisos intermedios de gestión operativa";
        permisos := RolMetodos.permisos_operador; es_sistema := true |}) ].

(** The primary keys of the roles were drawn from the sequence. *)
Definition secuencia_rol_valida (db : DB) : bool :=
  forallb (λ fila : Z * Rol, Z.leb fila.1 (rol_seq db)) (map_to_list (roles db)).

(** The unique index on [Rol.nombre]: no two rows have the same name. *)
Definition nombres_unicos (db : DB) : bool :=
  bool_decide (NoDup ((λ fila : Z * Rol, nombre fila.2)
                      <$> map_to_list (roles db))).

(** [matriz_completa], as a test. *)
Definition completa_b (m : gmap string json) : bool :=
  forallb (λ modulo,
             match m !! modulo with
             | Some (JObj acts) =>
                 forallb (λ accion,
                            match acts !! accion with
                            | Some (JBool _) => true
                            | _ => false
                            end) acciones
             | _ => false
             end) modulos.

(** The assignment table is well formed: a user holds a role at most
    once ([unique_together] of [UsuarioRol]), the ids are distinct and
    were drawn from the sequence. *)
Definition asignaciones_validas (db : DB) : bool :=
  bool_decide (NoDup ((λ ur, (ur_usuario ur, ur_rol ur)) <$> usuario_roles db))
  && bool_decide (NoDup (ur_id <$> usuario_roles db))
  && forallb (λ ur, Z.leb (ur_id ur) (usuario_rol_seq db)) (usuario_roles db).

(** Every assignment points to a role of the table. *)
Definition referencias_validas (db : DB) : bool :=
  forallb (λ ur, bool_decide (is_Some (roles db !! ur_rol ur)))
          (usuario_roles db).

(** The request was answered with a 2xx response. *)
Definition exito (r : result Response) : bool :=
  match r with
  | Ok resp => Z.ltb (status resp) 300
  | Raise _ => false
  end.

(** The database after [UsuarioRol.objects.create(usuario=.., rol=..)]. *)
Definition anadir_asignacion (db : DB) (uid rid : Z) : DB :=
  {| roles := roles db; usuarios := usuarios db;
     usuario_roles :=
       usuario_roles db ++ [{| ur_id := (usuario_rol_seq db + 1)%Z;
                               ur_usuario := uid; ur_rol := rid |}];
     bitacora := bitacora db;
     rol_seq := rol_seq db;
     usuario_rol_seq := (usuario_rol_seq db + 1)%Z |}.

(** The database after [Rol.objects.create(...)] has stored a role. *)
Definition anadir_rol (db : DB) (rol : Rol) : DB :=
  {| roles := <[(rol_seq db + 1)%Z := rol]> (roles db);
     usuarios := usuarios db;
     usuario_roles := usuario_roles db; bitacora := bitacora db;
     rol_seq := (rol_seq db + 1)%Z;
     usuario_rol_seq := usuario_rol_seq db |}.


(** The body of a PATCH that clears the system flag of a role. *)
Definition cuerpo_sin_marca : RolData :=
  {| d_nombre := None; d_descripcion := None; d_permisos := None;
     d_es_sistema := Some false |}.

(** [concede], as a test. *)
Definition concede_b (v : json) (modulo accion : string) : bool :=
  match v with
  | JObj m =>
      match m !! modulo with
      | Some (JObj acts) =>
          match acts !! accion with
          | Some (JBool true) => true
          | _ => false
          end
      | _ => false
      end
  | _ => false
  end.

Module UsuarioMetodos.

(** [Usuario.clean] (models.py line 371). *)
Definition clean (self : Usuario) : Usuario :=
  {| usuario :=
       if negb (String.eqb (usuario self) "")
       then py_strip (lower (usuario self)) else usuario self;
     nombres :=
       if negb (String.eqb (nombres self) "")
       then py_title (py_strip (nombres self)) else nombres self;
     apellidos :=
       if negb (String.eqb (apellidos self) "")
       then py_title (py_strip (apellidos self)) else apellidos self;
     is_staff := is_staff self;
     is_superuser := is_superuser self |}.

End UsuarioMetodos.

(** ** models.py: [validate_ci_nit] and [Socio]

    As above, strings are taken as ASCII text, on which [\d] is
    [[0-9]]. *)

(** The class [[0-9\-]]. *)
Definition es_ci_nit (c : ascii) : bool := es_digito c || Ascii.eqb c "-".

(** [re.sub(r'[^\d]', '', s)] *)
Fixpoint solo_digitos (s : string) : string :=
  match s with
  | EmptyString => EmptyString
  | String c s' =>
      if es_digito c then String c (solo_digitos s') else solo_digitos s'
  end.

(** [validate_ci_nit] (models.py line 10).  The value has been stripped
    when [re.match(r'^[0-9\-]+$', value)] runs, so it cannot end in a
    newline and the pattern asks for a non-empty text of digits and
    hyphens. *)
Definition validate_ci_nit (value : string) : result string :=
  if String.eqb value ""
  then Raise (ValidationError (JStr "CI/NIT es requerido"))
  else
    let value := upper (py_strip value) in
    if negb (negb (String.eqb value "") &&
             forallb es_ci_nit (list_ascii_of_string value))
    then Raise (ValidationError
                  (JStr "CI/NIT solo puede contener números y guiones"))
    else
      let digits_only := solo_digitos value in
      if Nat.ltb (String.length digits_only) 6 ||
         Nat.ltb 12 (String.length digits_only)
      then Raise (ValidationError
                    (JStr "CI/NIT debe tener entre 6 y 12 dígitos"))
      else Ok value.

(** A [datetime.date]. *)
Record fecha : Type := {
  year : Z;
  month : Z;
  day : Z
}.

(** [a <= b] on dates. *)
Definition fecha_leb (a b : fecha) : bool :=
  Z.ltb (year a) (year b) ||
  (Z.eqb (year a) (year b) &&
   (Z.ltb (month a) (month b) ||
    (Z.eqb (month a) (month b) && Z.leb (day a) (day b)))).

(** [(a1, a2) < (b1, b2)] on tuples of integers. *)
Definition tupla_menor (a b : Z * Z) : bool :=
  Z.ltb a.1 b.1 || (Z.eqb a.1 b.1 && Z.ltb a.2 b.2).

(** The age formula of [Socio.clean] (models.py lines 508 to 510), which
    [SocioSerializer.get_edad] and [UsuarioSerializer.get_edad] repeat:
    the comparison of the tuples counts as 1 when true. *)
Definition edad (today nacimiento : fecha) : Z :=
  year today - year nacimiento
  - (if tupla_menor (month today, day today)
                    (month nacimiento, day nacimiento)
     then 1 else 0).

(** The columns of [Socio] that [clean] reads and writes, with the
    [ci_nit] of the user the socio belongs to. *)
Record Socio : Type := {
  fecha_nacimiento : option fecha;
  codigo_interno : option string;
  usuario_ci_nit : string
}.

(** The [RegexValidator] of [Socio.codigo_interno]:
    [^[A-Z0-9\-]+$]. *)
Definition codigo_interno_valido (codigo : string) : bool :=
  negb (String.eqb codigo "") &&
  forallb (λ c, es_mayuscula c || es_digito c || Ascii.eqb c "-")
          (list_ascii_of_string codigo).

Module SocioMetodos.

(** [Socio.clean] (models.py line 503); [today] is [date.today()]. *)
Definition clean (today : fecha) (self : Socio) : result Socio :=
  _ ← match fecha_nacimiento self with
      | Some nacimiento =>
          if Z.ltb (edad today nacimiento) 18
          then Raise (ValidationError
                        (JStr "El socio debe tener al menos 18 años"))
          else Ok ()
      | None => Ok ()
      end;
  if sin_texto (codigo_interno self)
  then
    let ci_digits := solo_digitos (usuario_ci_nit self) in
    Ok {| fecha_nacimiento := fecha_nacimiento self;
          codigo_interno := Some ("SOC-" ++ String.substring 0 8 ci_digits);
          usuario_ci_nit := usuario_ci_nit self |}
  else Ok self.

End SocioMetodos.

(** [SocioSerializer.get_edad] (serializers.py line 264). *)
Definition get_edad (today : fecha) (socio : Socio) : option Z :=
  edad today <$> fecha_nacimiento socio.

(** A socio born on 29 February 2000, without a code, whose user has
    the NIT 1234567-8901. *)
Definition socio_ejemplo : Socio :=
  {| fecha_nacimiento := Some {| year := 2000; month := 2; day := 29 |};
     codigo_interno := None;
     usuario_ci_nit := "1234567-8901" |}.

(** ** views.py: the pagination of the search views

    [buscar_socios_avanzado], [buscar_socios_por_cultivo],
    [buscar_ciclos_cultivo_avanzado], [buscar_roles_avanzado] and
    [buscar_parcelas_avanzado] end with the same statements, from
    [page = int(...)] to the response.  The filtered queryset is the
    list of its rows, in the order the database returns them; [page]
    and [page_size] arrive parsed. *)

(** The two ways in which these statements fail: the error
    [QuerySet.__getitem__] raises on a negative bound, and Python's
    [ZeroDivisionError]. *)
Inductive error_paginacion : Type :=
  | IndiceNegativo
  | DivisionPorCero.

(** [queryset[start:end]].  A negative bound is refused; otherwise
    [Query.set_limits] keeps the rows from [min(end, start)] up to
    [end]. *)
Definition slice {A} (queryset : list A) (start end_ : Z)
  : error_paginacion + list A :=
  if Z.ltb start 0 || Z.ltb end_ 0 then inl IndiceNegativo
  else
    let high_mark := end_ in
    let low_mark := Z.min high_mark start in
    inr (take (Z.to_nat (high_mark - low_mark))
              (drop (Z.to_nat low_mark) queryset)).

(** The fields of the response that depend on the pagination. *)
Record Pagina (A : Type) : Type := {
  count : Z;
  total_pages : Z;
  results : list A
}.
Arguments count {A} _.
Arguments total_pages {A} _.
Arguments results {A} _.

(** The statements from [start = (page - 1) * page_size] to the
    response; [//] rounds down, as [Z.div] does for either sign of the
    divisor. *)
Definition paginar {A} (queryset : list A) (page page_size : Z)
  : error_paginacion + Pagina A :=
  let start := ((page - 1) * page_size)%Z in
  let end_ := (start + page_size)%Z in
  let total_count := Z.of_nat (length queryset) in
  match slice queryset start end_ with
  | inl e => inl e
  | inr filas =>
      if Z.eqb page_size 0 then inl DivisionPorCero
      else inr {| count := total_count;
                  total_pages := ((total_count + page_size - 1) / page_size)%Z;
                  results := filas |}
  end.


(** ** models.py and views.py: the transfer of a parcel

    The columns of [Parcela] and [TransferenciaParcela] that the
    transfer logic reads and writes.  [Parcela.save] runs
    [full_clean], which validates every column of the parcel; that
    validation is a parameter [full_clean] of the embedding, applied to
    the key and the values of the parcel. *)

Record Parcela : Type := {
  p_socio : Z;
  p_estado : string
}.

Record TransferenciaParcela : Type := {
  t_parcela : Z;
  t_socio_anterior : Z;
  t_socio_nuevo : Z;
  t_estado : string;
  t_autorizado_por : option Z;
  t_fecha_aprobacion : option Z;
  t_observaciones : option string
}.

Record DBT : Type := {
  parcelas : gmap Z Parcela;
  transferencias : gmap Z TransferenciaParcela;
  bitacora_transferencias : list BitacoraAuditoria
}.

Module ParcelaMetodos.

(** [Parcela.save] (models.py line 607). *)
Definition save (full_clean : Z → Parcela → result unit) (db : DBT)
    (pk : Z) (self : Parcela) : result DBT :=
  _ ← full_clean pk self;
  Ok {| parcelas := <[pk := self]> (parcelas db);
        transferencias := transferencias db;
        bitacora_transferencias := bitacora_transferencias db |}.

End ParcelaMetodos.

Module TransferenciaParcelaMetodos.

(** [TransferenciaParcela.clean] (models.py line 1054); model
    instances are equal when their keys are. *)
Definition clean (db : DBT) (self : TransferenciaParcela) : result unit :=
  if Z.eqb (t_socio_anterior self) (t_socio_nuevo self)
  then Raise (ValidationError
                (JStr "El socio anterior y nuevo no pueden ser el mismo"))
  else
    match parcelas db !! t_parcela self with
    | None => Raise DoesNotExist
    | Some parcela =>
        if negb (Z.eqb (p_socio parcela) (t_socio_anterior self))
        then Raise (ValidationError
                      (JStr "El socio anterior no es el propietario actual de la parcela"))
        else Ok ()
    end.

(** [TransferenciaParcela.save] (models.py line 1063): the parcel is
    given to the new socio and saved, then the transfer is stored. *)
Definition save (full_clean : Z → Parcela → result unit) (db : DBT)
    (pk : Z) (self : TransferenciaParcela) : result DBT :=
  match parcelas db !! t_parcela self with
  | None => Raise DoesNotExist
  | Some parcela =>
      let parcela := {| p_socio := t_socio_nuevo self;
                        p_estado := p_estado parcela |} in
      db1 ← ParcelaMetodos.save full_clean db (t_parcela self) parcela;
      Ok {| parcelas := parcelas db1;
            transferencias := <[pk := self]> (transferencias db1);
            bitacora_transferencias := bitacora_transferencias db1 |}
  end.

End TransferenciaParcelaMetodos.

(** The columns of a transfer in the response; the nested objects that
    [TransferenciaParcelaSerializer] adds are left out. *)
Definition transferencia_data (pk : Z) (t : TransferenciaParcela) : json :=
  JObj (<["id" := JNum pk]>
       (<["parcela" := JNum (t_parcela t)]>
       (<["socio_anterior" := JNum (t_socio_anterior t)]>
       (<["socio_nuevo" := JNum (t_socio_nuevo t)]>
       (<["estado" := JStr (t_estado t)]>
       (<["autorizado_por" :=
            match t_autorizado_por t with Some u => JNum u | None => JNull end]>
       (<["fecha_aprobacion" :=
            match t_fecha_aprobacion t with Some f => JNum f | None => JNull end]>
       (<["observaciones" :=
            match t_observaciones t with Some o => JStr o | None => JNull end]>
          ∅)))))))).

(** [procesar_transferencia_parcela] (views.py line 1824); [ahora] is
    [timezone.now()].  [transferencia.aprobado_por = request.user]
    sets an attribute that is not a column of the model, so nothing of
    it is stored. *)
Definition procesar_transferencia_parcela
    (full_clean : Z → Parcela → result unit) (db : DBT)
    (request_user : Z * Usuario) (transferencia_id : Z)
    (accion : option string) (observaciones : string) (ahora : Z)
  : DBT * result Response :=
  match transferencias db !! transferencia_id with
  | None => (db, Ok (error_response 404 "Transferencia no encontrada"))
  | Some transferencia =>
      if negb (is_staff request_user.2)
      then (db, Ok (error_response 403 "Permisos insuficientes"))
      else
        match accion with
        | Some accion_ =>
            if negb (String.eqb accion_ "APROBAR" ||
                     String.eqb accion_ "RECHAZAR")
            then (db, Ok (error_response 400
                            "Acción debe ser APROBAR o RECHAZAR"))
            else
              let aprobar := String.eqb accion_ "APROBAR" in
              let paso1 :=
                if aprobar then
                  match parcelas db !! t_parcela transferencia with
                  | None => Raise DoesNotExist
                  | Some parcela =>
                      ParcelaMetodos.save full_clean db
                        (t_parcela transferencia)
                        {| p_socio := t_socio_nuevo transferencia;
                           p_estado := p_estado parcela |}
                  end
                else Ok db in
              match paso1 with
              | Raise e => (db, Raise e)
              | Ok db1 =>
                  let transferencia :=
                    {| t_parcela := t_parcela transferencia;
                       t_socio_anterior := t_socio_anterior transferencia;
                       t_socio_nuevo := t_socio_nuevo transferencia;
                       t_estado := if aprobar then "APROBADA" else "RECHAZADA";
                       t_autorizado_por := t_autorizado_por transferencia;
                       t_fecha_aprobacion :=
                         if aprobar then Some ahora
                         else t_fecha_aprobacion transferencia;
                       t_observaciones := Some observaciones |} in
                  match TransferenciaParcelaMetodos.save full_clean db1
                          transferencia_id transferencia with
                  | Raise e => (db1, Raise e)
                  | Ok db2 =>
                      let db3 :=
                        {| parcelas := parcelas db2;
                           transferencias := transferencias db2;
                           bitacora_transferencias :=
                             bitacora_transferencias db2 ++
                             [{| b_usuario := request_user.1;
                                 b_accion :=
                                   if aprobar
                                   then "PROCESAR_TRANSFERENCIA_APROBAR"
                                   else "PROCESAR_TRANSFERENCIA_RECHAZAR";
                                 b_tabla_afectada := "TransferenciaParcela";
                                 b_registro_id := transferencia_id;
                                 b_detalles :=
                                   JStr ("Transferencia " ++
                                         pretty transferencia_id ++
                                         " procesada: " ++ accion_) |}] |} in
                      (db3, Ok {| status := 200;
                                  data :=
                                    JObj (<["mensaje" :=
                                             JStr ("Transferencia " ++
                                                   lower accion_ ++
                                                   " exitosamente")]>
                                         (<["transferencia" :=
                                              transferencia_data
                                                transferencia_id
                                                transferencia]> ∅)) |})
                  end
              end
        | None => (db, Ok (error_response 400
                             "Acción debe ser APROBAR o RECHAZAR"))
        end
  end.

(** ** views.py: the permission counts of [reporte_roles_permisos]

    The statements of the view that build [permisos_comunes]
    (views.py lines 2291 to 2311). *)

(** [permisos__has_key=k]: the [?] operator of PostgreSQL's [jsonb],
    true for a top-level key of an object, an element of an array, or
    a string equal to [k]. *)
Definition has_key (v : json) (k : string) : bool :=
  match v with
  | JObj m => bool_decide (is_Some (m !! k))
  | JArr l => existsb (str_eq_json k) l
  | JStr s => String.eqb k s
  | _ => false
  end.

(** [{'ver': 0, 'crear': 0, 'editar': 0, 'eliminar': 0, 'aprobar': 0}] *)
Definition ceros : gmap string Z :=
  <["ver" := 0%Z]> (<["crear" := 0%Z]> (<["editar" := 0%Z]>
  (<["eliminar" := 0%Z]> (<["aprobar" := 0%Z]> ∅)))).

(** [if permitido: permisos_modulo[accion] += 1] *)
Definition contar (permisos_modulo : gmap string Z) (item : string * json)
  : result (gmap string Z) :=
  if truthy item.2 then
    match permisos_modulo !! item.1 with
    | Some n => Ok (<[item.1 := (n + 1)%Z]> permisos_modulo)
    | None => Raise KeyError
    end
  else Ok permisos_modulo.

(** The body of the loop over the roles that have the module. *)
Definition contar_rol (modulo : string) (permisos_modulo : gmap string Z)
    (rol : Rol) : result (gmap string Z) :=
  presente ← py_in modulo (permisos rol);
  if (presente : bool) then
    acciones_rol ← py_getitem (permisos rol) modulo;
    items ← py_items acciones_rol;
    for_each contar permisos_modulo items
  else Ok permisos_modulo.

(** [permisos_comunes]: for each module and action, the number of
    roles that grant it. *)
Definition permisos_comunes (tabla : gmap Z Rol)
  : result (gmap string (gmap string Z)) :=
  for_each (λ comunes modulo,
              let roles_con_modulo :=
                filter (λ rol, has_key (permisos rol) modulo = true)
                       (snd <$> map_to_list tabla) in
              permisos_modulo ←
                for_each (contar_rol modulo) ceros roles_con_modulo;
              Ok (<[modulo := permisos_modulo]> comunes))
           ∅ modulos.

(** Under the module, the role holds no true value at an action
    outside the closed set. *)
Definition acciones_cerradas (modulo : string) (rol : Rol) : bool :=
  match permisos rol with
  | JObj m =>
      match m !! modulo with
      | Some (JObj acts) =>
          forallb (λ item : string * json,
                     negb (truthy item.2) || bool_decide (item.1 ∈ acciones))
                  (map_to_list acts)
      | _ => true
      end
  | _ => true
  end.

(** A pending transfer of parcel 7 from socio 1 to socio 2, and a
    validation of parcels that accepts every parcel. *)
Definition transferencia_ejemplo : TransferenciaParcela :=
  {| t_parcela := 7; t_socio_anterior := 1; t_socio_nuevo := 2;
     t_estado := "PENDIENTE"; t_autorizado_por := None;
     t_fecha_aprobacion := None; t_observaciones := None |}.

Definition db_transferencias : DBT :=
  {| parcelas := {[ 7%Z := {| p_socio := 1; p_estado := "ACTIVA" |} ]};
     transferencias := ∅;
     bitacora_transferencias := [] |}.

Definition parcela_siempre_valida (pk : Z) (parcela : Parcela)
  : result unit := Ok ().




(** * Properties *)

Lemma Ok_inj {A} (a b : A) : Ok a = Ok b → a = b.
Proof.
  intros H.
  exact (f_equal (λ r, match r with Ok x => x | Raise _ => a end) H).
Qed.

(** ** Gap filling *)

Lemma completar_dict (m : gmap string json) (k : string) :
  Rol.completar (JObj m) k = Ok (JObj (paso m k)).
Proof.
  unfold Rol.completar, paso. simpl.
  destruct (bool_decide (is_Some (m !! k))); reflexivity.
Qed.

Lemma for_each_completar_dict (ks : list string) (m : gmap string json) :
  for_each Rol.completar (JObj m) ks = Ok (JObj (rellenar m ks)).
Proof.
  revert m. induction ks as [|k ks IH]; intros m; [reflexivity|].
  cbn [for_each]. rewrite completar_dict. simpl. apply IH.
Qed.

Lemma validar_dict (m : gmap string json) :
  Rol._validar_estructura_permisos (JObj m) = Ok (JObj (rellenar m modulos)).
Proof. apply for_each_completar_dict. Qed.

Lemma validate_permisos_dict (m : gmap string json) :
  RolSerializer_12.validate_permisos (JObj m)
  = Rol._validar_estructura_permisos (JObj m).
Proof. reflexivity. Qed.

Lemma rellenar_lookup (ks : list string) (m : gmap string json) (k : string) :
  rellenar m ks !! k =
  match m !! k with
  | Some v => Some v
  | None => if bool_decide (k ∈ ks) then Some sin_permisos else None
  end.
Proof.
  revert m. induction ks as [|a ks IH]; intros m.
  - change (rellenar m []) with m. destruct (m !! k); [reflexivity|].
    rewrite bool_decide_eq_false_2; [reflexivity|]. apply not_elem_of_nil.
  - change (rellenar m (a :: ks)) with (rellenar (paso m a) ks).
    rewrite IH. clear IH.
    assert (bool_decide (k ∈ a :: ks)
            = bool_decide (k = a) || bool_decide (k ∈ ks)) as ->.
    { apply eq_true_iff_eq. rewrite orb_true_iff, !bool_decide_eq_true.
      apply elem_of_cons. }
    unfold paso. destruct (decide (is_Some (m !! a))) as [Ha|Ha].
    + rewrite (bool_decide_eq_true_2 _ Ha).
      destruct (m !! k) eqn:Hk; [reflexivity|].
      rewrite (bool_decide_eq_false_2 (k = a)); [reflexivity|].
      intros ->. rewrite Hk in Ha. by destruct Ha.
    + rewrite (bool_decide_eq_false_2 _ Ha).
      apply eq_None_not_Some in Ha.
      destruct (decide (k = a)) as [->|Hne].
      * rewrite lookup_insert_eq, Ha, bool_decide_eq_true_2; done.
      * rewrite lookup_insert_ne by done.
        rewrite (bool_decide_eq_false_2 (k = a)) by done. reflexivity.
Qed.

Lemma rellenar_conserva (ks : list string) (m : gmap string json)
    (k : string) (v : json) :
  m !! k = Some v → rellenar m ks !! k = Some v.
Proof. intros Hk. by rewrite rellenar_lookup, Hk. Qed.

Lemma rellenar_rellenar (ks : list string) (m : gmap string json) :
  rellenar (rellenar m ks) ks = rellenar m ks.
Proof.
  apply map_eq. intros k. rewrite (rellenar_lookup ks (rellenar m ks)).
  rewrite rellenar_lookup.
  destruct (m !! k); [reflexivity|].
  destruct (bool_decide (k ∈ ks)); reflexivity.
Qed.

(** On a value that is not a dict the loop either raises or leaves the
    value as it is. *)
Lemma completar_no_dict (p p' : json) (k : string) :
  es_dict p = false → Rol.completar p k = Ok p' → p' = p.
Proof.
  intros Hp. unfold Rol.completar.
  destruct p as [| | | s | l | m]; simpl; try discriminate.
  - destruct (is_substring k s); simpl; [congruence|discriminate].
  - destruct (existsb (str_eq_json k) l); simpl; [congruence|discriminate].
Qed.

Lemma for_each_completar_no_dict (ks : list string) (p p' : json) :
  es_dict p = false → for_each Rol.completar p ks = Ok p' → p' = p.
Proof.
  intros Hp. induction ks as [|k ks IH]; cbn [for_each].
  - congruence.
  - destruct (Rol.completar p k) as [q|e] eqn:Hq; simpl; [|discriminate].
    apply completar_no_dict in Hq as ->; [exact IH|exact Hp].
Qed.

Lemma validar_punto_fijo (p p' : json) :
  Rol._validar_estructura_permisos p = Ok p' →
  Rol._validar_estructura_permisos p' = Ok p'.
Proof.
  intros H. destruct (es_dict p) eqn:Hp.
  - destruct p as [| | | | |m]; try (simpl in Hp; congruence).
    rewrite validar_dict in H. apply Ok_inj in H. subst p'.
    rewrite validar_dict, rellenar_rellenar. reflexivity.
  - pose proof H as H'.
    apply for_each_completar_no_dict in H' as ->; [exact H|exact Hp].
Qed.

(** C9. Gap filling is idempotent: running
    [_validar_estructura_permisos] (or [validate_permisos]) on its own
    output gives that output again, for every JSON value, and an input
    on which it raises raises the same way.  On a mapping it succeeds,
    every entry of the input is in the output with the value it had,
    and an entry of the output that the input did not have is a module
    of the closed set with all five actions [false]. *)
Theorem normalizar_idempotente :
  (∀ x : json,
     Rol._validar_estructura_permisos x ≫= Rol._validar_estructura_permisos
     = Rol._validar_estructura_permisos x) ∧
  (∀ x : json,
     RolSerializer_12.validate_permisos x ≫= RolSerializer_12.validate_permisos
     = RolSerializer_12.validate_permisos x) ∧
  (∀ m : gmap string json, ∃ m' : gmap string json,
     Rol._validar_estructura_permisos (JObj m) = Ok (JObj m') ∧
     RolSerializer_12.validate_permisos (JObj m) = Ok (JObj m') ∧
     (∀ k v, m !! k = Some v → m' !! k = Some v) ∧
     (∀ k, m !! k = None →
           m' !! k = None ∨ (k ∈ modulos ∧ m' !! k = Some sin_permisos))).
Proof.
  split; [|split].
  - intros x. destruct (Rol._validar_estructura_permisos x) as [p|e] eqn:H;
      [|reflexivity].
    simpl. by apply validar_punto_fijo in H.
  - intros x. destruct (es_dict x) eqn:Hx.
    + destruct x as [| | | | |m]; try (simpl in Hx; congruence).
      rewrite validate_permisos_dict, validar_dict.
      change (RolSerializer_12.validate_permisos (JObj (rellenar m modulos))
              = Ok (JObj (rellenar m modulos))).
      by rewrite validate_permisos_dict, validar_dict, rellenar_rellenar.
    + destruct x as [| | | | |m]; try reflexivity. simpl in Hx; congruence.
  - intros m. exists (rellenar m modulos).
    split; [apply validar_dict|].
    split; [rewrite validate_permisos_dict; apply validar_dict|].
    split; [intros k v; apply rellenar_conserva|].
    intros k Hk. rewrite rellenar_lookup, Hk.
    case_bool_decide; [right|left]; done.
Qed.

(** C3, as the code has it.  For every mapping, gap filling succeeds
    and the output holds every module of the closed set: a module the
    input omits gets all five actions set to [false]; a module the
    input holds keeps the entry it had, whatever actions that entry
    lists (missing actions are not added). *)
Theorem normalizar_completa_modulos (m : gmap string json) :
  ∃ m' : gmap string json,
    Rol._validar_estructura_permisos (JObj m) = Ok (JObj m') ∧
    RolSerializer_12.validate_permisos (JObj m) = Ok (JObj m') ∧
    (∀ modulo, modulo ∈ modulos →
       m' !! modulo = Some (default sin_permisos (m !! modulo))) ∧
    (∀ accion, accion ∈ acciones →
       py_getitem sin_permisos accion = Ok (JBool false)).
Proof.
  exists (rellenar m modulos).
  split; [apply validar_dict|].
  split; [rewrite validate_permisos_dict; apply validar_dict|].
  split.
  - intros modulo Hin. rewrite rellenar_lookup.
    destruct (m !! modulo); [reflexivity|].
    by rewrite bool_decide_eq_true_2.
  - intros accion Hin. unfold acciones in Hin.
    repeat (apply elem_of_cons in Hin as [->|Hin]; [vm_compute; reflexivity|]).
    by apply elem_of_nil in Hin.
Qed.

Lemma JObj_inj (m1 m2 : gmap string json) : JObj m1 = JObj m2 → m1 = m2.
Proof.
  intros H.
  exact (f_equal (λ v, match v with JObj m => m | _ => m1 end) H).
Qed.

(** C3, counterexample.  The input [{'usuarios': {'ver': True}}] comes
    out of both gap-filling functions with its [usuarios] entry as it
    was: the action [crear] is still missing, so the output is not a
    complete matrix. *)
Lemma normalizar_no_completa_acciones :
  ∃ m' : gmap string json,
    Rol._validar_estructura_permisos (JObj entrada_parcial) = Ok (JObj m') ∧
    RolSerializer_12.validate_permisos (JObj entrada_parcial) = Ok (JObj m') ∧
    ¬ matriz_completa m'.
Proof.
  exists (rellenar entrada_parcial modulos).
  split; [apply validar_dict|].
  split; [rewrite validate_permisos_dict; apply validar_dict|].
  intros Hc.
  destruct (Hc "usuarios" "crear") as (acts & b & H1 & H2);
    [repeat constructor..|].
  rewrite (rellenar_conserva _ _ _ (JObj {[ "ver" := JBool true ]})) in H1
    by apply lookup_singleton_eq.
  apply (inj Some), JObj_inj in H1. subst acts.
  rewrite lookup_singleton_ne in H2 by done. congruence.
Qed.

(** C8, as the code has it.  [validate_permisos] rejects exactly the
    values that are not mappings.  A mapping is never rejected,
    whatever its leaves are: it comes back with every entry it had and
    with every module of the closed set present. *)
Theorem validate_permisos_rechaza_solo_no_dict (value : json) :
  match value with
  | JObj m =>
      ∃ m' : gmap string json,
        RolSerializer_12.validate_permisos value = Ok (JObj m') ∧
        (∀ k v, m !! k = Some v → m' !! k = Some v) ∧
        (∀ k, k ∈ modulos → is_Some (m' !! k))
  | _ =>
      RolSerializer_12.validate_permisos value
      = Raise (ValidationError
                 (JStr "Los permisos deben ser un objeto JSON válido"))
  end.
Proof.
  destruct value as [| | | | |m]; try reflexivity.
  exists (rellenar m modulos).
  split; [rewrite validate_permisos_dict; apply validar_dict|].
  split; [intros k v; apply rellenar_conserva|].
  intros k Hk. rewrite rellenar_lookup.
  destruct (m !! k); [eauto|]. rewrite bool_decide_eq_true_2; eauto.
Qed.

(** C8, counterexample.  The mapping [{'usuarios': {'ver': 'si'}}] has
    a leaf that is a string; it is not a matrix of booleans, and
    [validate_permisos] accepts it and keeps the leaf. *)
Lemma validate_permisos_acepta_hoja_no_booleana :
  es_matriz (JObj entrada_hoja_texto) = false ∧
  ∃ m' : gmap string json,
    RolSerializer_12.validate_permisos (JObj entrada_hoja_texto)
    = Ok (JObj m') ∧
    m' !! "usuarios" = Some (JObj {[ "ver" := JStr "si" ]}).
Proof.
  split; [vm_compute; reflexivity|].
  exists (rellenar entrada_hoja_texto modulos).
  split; [rewrite validate_permisos_dict; apply validar_dict|].
  apply rellenar_conserva, lookup_singleton_eq.
Qed.

(** ** The lookup of one role *)

Lemma es_matriz_lookup (m : gmap string json) (k : string) (v : json) :
  es_matriz (JObj m) = true → m !! k = Some v → es_acciones v = true.
Proof.
  unfold es_matriz. rewrite forallb_forall. intros H Hk.
  apply (H (k, v)). apply list_elem_of_In, elem_of_map_to_list. exact Hk.
Qed.

Lemma es_acciones_lookup (acts : gmap string json) (a : string) (x : json) :
  es_acciones (JObj acts) = true → acts !! a = Some x → ∃ b, x = JBool b.
Proof.
  unfold es_acciones. rewrite forallb_forall. intros H Ha.
  specialize (H (a, x)). cbn [snd] in H.
  destruct x; try (eauto; fail);
    (exfalso; apply diff_false_true, H;
     apply list_elem_of_In, elem_of_map_to_list; exact Ha).
Qed.

Lemma tiene_permiso_dict_ausente (m : gmap string json)
    (modulo accion : string) :
  m !! modulo = None → Rol.tiene_permiso (JObj m) modulo accion = Ok (JBool false).
Proof.
  intros H. unfold Rol.tiene_permiso.
  destruct (negb (truthy (JObj m))); [reflexivity|].
  unfold py_in. rewrite bool_decide_eq_false_2; [reflexivity|].
  rewrite H. by intros [? ?].
Qed.

Lemma tiene_permiso_dict_presente (m : gmap string json)
    (modulo accion : string) (v : json) :
  m !! modulo = Some v →
  Rol.tiene_permiso (JObj m) modulo accion = py_get v accion (JBool false).
Proof.
  intros H. unfold Rol.tiene_permiso.
  assert (truthy (JObj m) = true) as ->.
  { unfold truthy. destruct (Nat.eqb_spec (size m) 0) as [Hs|]; [|reflexivity].
    apply map_size_empty_iff in Hs. subst m. by rewrite lookup_empty in H. }
  cbn [negb]. unfold py_in. rewrite bool_decide_eq_true_2 by eauto.
  unfold py_getitem. rewrite H. reflexivity.
Qed.

Lemma tiene_permiso_matriz (p : json) (modulo accion : string) :
  es_matriz p = true →
  ∃ b : bool, Rol.tiene_permiso p modulo accion = Ok (JBool b) ∧
              (b = true ↔ concede p modulo accion).
Proof.
  intros Hp. destruct p as [| | | | |m]; try (simpl in Hp; congruence).
  destruct (m !! modulo) as [v|] eqn:Hm.
  - rewrite (tiene_permiso_dict_presente _ _ _ _ Hm).
    pose proof (es_matriz_lookup _ _ _ Hp Hm) as Hv.
    destruct v as [| | | | |acts]; try (simpl in Hv; congruence).
    unfold py_get. destruct (acts !! accion) as [x|] eqn:Ha.
    + destruct (es_acciones_lookup _ _ _ Hv Ha) as [b ->].
      exists b. split; [reflexivity|]. split.
      * intros ->. exists m, acts. eauto.
      * intros (m0 & acts0 & E & Hm0 & Ha0).
        apply JObj_inj in E. subst m0. rewrite Hm in Hm0.
        apply (inj Some), JObj_inj in Hm0. subst acts0.
        rewrite Ha in Ha0. apply (inj Some) in Ha0.
        exact (f_equal (λ v, match v with JBool c => c | _ => true end) Ha0).
    + exists false. split; [reflexivity|]. split; [discriminate|].
      intros (m0 & acts0 & E & Hm0 & Ha0).
      apply JObj_inj in E. subst m0. rewrite Hm in Hm0.
      apply (inj Some), JObj_inj in Hm0. subst acts0. congruence.
  - rewrite (tiene_permiso_dict_ausente _ _ _ Hm).
    exists false. split; [reflexivity|]. split; [discriminate|].
    intros (m0 & acts0 & E & Hm0 & _).
    apply JObj_inj in E. subst m0. congruence.
Qed.

(** ** The consolidated check *)

Lemma algun_rol_permite_matrices (roles_usuario : list (UsuarioRol * Rol))
    (modulo accion : string) :
  forallb (λ r : UsuarioRol * Rol, es_matriz (permisos r.2)) roles_usuario
  = true →
  ∃ b : bool,
    algun_rol_permite roles_usuario modulo accion = Ok b ∧
    (b = true ↔
     ∃ r, r ∈ roles_usuario ∧ concede (permisos r.2) modulo accion).
Proof.
  induction roles_usuario as [|r rs IH]; intros Hwf.
  - exists false. split; [reflexivity|]. split; [discriminate|].
    intros (r & Hr & _). by apply elem_of_nil in Hr.
  - cbn [forallb] in Hwf. apply andb_true_iff in Hwf as [Hr Hrs].
    destruct (tiene_permiso_matriz _ modulo accion Hr) as (b & Hb & Hiff).
    cbn [algun_rol_permite]. rewrite Hb.
    change (∃ b0 : bool,
              (if b then Ok true else algun_rol_permite rs modulo accion)
              = Ok b0 ∧
              (b0 = true ↔
               ∃ r0, r0 ∈ r :: rs ∧ concede (permisos r0.2) modulo accion)).
    destruct b.
    + exists true. split; [reflexivity|]. split; [|reflexivity].
      intros _. exists r. split; [apply list_elem_of_here|]. by apply Hiff.
    + destruct (IH Hrs) as (b' & Hb' & Hiff').
      exists b'. split; [exact Hb'|]. rewrite Hiff'. split.
      * intros (r0 & Hin & Hc). exists r0.
        split; [by apply list_elem_of_further|exact Hc].
      * intros (r0 & Hin & Hc). apply elem_of_cons in Hin as [->|Hin].
        -- apply Hiff in Hc. discriminate.
        -- eauto.
Qed.

(** C1, as the code has it.  For a user whose [is_staff] and
    [is_superuser] flags are both false, and whose roles hold
    permission matrices, the check returns a boolean, and it is [true]
    exactly when some role of the user has [true] at the cell
    (modulo, accion); with no role it is [false]. *)
Theorem permiso_es_union_de_roles (usuario_ : Usuario)
    (roles_usuario : list (UsuarioRol * Rol)) (modulo accion : string) :
  is_staff usuario_ = false →
  is_superuser usuario_ = false →
  forallb (λ r : UsuarioRol * Rol, es_matriz (permisos r.2)) roles_usuario
  = true →
  ∃ b : bool,
    tiene_permiso_usuario usuario_ roles_usuario modulo accion = Ok b ∧
    (b = true ↔
     ∃ r, r ∈ roles_usuario ∧ concede (permisos r.2) modulo accion) ∧
    (roles_usuario = [] → b = false).
Proof.
  intros Hstaff Hsuper Hwf. unfold tiene_permiso_usuario.
  rewrite Hstaff, Hsuper. cbn [orb].
  destruct (algun_rol_permite_matrices _ modulo accion Hwf) as (b & Hb & Hiff).
  exists b. split; [exact Hb|]. split; [exact Hiff|].
  intros ->. destruct b; [|reflexivity].
  destruct (proj1 Hiff eq_refl) as (r & Hr & _). by apply elem_of_nil in Hr.
Qed.

Lemma permiso_es_union_de_roles_witness :
  ∃ b : bool,
    tiene_permiso_usuario usuario1
      [({| ur_id := 2; ur_usuario := 2; ur_rol := 2 |}, rol_socio);
       ({| ur_id := 4; ur_usuario := 2; ur_rol := 4 |}, rol_personalizado)]
      "usuarios" "ver" = Ok b ∧
    (b = true ↔
     ∃ r, r ∈ [({| ur_id := 2; ur_usuario := 2; ur_rol := 2 |}, rol_socio);
               ({| ur_id := 4; ur_usuario := 2; ur_rol := 4 |},
                rol_personalizado)] ∧
          concede (permisos r.2) "usuarios" "ver") ∧
    ([({| ur_id := 2; ur_usuario := 2; ur_rol := 2 |}, rol_socio);
      ({| ur_id := 4; ur_usuario := 2; ur_rol := 4 |}, rol_personalizado)]
     = [] → b = false).
Proof.
  apply (permiso_es_union_de_roles usuario1
           [({| ur_id := 2; ur_usuario := 2; ur_rol := 2 |}, rol_socio);
            ({| ur_id := 4; ur_usuario := 2; ur_rol := 4 |}, rol_personalizado)]
           "usuarios" "ver").
  - reflexivity.
  - reflexivity.
  - vm_compute. reflexivity.
Defined.

(** C1, counterexample.  [admin_user] has [is_superuser] false and
    [is_staff] true.  With no role at all the check returns [true],
    although no role grants the cell. *)
Lemma staff_sin_roles_tiene_permiso :
  is_superuser admin_user = false ∧
  tiene_permiso_usuario admin_user [] "usuarios" "eliminar" = Ok true ∧
  ¬ ∃ r : UsuarioRol * Rol,
      r ∈ [] ∧ concede (permisos r.2) "usuarios" "eliminar".
Proof.
  split; [reflexivity|]. split; [reflexivity|].
  intros (r & Hr & _). by apply elem_of_nil in Hr.
Qed.

(** C7, as the code has it.  [tiene_permiso] answers [false] when the
    module is not a key of the stored mapping, and when the action is
    not a key of the module's entry; on a permission matrix it never
    raises and always answers a boolean, and so does the check of a
    user whose roles hold permission matrices.  A module outside the
    closed set is treated like any other key. *)
Theorem tiene_permiso_ausente_es_falso (p : json) (modulo accion : string) :
  es_matriz p = true →
  (∃ b : bool, Rol.tiene_permiso p modulo accion = Ok (JBool b)) ∧
  (∀ m, p = JObj m → m !! modulo = None →
        Rol.tiene_permiso p modulo accion = Ok (JBool false)) ∧
  (∀ m acts, p = JObj m → m !! modulo = Some (JObj acts) →
             acts !! accion = None →
             Rol.tiene_permiso p modulo accion = Ok (JBool false)) ∧
  (∀ usuario_ roles_usuario,
     forallb (λ r : UsuarioRol * Rol, es_matriz (permisos r.2)) roles_usuario
     = true →
     ∃ b : bool,
       tiene_permiso_usuario usuario_ roles_usuario modulo accion = Ok b).
Proof.
  intros Hp. split; [|split; [|split]].
  - destruct (tiene_permiso_matriz p modulo accion Hp) as (b & Hb & _). eauto.
  - intros m -> Hm. by apply tiene_permiso_dict_ausente.
  - intros m acts -> Hm Ha.
    rewrite (tiene_permiso_dict_presente _ _ _ _ Hm).
    unfold py_get. by rewrite Ha.
  - intros u rs Hwf. unfold tiene_permiso_usuario.
    destruct (is_staff u || is_superuser u); [eauto|].
    destruct (algun_rol_permite_matrices rs modulo accion Hwf) as (b & Hb & _).
    eauto.
Qed.

Lemma tiene_permiso_ausente_es_falso_witness :
  (∃ b : bool, Rol.tiene_permiso permisos_socio "facturas" "ver" = Ok (JBool b)) ∧
  (∀ m, permisos_socio = JObj m → m !! "facturas" = None →
        Rol.tiene_permiso permisos_socio "facturas" "ver" = Ok (JBool false)) ∧
  (∀ m acts, permisos_socio = JObj m → m !! "facturas" = Some (JObj acts) →
             acts !! "ver" = None →
             Rol.tiene_permiso permisos_socio "facturas" "ver"
             = Ok (JBool false)) ∧
  (∀ usuario_ roles_usuario,
     forallb (λ r : UsuarioRol * Rol, es_matriz (permisos r.2)) roles_usuario
     = true →
     ∃ b : bool,
       tiene_permiso_usuario usuario_ roles_usuario "facturas" "ver" = Ok b).
Proof.
  apply (tiene_permiso_ausente_es_falso permisos_socio "facturas" "ver").
  vm_compute. reflexivity.
Defined.

(** C7, counterexample.  The module [extra] is outside the closed set;
    a matrix that lists it with [ver] true gets [true] from
    [tiene_permiso]. *)
Lemma modulo_fuera_del_conjunto_concede :
  ("extra" ∉ modulos) ∧
  es_matriz matriz_extra = true ∧
  Rol.tiene_permiso matriz_extra "extra" "ver" = Ok (JBool true).
Proof.
  split; [|split].
  - apply (bool_decide_unpack _). vm_compute. exact I.
  - vm_compute. reflexivity.
  - vm_compute. reflexivity.
Qed.

(** Outside permission matrices [tiene_permiso] can raise: a module
    entry that is not a mapping has no [get]. *)
Remark tiene_permiso_entrada_no_dict :
  Rol.tiene_permiso (JObj {[ "usuarios" := JBool true ]}) "usuarios" "ver"
  = Raise AttributeError.
Proof. vm_compute. reflexivity. Qed.

(** ** The elevated flags *)

Lemma todos_los_permisos_lookup (modulo accion : string) :
  modulo ∈ modulos → accion ∈ acciones →
  todos_los_permisos !! modulo = Some (JObj (acciones_todas true)) ∧
  acciones_todas true !! accion = Some (JBool true).
Proof.
  intros Hm Ha. split.
  - unfold modulos in Hm.
    repeat (apply elem_of_cons in Hm as [->|Hm]; [vm_compute; reflexivity|]).
    by apply elem_of_nil in Hm.
  - unfold acciones in Ha.
    repeat (apply elem_of_cons in Ha as [->|Ha]; [vm_compute; reflexivity|]).
    by apply elem_of_nil in Ha.
Qed.

Lemma elevado_tiene_todo (usuario_ : Usuario)
    (roles_usuario : list (UsuarioRol * Rol)) (modulo accion : string) :
  (is_staff usuario_ || is_superuser usuario_) = true →
  tiene_permiso_usuario usuario_ roles_usuario modulo accion = Ok true ∧
  permisos_consolidados usuario_ roles_usuario = Ok todos_los_permisos.
Proof.
  intros H. split.
  - unfold tiene_permiso_usuario. by rewrite H.
  - unfold permisos_consolidados, permisos_de_modulo. rewrite H.
    reflexivity.
Qed.

(** C2.  A user whose [is_superuser] flag is true gets [true] from the
    check for every module and action, whatever roles are assigned
    (none, or roles whose stored permissions are not even mappings):
    no matrix is read.  The consolidated report gives every module and
    action of the closed sets as [true]. *)
Theorem superusuario_tiene_todo (usuario_ : Usuario)
    (roles_usuario : list (UsuarioRol * Rol)) (modulo accion : string) :
  is_superuser usuario_ = true →
  tiene_permiso_usuario usuario_ roles_usuario modulo accion = Ok true ∧
  permisos_consolidados usuario_ roles_usuario = Ok todos_los_permisos ∧
  (modulo ∈ modulos → accion ∈ acciones →
   todos_los_permisos !! modulo = Some (JObj (acciones_todas true)) ∧
   acciones_todas true !! accion = Some (JBool true)).
Proof.
  intros H.
  destruct (elevado_tiene_todo usuario_ roles_usuario modulo accion) as [H1 H2].
  { rewrite H. apply orb_true_r. }
  split; [exact H1|]. split; [exact H2|]. apply todos_los_permisos_lookup.
Qed.

Lemma superusuario_tiene_todo_witness :
  tiene_permiso_usuario superusuario
    [({| ur_id := 9; ur_usuario := 3; ur_rol := 9 |},
      {| nombre := "ROTO"; descripcion := None; permisos := JNum 7;
         es_sistema := false |})] "usuarios" "eliminar" = Ok true ∧
  permisos_consolidados superusuario
    [({| ur_id := 9; ur_usuario := 3; ur_rol := 9 |},
      {| nombre := "ROTO"; descripcion := None; permisos := JNum 7;
         es_sistema := false |})] = Ok todos_los_permisos ∧
  ("usuarios" ∈ modulos → "eliminar" ∈ acciones →
   todos_los_permisos !! "usuarios" = Some (JObj (acciones_todas true)) ∧
   acciones_todas true !! "eliminar" = Some (JBool true)).
Proof.
  apply (superusuario_tiene_todo superusuario
           [({| ur_id := 9; ur_usuario := 3; ur_rol := 9 |},
             {| nombre := "ROTO"; descripcion := None; permisos := JNum 7;
                es_sistema := false |})] "usuarios" "eliminar").
  reflexivity.
Defined.

(** C10.  A user whose [is_staff] flag is true gets [true] from the
    check for every module and action, and the consolidated report
    gives every module and action of the closed sets as [true], also
    when [is_superuser] is false and no role is assigned. *)
Theorem staff_tiene_todo (usuario_ : Usuario)
    (roles_usuario : list (UsuarioRol * Rol)) (modulo accion : string) :
  is_staff usuario_ = true →
  tiene_permiso_usuario usuario_ roles_usuario modulo accion = Ok true ∧
  permisos_consolidados usuario_ roles_usuario = Ok todos_los_permisos ∧
  (modulo ∈ modulos → accion ∈ acciones →
   todos_los_permisos !! modulo = Some (JObj (acciones_todas true)) ∧
   acciones_todas true !! accion = Some (JBool true)).
Proof.
  intros H.
  destruct (elevado_tiene_todo usuario_ roles_usuario modulo accion) as [H1 H2].
  { by rewrite H. }
  split; [exact H1|]. split; [exact H2|]. apply todos_los_permisos_lookup.
Qed.

Lemma staff_tiene_todo_witness :
  is_superuser admin_user = false ∧
  tiene_permiso_usuario admin_user [] "configuracion" "aprobar" = Ok true ∧
  permisos_consolidados admin_user [] = Ok todos_los_permisos ∧
  ("configuracion" ∈ modulos → "aprobar" ∈ acciones →
   todos_los_permisos !! "configuracion" = Some (JObj (acciones_todas true)) ∧
   acciones_todas true !! "aprobar" = Some (JBool true)).
Proof.
  split; [reflexivity|].
  apply (staff_tiene_todo admin_user [] "configuracion" "aprobar").
  reflexivity.
Defined.

(** ** Deleting a role *)

(** C5.  Deleting a system role raises the validation error [No se
    puede eliminar un rol del sistema] and leaves the database as it
    was: the role, its assignments and the audit log.  Deleting a role
    that is not a system role succeeds: the role is gone, and so is
    every assignment of it, while the assignments of other roles
    stay. *)
Theorem perform_destroy_protege_rol_sistema (db : DB)
    (request_user : Z * Usuario) (pk : Z) (instance : Rol) :
  roles db !! pk = Some instance →
  (es_sistema instance = true →
   RolViewSet.perform_destroy db request_user pk instance
   = (db, Raise (ValidationError
                   (JStr "No se puede eliminar un rol del sistema")))) ∧
  (es_sistema instance = false →
   ∃ db' : DB,
     RolViewSet.perform_destroy db request_user pk instance = (db', Ok ()) ∧
     roles db' = delete pk (roles db) ∧
     roles db' !! pk = None ∧
     (∀ ur, ur ∈ usuario_roles db' ↔ ur ∈ usuario_roles db ∧ ur_rol ur ≠ pk)).
Proof.
  intros _. unfold RolViewSet.perform_destroy. split; intros ->.
  - reflexivity.
  - eexists. split; [reflexivity|].
    cbn [roles usuario_roles borrar_rol registrar].
    split; [reflexivity|]. split; [apply lookup_delete_eq|].
    intros ur. rewrite list_elem_of_filter. tauto.
Qed.

Lemma perform_destroy_protege_rol_sistema_witness :
  (es_sistema rol_socio = true →
   RolViewSet.perform_destroy db_ejemplo (1%Z, admin_user) 2 rol_socio
   = (db_ejemplo, Raise (ValidationError
                           (JStr "No se puede eliminar un rol del sistema")))) ∧
  (es_sistema rol_socio = false →
   ∃ db' : DB,
     RolViewSet.perform_destroy db_ejemplo (1%Z, admin_user) 2 rol_socio
     = (db', Ok ()) ∧
     roles db' = delete 2%Z (roles db_ejemplo) ∧
     roles db' !! 2%Z = None ∧
     (∀ ur, ur ∈ usuario_roles db' ↔
            ur ∈ usuario_roles db_ejemplo ∧ ur_rol ur ≠ 2%Z)).
Proof.
  apply (perform_destroy_protege_rol_sistema db_ejemplo (1%Z, admin_user) 2
           rol_socio).
  reflexivity.
Defined.

(** Through [destroy], a staff user who deletes the custom role 4 of
    the sample database gets 204, and the assignment of that role to
    user 2 is removed with it. *)
Remark destroy_rol_personalizado :
  (RolViewSet.destroy db_ejemplo (1%Z, admin_user) 4).2
  = Ok {| status := 204; data := JNull |} ∧
  usuario_roles (RolViewSet.destroy db_ejemplo (1%Z, admin_user) 4).1
  = [ {| ur_id := 1; ur_usuario := 1; ur_rol := 1 |};
      {| ur_id := 2; ur_usuario := 2; ur_rol := 2 |} ].
Proof. split; vm_compute; reflexivity. Qed.

(** ** Revoking a role *)

(** C4, the failing input.  In the sample database user 2 holds the
    system role 2 and the custom role 4.  [quitar_rol_usuario] counts
    the other roles of the user, of any kind: it finds the custom one,
    removes the system role and answers 200, and the user is left with
    no system role.  On the same input [RolViewSet.quitar_usuario],
    which counts the other system roles, refuses with 400 and changes
    nothing. *)
Theorem quitar_rol_usuario_deja_sin_rol_sistema :
  roles_sistema_de db_ejemplo 2 = 1%nat ∧
  (quitar_rol_usuario db_ejemplo (1%Z, admin_user) (Some 2%Z) (Some 2%Z)).2
  = Ok {| status := 200;
          data := JObj {[ "mensaje" := JStr "Rol removido exitosamente" ]} |} ∧
  usuario_roles
    (quitar_rol_usuario db_ejemplo (1%Z, admin_user) (Some 2%Z) (Some 2%Z)).1
  = [ {| ur_id := 1; ur_usuario := 1; ur_rol := 1 |};
      {| ur_id := 4; ur_usuario := 2; ur_rol := 4 |} ] ∧
  roles_sistema_de
    (quitar_rol_usuario db_ejemplo (1%Z, admin_user) (Some 2%Z) (Some 2%Z)).1 2
  = 0%nat ∧
  (RolViewSet.quitar_usuario db_ejemplo (1%Z, admin_user) 2 (Some 2%Z)).2
  = Ok (error_response 400
          "No se puede quitar el último rol del sistema del usuario") ∧
  usuario_roles
    (RolViewSet.quitar_usuario db_ejemplo (1%Z, admin_user) 2 (Some 2%Z)).1
  = usuario_roles db_ejemplo.
Proof. repeat split; vm_compute; reflexivity. Qed.

(** ** Name uniqueness *)

Lemma existe_nombre_iexact_spec (tabla : gmap Z Rol) (n : string)
    (excluido : option Z) :
  existe_nombre_iexact tabla n excluido = true ↔
  ∃ pk rol, tabla !! pk = Some rol ∧ iexact (nombre rol) n = true ∧
            excluido ≠ Some pk.
Proof.
  unfold existe_nombre_iexact. rewrite existsb_exists. split.
  - intros ([pk rol] & Hin & H). cbn [fst snd] in H.
    apply andb_true_iff in H as [H1 H2]. apply negb_true_iff in H2.
    apply bool_decide_eq_false_1 in H2.
    apply list_elem_of_In, elem_of_map_to_list in Hin. eauto.
  - intros (pk & rol & Hpk & H1 & H2). exists (pk, rol). split.
    + by apply list_elem_of_In, elem_of_map_to_list.
    + cbn [fst snd]. rewrite H1. cbn [andb]. apply negb_true_iff.
      by apply bool_decide_eq_false_2.
Qed.

(** The first [RolSerializer.validate], as written: a name that is not
    empty and matches, without regard to case, the name of a role other
    than the one under update is refused. *)
Lemma validate_rechaza_nombre_existente (tabla : gmap Z Rol)
    (instance : option (Z * Rol)) (data : RolData) (n : string)
    (pk : Z) (rol : Rol) :
  d_nombre data = Some n → n ≠ "" →
  tabla !! pk = Some rol → iexact (nombre rol) n = true →
  fst <$> instance ≠ Some pk →
  RolSerializer_12.validate tabla instance data
  = Raise (ValidationError
             (JObj {[ "nombre" := JStr "Ya existe un rol con este nombre" ]})).
Proof.
  intros Hn Hne Hpk Hi Hex. unfold RolSerializer_12.validate. rewrite Hn.
  assert (existe_nombre_iexact tabla n (fst <$> instance) = true) as ->.
  { apply existe_nombre_iexact_spec. eauto. }
  assert (String.eqb n "" = false) as -> by by apply String.eqb_neq.
  reflexivity.
Qed.

(** The role under update does not collide with itself. *)
Lemma validate_excluye_identidad_propia (tabla : gmap Z Rol) (n : string)
    (propio : Z) :
  (∀ pk rol, tabla !! pk = Some rol → iexact (nombre rol) n = true →
             pk = propio) →
  existe_nombre_iexact tabla n (Some propio) = false.
Proof.
  intros H. apply not_true_is_false. intros He.
  apply existe_nombre_iexact_spec in He as (pk & rol & Hpk & Hi & Hex).
  apply Hex. f_equal. symmetry. eauto.
Qed.

(** [duplicar] refuses a new name that matches an existing one without
    regard to case, and leaves the database as it was. *)
Lemma duplicar_rechaza_nombre_existente (db : DB)
    (request_user : Z * Usuario) (pk : Z) (rol_original : Rol)
    (nuevo_nombre : string) (descripcion_ : option string)
    (otro : Z) (rol : Rol) :
  RolViewSet.get_object db request_user pk = Ok rol_original →
  nuevo_nombre ≠ "" →
  roles db !! otro = Some rol → iexact (nombre rol) nuevo_nombre = true →
  RolViewSet.duplicar db request_user pk (Some nuevo_nombre) descripcion_
  = (db, Ok (error_response 400 "Ya existe un rol con este nombre")).
Proof.
  intros Hobj Hne Hotro Hi. unfold RolViewSet.duplicar. rewrite Hobj.
  unfold sin_texto.
  assert (String.eqb nuevo_nombre "" = false) as -> by by apply String.eqb_neq.
  cbv zeta. cbn [from_option id].
  assert (existe_nombre_iexact (roles db) nuevo_nombre None = true) as ->.
  { apply existe_nombre_iexact_spec. exists otro, rol. done. }
  reflexivity.
Qed.

(** [crear_rol_personalizado] does the same. *)
Lemma crear_rol_personalizado_rechaza_nombre_existente (db : DB)
    (request_user : Z * Usuario) (n descripcion_ : string) (permisos_ : json)
    (otro : Z) (rol : Rol) :
  is_staff request_user.2 = true →
  n ≠ "" →
  roles db !! otro = Some rol → iexact (nombre rol) n = true →
  crear_rol_personalizado db request_user (Some n) descripcion_ permisos_
  = (db, Ok (error_response 400 "Ya existe un rol con este nombre")).
Proof.
  intros Hstaff Hne Hotro Hi. unfold crear_rol_personalizado.
  rewrite Hstaff. cbn [negb]. unfold sin_texto.
  assert (String.eqb n "" = false) as -> by by apply String.eqb_neq.
  cbv zeta. cbn [from_option id].
  assert (existe_nombre_iexact (roles db) n None = true) as ->.
  { apply existe_nombre_iexact_spec. exists otro, rol. done. }
  reflexivity.
Qed.

(** C6, the failing input.  The sample database holds the role
    ADMINISTRADOR.  [RolViewSet.create] runs the serializer that the
    name [RolSerializer] is bound to, the second class, which compares
    names exactly: the body that asks for [Administrador] is accepted
    with 201 and stored as role 5 next to role 1.  Renaming role 4 to
    [Administrador] through [update] is accepted with 200 as well.  On
    the same name, [validate] of the first class raises, and [duplicar]
    and [crear_rol_personalizado] answer 400 and store nothing. *)
Theorem create_acepta_nombre_en_otra_caja :
  existe_nombre_iexact (roles db_ejemplo) "Administrador" None = true ∧
  estado (RolViewSet.create db_ejemplo (1%Z, admin_user) cuerpo_administrador)
  = Some 201%Z ∧
  nombre <$>
    roles (RolViewSet.create db_ejemplo (1%Z, admin_user)
             cuerpo_administrador).1 !! 5%Z
  = Some "Administrador" ∧
  nombre <$>
    roles (RolViewSet.create db_ejemplo (1%Z, admin_user)
             cuerpo_administrador).1 !! 1%Z
  = Some "ADMINISTRADOR" ∧
  estado (RolViewSet.update db_ejemplo (1%Z, admin_user) 4 false
            cuerpo_administrador)
  = Some 200%Z ∧
  nombre <$>
    roles (RolViewSet.update db_ejemplo (1%Z, admin_user) 4 false
             cuerpo_administrador).1 !! 4%Z
  = Some "Administrador" ∧
  RolSerializer_12.validate (roles db_ejemplo) None cuerpo_administrador
  = Raise (ValidationError
             (JObj {[ "nombre" := JStr "Ya existe un rol con este nombre" ]})) ∧
  RolViewSet.duplicar db_ejemplo (1%Z, admin_user) 2 (Some "Administrador") None
  = (db_ejemplo, Ok (error_response 400 "Ya existe un rol con este nombre")) ∧
  crear_rol_personalizado db_ejemplo (1%Z, admin_user) (Some "Administrador")
    "" (JObj ∅)
  = (db_ejemplo, Ok (error_response 400 "Ya existe un rol con este nombre")).
Proof. repeat split; vm_compute; reflexivity. Qed.

(** ** The guard of [RolViewSet.quitar_usuario] *)

Lemma obj_get_Ok {A} (filas : list A) (x : A) :
  obj_get filas = Ok x → filas = [x].
Proof.
  destruct filas as [|a [|b l]]; cbn [obj_get]; intros H;
    [discriminate| |discriminate].
  by apply Ok_inj in H as ->.
Qed.

Lemma get_object_roles (db : DB) (request_user : Z * Usuario) (pk : Z)
    (rol : Rol) :
  RolViewSet.get_object db request_user pk = Ok rol → roles db !! pk = Some rol.
Proof.
  unfold RolViewSet.get_object, RolViewSet.get_queryset.
  destruct (negb (is_staff request_user.2)).
  - destruct (filter _ (roles db) !! pk) as [r|] eqn:E; [|discriminate].
    intros H. apply Ok_inj in H as ->.
    by apply map_lookup_filter_Some in E as [E _].
  - destruct (roles db !! pk) as [r|]; [|discriminate].
    intros H. by apply Ok_inj in H as ->.
Qed.

(** The primary key identifies the row. *)
Lemma id_unico (filas : list UsuarioRol) (x y : UsuarioRol) :
  NoDup (ur_id <$> filas) → x ∈ filas → y ∈ filas → ur_id x = ur_id y →
  x = y.
Proof.
  induction filas as [|a filas IH]; intros Hnd Hx Hy Hid.
  - by apply elem_of_nil in Hx.
  - rewrite fmap_cons in Hnd. apply NoDup_cons in Hnd as [Ha Hnd].
    apply elem_of_cons in Hx as [->|Hx]; apply elem_of_cons in Hy as [->|Hy].
    + reflexivity.
    + exfalso. apply Ha. rewrite Hid. by apply list_elem_of_fmap_2.
    + exfalso. apply Ha. rewrite <- Hid. by apply list_elem_of_fmap_2.
    + by apply IH.
Qed.

Lemma filter_todos {A} (P : A → Prop) `{!∀ x, Decision (P x)} (l : list A) :
  (∀ x, x ∈ l → P x) → filter P l = l.
Proof.
  induction l as [|a l IH]; intros Hall; [reflexivity|].
  rewrite filter_cons_True by (apply Hall, list_elem_of_here).
  f_equal. apply IH. intros x Hx. by apply Hall, list_elem_of_further.
Qed.

(** The system roles a user holds after the common end of the two
    revocation views: those held before, less the deleted row. *)
Lemma quitar_roles_sistema (db : DB) (request_user : Z * Usuario) (rol : Rol)
    (usuario_ : Usuario) (usuario_rol : UsuarioRol) (uid : Z) :
  roles_sistema_de (quitar db request_user rol usuario_ usuario_rol).1 uid
  = length (filter (λ ur, ur_id ur ≠ ur_id usuario_rol)
              (filter (λ ur, rol_es_sistema db ur = true)
                 (asignaciones_de db uid))).
Proof.
  unfold roles_sistema_de, asignaciones_de, quitar.
  cbn [fst usuario_roles registrar borrar_usuario_rol].
  change (rol_es_sistema (registrar _ _)) with (rol_es_sistema db).
  f_equal. rewrite !list_filter_filter. apply list_filter_iff.
  intros ur. tauto.
Qed.

(** [RolViewSet.quitar_usuario] keeps the guarantee of C4: a user who
    holds a system role still holds one after the call, whatever the
    call does.  The ids of the assignment rows are a primary key. *)
Lemma quitar_usuario_conserva_rol_sistema (db : DB)
    (request_user : Z * Usuario) (pk uid : Z) :
  NoDup (ur_id <$> usuario_roles db) →
  0 < roles_sistema_de db uid →
  0 < roles_sistema_de
        (RolViewSet.quitar_usuario db request_user pk (Some uid)).1 uid.
Proof.
  intros Hnd Hpos. unfold RolViewSet.quitar_usuario.
  destruct (RolViewSet.get_object db request_user pk) as [rol|e] eqn:Hobj;
    [|exact Hpos].
  apply get_object_roles in Hobj.
  destruct (sin_id (Some uid)); [exact Hpos|].
  cbv zeta. cbn [from_option id].
  destruct (usuarios db !! uid) as [usuario_|]; [|exact Hpos].
  destruct (obj_get _) as [usuario_rol|e] eqn:Hget;
    [|destruct e; exact Hpos].
  apply obj_get_Ok in Hget.
  assert (usuario_rol ∈ usuario_roles db ∧ ur_rol usuario_rol = pk) as [Hin Hrol].
  { assert (usuario_rol ∈ filter (λ ur, ur_rol ur = pk) (asignaciones_de db uid))
      as Hx by (rewrite Hget; apply list_elem_of_here).
    apply list_elem_of_filter in Hx as [Hr Hx].
    apply list_elem_of_filter in Hx as [_ Hx]. done. }
  assert (rol_es_sistema db usuario_rol = es_sistema rol) as Hsis.
  { unfold rol_es_sistema. by rewrite Hrol, Hobj. }
  destruct (es_sistema rol) eqn:Hes; cbn [andb].
  - destruct (Nat.eqb_spec
                (length (filter (λ ur, ur_id ur ≠ ur_id usuario_rol)
                           (filter (λ ur, rol_es_sistema db ur = true)
                              (asignaciones_de db uid)))) 0) as [|Hne];
      [exact Hpos|].
    rewrite quitar_roles_sistema. lia.
  - rewrite quitar_roles_sistema. rewrite filter_todos; [exact Hpos|].
    intros ur Hur Hid.
    apply list_elem_of_filter in Hur as [Hs Hur].
    apply list_elem_of_filter in Hur as [_ Hur].
    assert (ur = usuario_rol) as -> by by apply (id_unico (usuario_roles db)).
    congruence.
Qed.

(** [quitar_rol_usuario] does not keep it: in the sample database,
    whose row ids are distinct, user 2 holds a system role before the
    call and none after it. *)
Lemma quitar_rol_usuario_no_conserva :
  NoDup (ur_id <$> usuario_roles db_ejemplo) ∧
  0 < roles_sistema_de db_ejemplo 2 ∧
  ¬ 0 < roles_sistema_de
          (quitar_rol_usuario db_ejemplo (1%Z, admin_user)
             (Some 2%Z) (Some 2%Z)).1 2.
Proof.
  split; [|split].
  - apply (bool_decide_unpack _). vm_compute. exact I.
  - vm_compute. lia.
  - vm_compute. lia.
Qed.

(** ** The view around the decision *)

(** For a caller who may ask (staff, or the user itself) about an
    existing user, [validar_permiso_usuario] answers 200 with the
    decision of [tiene_permiso_usuario] on the roles assigned to that
    user, and raises only if the decision does. *)
Lemma validar_permiso_usuario_decide (db : DB) (request_user : Z * Usuario)
    (uid : Z) (usuario_ : Usuario) (modulo accion : string) :
  usuarios db !! uid = Some usuario_ →
  modulo ≠ "" → accion ≠ "" →
  is_staff request_user.2 = true ∨ request_user.1 = uid →
  validar_permiso_usuario db request_user (Some uid) (Some modulo) (Some accion)
  = tiene_permiso ←
      tiene_permiso_usuario usuario_ (con_rol db (asignaciones_de db uid))
        modulo accion;
    Ok {| status := 200;
          data := JObj (<["usuario_id" := JNum uid]>
                       (<["usuario" := JStr (usuario usuario_)]>
                       (<["modulo" := JStr modulo]>
                       (<["accion" := JStr accion]>
                       (<["tiene_permiso" := JBool tiene_permiso]> ∅))))) |}.
Proof.
  intros Hu Hm Ha Hquien. unfold validar_permiso_usuario, sin_texto.
  assert (String.eqb modulo "" = false) as -> by by apply String.eqb_neq.
  assert (String.eqb accion "" = false) as -> by by apply String.eqb_neq.
  cbn [orb]. cbv zeta. cbn [from_option id]. rewrite Hu.
  assert (negb (is_staff request_user.2) &&
          negb (bool_decide (request_user.1 = uid)) = false) as ->.
  { destruct Hquien as [->| ->]; [reflexivity|].
    rewrite bool_decide_eq_true_2 by reflexivity. apply andb_false_r. }
  reflexivity.
Qed.

(** ** Assigning a role *)

(** A pair that is already in the table is refused, and the table is
    left as it was. *)
Lemma asignar_rol_usuario_ya_asignado (db : DB) (request_user : Z * Usuario)
    (uid rid : Z) (usuario_ : Usuario) (rol : Rol) (ur : UsuarioRol) :
  is_staff request_user.2 = true →
  uid ≠ 0%Z → rid ≠ 0%Z →
  usuarios db !! uid = Some usuario_ → roles db !! rid = Some rol →
  ur ∈ usuario_roles db → ur_usuario ur = uid → ur_rol ur = rid →
  asignar_rol_usuario db request_user (Some uid) (Some rid)
  = (db, Ok (error_response 400 "El usuario ya tiene asignado este rol")).
Proof.
  intros Hstaff Hu0 Hr0 Hu Hr Hin Huid Hrid. unfold asignar_rol_usuario.
  rewrite Hstaff. cbn [negb]. unfold sin_id.
  rewrite (proj2 (Z.eqb_neq uid 0) Hu0), (proj2 (Z.eqb_neq rid 0) Hr0).
  cbn [orb]. cbv zeta. cbn [from_option id]. rewrite Hu, Hr.
  assert (ur ∈ filter (λ ur, ur_rol ur = rid) (asignaciones_de db uid)) as Hf.
  { apply list_elem_of_filter. split; [exact Hrid|].
    apply list_elem_of_filter. split; [exact Huid|exact Hin]. }
  destruct (filter _ (asignaciones_de db uid)); [|reflexivity].
  by apply elem_of_nil in Hf.
Qed.

(** In the sample database the custom role 4 can be given to user 1,
    and the new row takes the next id. *)
Remark asignar_rol_usuario_ejemplo :
  estado (asignar_rol_usuario db_ejemplo (1%Z, admin_user) (Some 1%Z) (Some 4%Z))
  = Some 201%Z ∧
  usuario_roles
    (asignar_rol_usuario db_ejemplo (1%Z, admin_user) (Some 1%Z) (Some 4%Z)).1
  = (usuario_roles db_ejemplo
     ++ [ {| ur_id := 5; ur_usuario := 1; ur_rol := 4 |} ])%list.
Proof. split; vm_compute; reflexivity. Qed.

(** ** Text helpers *)

Ltac por_caracter c :=
  destruct c as [[|] [|] [|] [|] [|] [|] [|] [|]];
  try reflexivity; try discriminate.







Lemma title_desde_vacio (previo : bool) (s : string) :
  title_desde previo s = EmptyString ↔ s = EmptyString.
Proof. destruct s; cbn [title_desde]; split; congruence. Qed.


Lemma lstrip_length (s : string) :
  (String.length (lstrip s) <= String.length s)%nat.
Proof.
  induction s as [|d s IH]; [reflexivity|]. cbn [lstrip].
  destruct (es_espacio d); cbn [String.length]; lia.
Qed.

Lemma lstrip_lstrip (s : string) : lstrip (lstrip s) = lstrip s.
Proof.
  induction s as [|c s IH]; [reflexivity|]. cbn [lstrip].
  destruct (es_espacio c) eqn:E; [exact IH|]. cbn [lstrip]. by rewrite E.
Qed.

Lemma rstrip_rstrip (s : string) : rstrip (rstrip s) = rstrip s.
Proof.
  induction s as [|c s IH]; [reflexivity|]. cbn [rstrip].
  destruct (rstrip s) as [|d r] eqn:Hr.
  - destruct (es_espacio c) eqn:E; [reflexivity|]. cbn [rstrip]. by rewrite E.
  - cbn [rstrip]. cbn [rstrip] in IH.
    destruct (rstrip r) as [|e r'] eqn:Hr'.
    + destruct (es_espacio d) eqn:Ed; [discriminate|]. congruence.
    + rewrite IH. reflexivity.
Qed.

Lemma lstrip_rstrip (s : string) : lstrip s = s → lstrip (rstrip s) = rstrip s.
Proof.
  destruct s as [|c s]; [reflexivity|]. cbn [lstrip rstrip].
  destruct (es_espacio c) eqn:E.
  - intros H. exfalso.
    pose proof (lstrip_length s) as Hlen.
    rewrite H in Hlen. cbn [String.length] in Hlen. lia.
  - intros _. destruct (rstrip s); cbn [lstrip]; by rewrite E.
Qed.

Lemma py_strip_limpio (s : string) :
  lstrip (py_strip s) = py_strip s ∧ rstrip (py_strip s) = py_strip s.
Proof.
  unfold py_strip. split.
  - apply lstrip_rstrip, lstrip_lstrip.
  - apply rstrip_rstrip.
Qed.




(** ** [Rol.clean] *)





(** [Rol.clean] fills the permissions only when they are true in
    Python's sense.  A value that is false (the empty mapping, the
    empty list, zero, the empty string, null) is stored as it is: a
    role with [{}] comes out of [clean] with no module at all.  A
    mapping that is not empty comes out with every module of the closed
    set and with the entries it had. *)
Theorem clean_completa_solo_permisos_verdaderos (self : Rol) :
  (truthy (permisos self) = false →
   ∃ r, RolMetodos.clean self = Ok r ∧ permisos r = permisos self) ∧
  (∀ m : gmap string json,
     permisos self = JObj m → m ≠ ∅ →
     ∃ r m', RolMetodos.clean self = Ok r ∧ permisos r = JObj m' ∧
             (∀ k, k ∈ modulos → is_Some (m' !! k)) ∧
             (∀ k v, m !! k = Some v → m' !! k = Some v)).
Proof.
  split.
  - intros Hp. unfold RolMetodos.clean. rewrite Hp. eexists. split; reflexivity.
  - intros m Hm Hne. unfold RolMetodos.clean. rewrite Hm.
    assert (truthy (JObj m) = true) as ->.
    { unfold truthy. destruct (Nat.eqb_spec (size m) 0) as [Hs|]; [|reflexivity].
      by apply map_size_empty_iff in Hs. }
    rewrite validar_dict. eexists. exists (rellenar m modulos).
    split; [reflexivity|]. split; [reflexivity|]. split.
    + intros k Hk. rewrite rellenar_lookup.
      destruct (m !! k); [eauto|]. rewrite bool_decide_eq_true_2; eauto.
    + intros k v. apply rellenar_conserva.
Qed.

(** ** [Rol.obtener_permisos_completos] *)

Lemma acciones_permitidas_elem (acts : gmap string json) (A : string) :
  A ∈ RolMetodos.acciones_permitidas (map_to_list acts) ↔
  ∃ accion v, acts !! accion = Some v ∧ truthy v = true ∧ py_title accion = A.
Proof.
  unfold RolMetodos.acciones_permitidas. rewrite list_elem_of_fmap. split.
  - intros ([accion v] & -> & Hin). apply list_elem_of_filter in Hin as [Ht Hin].
    apply elem_of_map_to_list in Hin. exists accion, v. done.
  - intros (accion & v & Hl & Ht & <-). exists (accion, v). split; [reflexivity|].
    apply list_elem_of_filter. split; [exact Ht|]. by apply elem_of_map_to_list.
Qed.

Lemma describir_modulo_dict (d : gmap string (list string)) (k : string)
    (acts : gmap string json) :
  RolMetodos.describir_modulo d (k, JObj acts)
  = Ok (match RolMetodos.acciones_permitidas (map_to_list acts) with
        | [] => d
        | l => <[py_title k := l]> d
        end).
Proof.
  unfold RolMetodos.describir_modulo. cbn [fst snd py_items].
  unfold mbind, result_bind.
  by destruct (RolMetodos.acciones_permitidas (map_to_list acts)).
Qed.

Lemma describir_items (items : list (string * json))
    (d0 : gmap string (list string)) :
  (∀ it, it ∈ items → es_dict it.2 = true) →
  ∃ d, for_each RolMetodos.describir_modulo d0 items = Ok d ∧
    (∀ T l, d !! T = Some l →
       d0 !! T = Some l ∨
       ∃ k acts, (k, JObj acts) ∈ items ∧ py_title k = T ∧
                 l = RolMetodos.acciones_permitidas (map_to_list acts) ∧
                 l ≠ []) ∧
    (∀ T, is_Some (d0 !! T) → is_Some (d !! T)) ∧
    (∀ k acts, (k, JObj acts) ∈ items →
       RolMetodos.acciones_permitidas (map_to_list acts) ≠ [] →
       is_Some (d !! py_title k)).
Proof.
  revert d0. induction items as [|[k v] items IH]; intros d0 Hd.
  - exists d0. split; [reflexivity|]. split; [eauto|]. split; [eauto|].
    intros k acts Hin. by apply elem_of_nil in Hin.
  - assert (es_dict v = true) as Hv by apply (Hd (k, v)), list_elem_of_here.
    destruct v as [| | | | |acts]; try (simpl in Hv; congruence).
    cbn [for_each]. rewrite describir_modulo_dict.
    set (d1 := match RolMetodos.acciones_permitidas (map_to_list acts) with
               | [] => d0
               | l => <[py_title k := l]> d0
               end).
    change (Ok d1 ≫= λ acc', for_each RolMetodos.describir_modulo acc' items)
      with (for_each RolMetodos.describir_modulo d1 items).
    destruct (IH d1) as (d & Hfor & H1 & H2 & H3).
    { intros it Hit. by apply Hd, list_elem_of_further. }
    exists d. split; [exact Hfor|].
    assert (∀ T l, d1 !! T = Some l →
              d0 !! T = Some l ∨
              (py_title k = T ∧
               l = RolMetodos.acciones_permitidas (map_to_list acts) ∧ l ≠ []))
      as Hd1.
    { intros T l. subst d1.
      destruct (RolMetodos.acciones_permitidas (map_to_list acts)) as [|a l0];
        [eauto|].
      destruct (decide (py_title k = T)) as [<-|Hne].
      - rewrite lookup_insert_eq. intros H. apply (inj Some) in H. subst l.
        right. done.
      - rewrite lookup_insert_ne by done. eauto. }
    assert (∀ T, is_Some (d0 !! T) → is_Some (d1 !! T)) as Hd1'.
    { intros T HT. subst d1.
      destruct (RolMetodos.acciones_permitidas (map_to_list acts)); [exact HT|].
      destruct (decide (py_title k = T)) as [<-|Hne].
      - rewrite lookup_insert_eq. eauto.
      - by rewrite lookup_insert_ne. }
    split; [|split].
    + intros T l Hl. destruct (H1 T l Hl) as [Hl1|(k' & acts' & Hin & HT & Hl')].
      * destruct (Hd1 T l Hl1) as [?|(HT & Hl' & Hne)]; [by left|].
        right. exists k, acts. split; [apply list_elem_of_here|done].
      * right. exists k', acts'. split; [by apply list_elem_of_further|done].
    + intros T HT. by apply H2, Hd1'.
    + intros k' acts' Hin Hne. apply elem_of_cons in Hin as [Heq|Hin].
      * assert (k' = k) as -> by exact (f_equal fst Heq).
        assert (acts' = acts) as ->
          by exact (JObj_inj _ _ (f_equal snd Heq)).
        apply H2. subst d1.
        destruct (RolMetodos.acciones_permitidas (map_to_list acts));
          [done|]. rewrite lookup_insert_eq. eauto.
      * by apply (H3 k' acts').
Qed.

Lemma truthy_bool (v : json) : es_bool v = true → truthy v = true → v = JBool true.
Proof.
  destruct v as [|b| | | |]; try (intros H; simpl in H; congruence).
  intros _ H. simpl in H. by subst b.
Qed.

Lemma es_acciones_valor (acts : gmap string json) (a : string) (x : json) :
  es_acciones (JObj acts) = true → acts !! a = Some x → es_bool x = true.
Proof.
  intros H Ha. destruct (es_acciones_lookup _ _ _ H Ha) as [b ->]. reflexivity.
Qed.

(** The listing of a permission matrix holds exactly what the matrix
    grants.  A key [T] is in the listing if and only if some module
    whose title is [T] has an action set to [true]; the list under [T]
    belongs to one such module and holds the titles of exactly the
    actions that module grants.  A module that grants nothing is not
    listed. *)
Theorem obtener_permisos_completos_lista_lo_concedido (p : json) :
  es_matriz p = true →
  ∃ d : gmap string (list string),
    RolMetodos.obtener_permisos_completos p = Ok d ∧
    (∀ T, is_Some (d !! T) ↔
          ∃ modulo accion, py_title modulo = T ∧ concede p modulo accion) ∧
    (∀ T l, d !! T = Some l →
       ∃ modulo, py_title modulo = T ∧
         ∀ A, A ∈ l ↔
              ∃ accion, py_title accion = A ∧ concede p modulo accion).
Proof.
  intros Hp. destruct p as [| | | | |m]; try (simpl in Hp; congruence).
  assert (∀ modulo acts accion,
            m !! modulo = Some (JObj acts) →
            ((∃ v, acts !! accion = Some v ∧ truthy v = true) ↔
             concede (JObj m) modulo accion)) as Hcon.
  { intros modulo acts accion Hm. split.
    - intros (v & Hv & Ht). exists m, acts. split; [reflexivity|].
      split; [exact Hm|]. rewrite Hv. f_equal. apply truthy_bool; [|exact Ht].
      eapply es_acciones_valor; [|exact Hv]. eapply es_matriz_lookup; eauto.
    - intros (m0 & acts0 & E & Hm0 & Ha0). apply JObj_inj in E. subst m0.
      rewrite Hm in Hm0. apply (inj Some), JObj_inj in Hm0. subst acts0.
      exists (JBool true). done. }
  unfold RolMetodos.obtener_permisos_completos.
  destruct (truthy (JObj m)) eqn:Ht; cbn [negb].
  - cbn [py_items]. unfold mbind at 1, result_bind.
    destruct (describir_items (map_to_list m) ∅) as (d & Hfor & H1 & _ & H3).
    { intros [k v] Hin. apply elem_of_map_to_list in Hin. cbn [snd].
      pose proof (es_matriz_lookup _ _ _ Hp Hin) as Hv.
      destruct v; simpl in Hv; try congruence. reflexivity. }
    exists d. split; [exact Hfor|]. split.
    + intros T. split.
      * intros [l Hl]. destruct (H1 T l Hl) as [Hl0|(k & acts & Hin & HT & -> & Hne)].
        { by rewrite lookup_empty in Hl0. }
        apply elem_of_map_to_list in Hin.
        destruct (RolMetodos.acciones_permitidas (map_to_list acts)) as [|A l']
          eqn:El; [done|].
        assert (A ∈ RolMetodos.acciones_permitidas (map_to_list acts)) as HA
          by (rewrite El; apply list_elem_of_here).
        apply acciones_permitidas_elem in HA as (accion & v & Hv & Htv & _).
        exists k, accion. split; [exact HT|]. apply (Hcon k acts accion Hin). eauto.
      * intros (modulo & accion & <- & Hc).
        pose proof Hc as (m0 & acts & E & Hm0 & Ha0).
        apply JObj_inj in E. subst m0.
        apply (H3 modulo acts); [by apply elem_of_map_to_list|].
        intros Hnil.
        assert (py_title accion
                ∈ RolMetodos.acciones_permitidas (map_to_list acts)) as HA.
        { apply acciones_permitidas_elem. exists accion, (JBool true). done. }
        rewrite Hnil in HA. by apply elem_of_nil in HA.
    + intros T l Hl. destruct (H1 T l Hl) as [Hl0|(k & acts & Hin & HT & -> & Hne)].
      { by rewrite lookup_empty in Hl0. }
      apply elem_of_map_to_list in Hin. exists k. split; [exact HT|].
      intros A. rewrite acciones_permitidas_elem. split.
      * intros (accion & v & Hv & Htv & HA). exists accion. split; [exact HA|].
        apply (Hcon k acts accion Hin). eauto.
      * intros (accion & HA & Hc). apply (Hcon k acts accion Hin) in Hc as (v & Hv & Htv).
        exists accion, v. done.
  - exists ∅. split; [reflexivity|].
    assert (m = ∅) as ->.
    { unfold truthy in Ht. apply negb_false_iff, Nat.eqb_eq in Ht.
      by apply map_size_empty_iff. }
    split.
    + intros T. rewrite lookup_empty. split; [by intros [? ?]|].
      intros (modulo & accion & _ & (m0 & acts & E & Hm0 & _)).
      apply JObj_inj in E. subst m0. by rewrite lookup_empty in Hm0.
    + intros T l Hl. by rewrite lookup_empty in Hl.
Qed.

Lemma obtener_permisos_completos_lista_lo_concedido_witness :
  ∃ d : gmap string (list string),
    RolMetodos.obtener_permisos_completos permisos_socio = Ok d ∧
    (∀ T, is_Some (d !! T) ↔
          ∃ modulo accion,
            py_title modulo = T ∧ concede permisos_socio modulo accion) ∧
    (∀ T l, d !! T = Some l →
       ∃ modulo, py_title modulo = T ∧
         ∀ A, A ∈ l ↔
              ∃ accion, py_title accion = A ∧
                        concede permisos_socio modulo accion).
Proof.
  apply (obtener_permisos_completos_lista_lo_concedido permisos_socio).
  vm_compute. reflexivity.
Defined.

(** ** The bootstrap of the system roles *)

Lemma filas_con_nombre_nil (tabla : gmap Z Rol) (n : string) :
  RolMetodos.filas_con_nombre tabla n = [] →
  ∀ pk r, tabla !! pk = Some r → nombre r ≠ n.
Proof.
  unfold RolMetodos.filas_con_nombre. intros H pk r Hpk Hn.
  apply map_to_list_empty_iff in H.
  by apply (map_filter_empty_not_lookup _ _ pk r H).
Qed.

Lemma filas_con_nombre_uno (tabla : gmap Z Rol) (n : string) (pk : Z)
    (rol : Rol) :
  RolMetodos.filas_con_nombre tabla n = [(pk, rol)] →
  tabla !! pk = Some rol ∧ nombre rol = n ∧
  ∀ pk' r', tabla !! pk' = Some r' → nombre r' = n → pk' = pk.
Proof.
  unfold RolMetodos.filas_con_nombre. intros H.
  assert (filter (λ fila : Z * Rol, nombre fila.2 = n) tabla = {[ pk := rol ]})
    as Hf.
  { rewrite <- (list_to_map_to_list (filter _ tabla)), H. reflexivity. }
  assert (filter (λ fila : Z * Rol, nombre fila.2 = n) tabla !! pk = Some rol)
    as Hpk by (rewrite Hf; apply lookup_singleton_eq).
  apply map_lookup_filter_Some in Hpk as [Hpk Hn]. split; [exact Hpk|].
  split; [exact Hn|]. intros pk' r' Hpk' Hn'.
  assert (filter (λ fila : Z * Rol, nombre fila.2 = n) tabla !! pk' = Some r')
    as Hf' by by apply map_lookup_filter_Some.
  rewrite Hf in Hf'. apply lookup_singleton_Some in Hf' as [? _]. done.
Qed.

Lemma filas_con_nombre_insert (tabla : gmap Z Rol) (n : string) (pk : Z)
    (rol : Rol) :
  nombre rol = n →
  (∀ pk' r', tabla !! pk' = Some r' → nombre r' = n → pk' = pk) →
  RolMetodos.filas_con_nombre (<[pk := rol]> tabla) n = [(pk, rol)].
Proof.
  intros Hn Hu. unfold RolMetodos.filas_con_nombre.
  assert (filter (λ fila : Z * Rol, nombre fila.2 = n) (<[pk := rol]> tabla)
          = {[ pk := rol ]}) as ->; [|apply map_to_list_singleton].
  apply map_eq. intros i. apply option_eq. intros r.
  rewrite map_lookup_filter_Some, lookup_singleton_Some. cbn [fst snd]. split.
  - intros [Hi Hr]. destruct (decide (i = pk)) as [->|Hne].
    + rewrite lookup_insert_eq in Hi. by apply (inj Some) in Hi.
    + rewrite lookup_insert_ne in Hi by done. by specialize (Hu i r Hi Hr).
  - intros [-> ->]. by rewrite lookup_insert_eq.
Qed.

Lemma existe_nombre_false (tabla : gmap Z Rol) (n : string) :
  (∀ pk r, tabla !! pk = Some r → nombre r ≠ n) →
  RolSerializer_554.existe_nombre tabla n None = false.
Proof.
  intros H. apply not_true_is_false. unfold RolSerializer_554.existe_nombre.
  rewrite existsb_exists. intros ([pk r] & Hin & Hb).
  apply list_elem_of_In, elem_of_map_to_list in Hin.
  apply andb_true_iff in Hb as [Hb _]. cbn [snd] in Hb.
  apply String.eqb_eq in Hb. by apply (H pk r).
Qed.

Lemma guardar_rol_insertado (db : DB) (pk : Z) (rol : Rol) :
  guardar_rol (guardar_rol db pk rol) pk rol = guardar_rol db pk rol.
Proof.
  unfold guardar_rol. cbn [roles usuarios usuario_roles bitacora rol_seq
                           usuario_rol_seq].
  by rewrite insert_insert_eq.
Qed.

Lemma crear_rol_sistema_punto_fijo (db db' : DB) (n d : string) (p : json)
    (pk : Z) :
  RolMetodos.crear_rol_sistema db n d p = Ok (db', pk) →
  RolMetodos.crear_rol_sistema db' n d p = Ok (db', pk).
Proof.
  unfold RolMetodos.crear_rol_sistema at 1.
  destruct (RolMetodos.filas_con_nombre (roles db) n) as [|[pk0 rol0] [|? ?]]
    eqn:Hf; [| |discriminate].
  - pose proof (filas_con_nombre_nil _ _ Hf) as Hnil.
    unfold insertar_rol. cbn [nombre].
    rewrite (existe_nombre_false _ _ Hnil). cbv zeta.
    intros H. apply Ok_inj in H.
    assert (pk = (rol_seq db + 1)%Z) as -> by exact (eq_sym (f_equal snd H)).
    assert (db' = guardar_rol
                    {| roles := roles db; usuarios := usuarios db;
                       usuario_roles := usuario_roles db;
                       bitacora := bitacora db;
                       rol_seq := (rol_seq db + 1)%Z;
                       usuario_rol_seq := usuario_rol_seq db |}
                    (rol_seq db + 1)
                    {| nombre := n; descripcion := Some d; permisos := p;
                       es_sistema := true |}) as ->
      by exact (eq_sym (f_equal fst H)).
    unfold RolMetodos.crear_rol_sistema.
    cbn [roles guardar_rol].
    rewrite (filas_con_nombre_insert (roles db) n); [|reflexivity|].
    + cbn [nombre]. f_equal. f_equal.
      unfold guardar_rol. cbn [roles usuarios usuario_roles bitacora rol_seq
                               usuario_rol_seq].
      by rewrite insert_insert_eq.
    + intros pk' r' Hpk' Hn'. by destruct (Hnil pk' r' Hpk').
  - destruct (filas_con_nombre_uno _ _ _ _ Hf) as (Hpk0 & Hn0 & Hu).
    intros H. apply Ok_inj in H.
    assert (pk = pk0) as -> by exact (eq_sym (f_equal snd H)).
    assert (db' = guardar_rol db pk0
                    {| nombre := nombre rol0; descripcion := Some d;
                       permisos := p; es_sistema := true |}) as ->
      by exact (eq_sym (f_equal fst H)).
    unfold RolMetodos.crear_rol_sistema. cbn [roles guardar_rol].
    rewrite (filas_con_nombre_insert (roles db) n); [|exact Hn0|exact Hu].
    cbn [nombre]. f_equal. f_equal.
    unfold guardar_rol. cbn [roles usuarios usuario_roles bitacora rol_seq
                             usuario_rol_seq].
    by rewrite insert_insert_eq.
Qed.

Lemma crear_rol_sistema_idempotente (db : DB) (n d : string) (p : json) :
  RolMetodos.crear_rol_sistema db n d p
    ≫= (λ r, RolMetodos.crear_rol_sistema r.1 n d p)
  = RolMetodos.crear_rol_sistema db n d p.
Proof.
  destruct (RolMetodos.crear_rol_sistema db n d p) as [[db' pk]|e] eqn:H;
    [|reflexivity].
  by apply crear_rol_sistema_punto_fijo in H.
Qed.

(** Each of the three bootstrap methods can be run again: a second run
    on the database the first one left gives that database and that
    role again, and a run that raises leaves nothing to run again. *)
Theorem arranque_idempotente (db : DB) :
  (RolMetodos.crear_rol_administrador db
     ≫= (λ r, RolMetodos.crear_rol_administrador r.1)
   = RolMetodos.crear_rol_administrador db) ∧
  (RolMetodos.crear_rol_socio db ≫= (λ r, RolMetodos.crear_rol_socio r.1)
   = RolMetodos.crear_rol_socio db) ∧
  (RolMetodos.crear_rol_operador db ≫= (λ r, RolMetodos.crear_rol_operador r.1)
   = RolMetodos.crear_rol_operador db).
Proof. repeat split; apply crear_rol_sistema_idempotente. Qed.

Lemma secuencia_rol_valida_spec (db : DB) :
  secuencia_rol_valida db = true →
  ∀ pk r, roles db !! pk = Some r → (pk ≤ rol_seq db)%Z.
Proof.
  unfold secuencia_rol_valida. rewrite forallb_forall. intros H pk r Hpk.
  apply Z.leb_le.
  apply (H (pk, r)), list_elem_of_In, elem_of_map_to_list, Hpk.
Qed.

Lemma NoDup_fmap_elem {A B} (f : A → B) (l : list A) (x y : A) :
  NoDup (f <$> l) → x ∈ l → y ∈ l → f x = f y → x = y.
Proof.
  intros Hnd Hx Hy Hf.
  apply list_elem_of_lookup in Hx as [i Hi].
  apply list_elem_of_lookup in Hy as [j Hj].
  assert (i = j) as ->.
  { apply (NoDup_lookup (f <$> l) i j (f x) Hnd).
    - by rewrite list_lookup_fmap, Hi.
    - by rewrite list_lookup_fmap, Hj, Hf. }
  congruence.
Qed.

Lemma nombres_unicos_spec (db : DB) :
  nombres_unicos db = true →
  ∀ pk1 pk2 r1 r2, roles db !! pk1 = Some r1 → roles db !! pk2 = Some r2 →
    nombre r1 = nombre r2 → pk1 = pk2.
Proof.
  unfold nombres_unicos. intros H pk1 pk2 r1 r2 H1 H2 Hn.
  apply bool_decide_eq_true_1 in H.
  apply elem_of_map_to_list in H1, H2.
  by pose proof (NoDup_fmap_elem _ _ (pk1, r1) (pk2, r2) H H1 H2 Hn)
    as [= -> _].
Qed.

Lemma completa_b_spec (m : gmap string json) :
  completa_b m = true → matriz_completa m.
Proof.
  unfold completa_b. rewrite forallb_forall.
  intros H modulo accion Hm Ha.
  specialize (H modulo (proj1 (list_elem_of_In _ _) Hm)).
  destruct (m !! modulo) as [[| | | | |acts]|]; try discriminate.
  rewrite forallb_forall in H.
  specialize (H accion (proj1 (list_elem_of_In _ _) Ha)).
  destruct (acts !! accion) as [[|b| | | |]|] eqn:Hacc; try discriminate.
  by exists acts, b.
Qed.

Lemma crear_rol_sistema_resultado (db : DB) (n d : string) (p : json) :
  secuencia_rol_valida db = true →
  nombres_unicos db = true →
  ∃ db' pk,
    RolMetodos.crear_rol_sistema db n d p = Ok (db', pk) ∧
    roles db' !! pk
      = Some {| nombre := n; descripcion := Some d; permisos := p;
                es_sistema := true |} ∧
    (roles db !! pk = None ∨
     ∃ previo, roles db !! pk = Some previo ∧ nombre previo = n) ∧
    (∀ pk', pk' ≠ pk → roles db' !! pk' = roles db !! pk') ∧
    usuarios db' = usuarios db ∧
    usuario_roles db' = usuario_roles db ∧
    bitacora db' = bitacora db.
Proof.
  intros Hseq Hun.
  pose proof (secuencia_rol_valida_spec _ Hseq) as Hle.
  pose proof (nombres_unicos_spec _ Hun) as Hu.
  unfold RolMetodos.crear_rol_sistema.
  destruct (RolMetodos.filas_con_nombre (roles db) n)
    as [|[pk0 rol0] [|[pk1 rol1] resto]] eqn:Hf.
  - pose proof (filas_con_nombre_nil _ _ Hf) as Hnil.
    unfold insertar_rol. cbn [nombre].
    rewrite (existe_nombre_false _ _ Hnil). cbv zeta.
    eexists _, _. split; [reflexivity|]. cbn [roles usuarios usuario_roles
                                               bitacora].
    split; [apply lookup_insert_eq|]. split.
    + left. destruct (roles db !! (rol_seq db + 1)%Z) as [r|] eqn:Hr;
        [|reflexivity].
      specialize (Hle _ _ Hr). lia.
    + split; [|done]. intros pk' Hne. by rewrite lookup_insert_ne.
  - destruct (filas_con_nombre_uno _ _ _ _ Hf) as (Hpk0 & Hn0 & _).
    eexists _, _. split; [reflexivity|].
    cbn [guardar_rol roles usuarios usuario_roles bitacora].
    split; [by rewrite lookup_insert_eq, Hn0|]. split.
    + right. by exists rol0.
    + split; [|done]. intros pk' Hne. by rewrite lookup_insert_ne.
  - exfalso. unfold RolMetodos.filas_con_nombre in Hf.
    pose proof (NoDup_map_to_list
                  (filter (λ fila : Z * Rol, nombre fila.2 = n) (roles db)))
      as Hnd.
    assert ((pk0, rol0) ∈ map_to_list
              (filter (λ fila : Z * Rol, nombre fila.2 = n) (roles db)))
      as H0 by (rewrite Hf; apply list_elem_of_here).
    assert ((pk1, rol1) ∈ map_to_list
              (filter (λ fila : Z * Rol, nombre fila.2 = n) (roles db)))
      as H1 by (rewrite Hf; apply list_elem_of_further, list_elem_of_here).
    apply elem_of_map_to_list, map_lookup_filter_Some in H0 as [H0 Hn0].
    apply elem_of_map_to_list, map_lookup_filter_Some in H1 as [H1 Hn1].
    cbn [snd] in Hn0, Hn1.
    assert (pk0 = pk1) as -> by (apply (Hu _ _ _ _ H0 H1); congruence).
    assert (rol0 = rol1) as -> by congruence.
    rewrite Hf in Hnd. apply NoDup_cons in Hnd as [Hnd _].
    apply Hnd, list_elem_of_here.
Qed.

(** Bootstrap of a system role ([crear_rol_administrador],
    [crear_rol_socio], [crear_rol_operador]) on a database whose role
    keys come from the sequence and whose role names are distinct: the
    method returns, and leaves under the returned key the role with the
    fixed name, description and matrix, flagged as a system role, with
    every module and action of the closed sets at a boolean.  The key is
    a new one or that of the role that had the name; every other role,
    the users, the assignments and the audit log are as before. *)
Theorem arranque_deja_rol_de_sistema (crear : DB → result (DB * Z))
    (rol : Rol) (db : DB) :
  (crear, rol) ∈ arranques →
  secuencia_rol_valida db = true →
  nombres_unicos db = true →
  ∃ db' pk,
    crear db = Ok (db', pk) ∧
    roles db' !! pk = Some rol ∧
    es_sistema rol = true ∧
    (∃ m, permisos rol = JObj m ∧ matriz_completa m) ∧
    (roles db !! pk = None ∨
     ∃ previo, roles db !! pk = Some previo ∧ nombre previo = nombre rol) ∧
    (∀ pk', pk' ≠ pk → roles db' !! pk' = roles db !! pk') ∧
    usuarios db' = usuarios db ∧
    usuario_roles db' = usuario_roles db ∧
    bitacora db' = bitacora db.
Proof.
  intros Hin Hseq Hun. unfold arranques in Hin.
  assert (∃ n d p,
            crear = (λ db, RolMetodos.crear_rol_sistema db n d p) ∧
            rol = {| nombre := n; descripcion := Some d; permisos := p;
                     es_sistema := true |} ∧
            ∃ m, p = JObj m ∧ completa_b m = true) as (n & d & p & -> & -> & Hm).
  { rewrite !elem_of_cons, elem_of_nil in Hin.
    destruct Hin as [H|[H|[H|[]]]];
      pose proof (f_equal fst H) as H1; pose proof (f_equal snd H) as H2;
      cbn [fst snd] in H1, H2; rewrite H1, H2;
      eexists _, _, _; (split; [reflexivity|]); (split; [reflexivity|]);
      eexists; (split; [reflexivity|]); vm_compute; reflexivity. }
  destruct (crear_rol_sistema_resultado db n d p Hseq Hun)
    as (db' & pk & Hc & Hpk & Hprev & Hotros & Hu & Hur & Hb).
  exists db', pk. cbn [es_sistema permisos nombre].
  repeat (split; [done|]). split.
  - destruct Hm as (m & -> & Hm). exists m. split; [done|].
    by apply completa_b_spec.
  - done.
Qed.

Lemma arranque_deja_rol_de_sistema_witness :
  ∃ db' pk,
    RolMetodos.crear_rol_socio db_ejemplo = Ok (db', pk) ∧
    roles db' !! pk = Some (nth 1 arranques.*2 rol_socio) ∧
    es_sistema (nth 1 arranques.*2 rol_socio) = true ∧
    (∃ m, permisos (nth 1 arranques.*2 rol_socio) = JObj m ∧
          matriz_completa m) ∧
    (roles db_ejemplo !! pk = None ∨
     ∃ previo, roles db_ejemplo !! pk = Some previo ∧
               nombre previo = nombre (nth 1 arranques.*2 rol_socio)) ∧
    (∀ pk', pk' ≠ pk → roles db' !! pk' = roles db_ejemplo !! pk') ∧
    usuarios db' = usuarios db_ejemplo ∧
    usuario_roles db' = usuario_roles db_ejemplo ∧
    bitacora db' = bitacora db_ejemplo.
Proof.
  apply (arranque_deja_rol_de_sistema RolMetodos.crear_rol_socio
           (nth 1 arranques.*2 rol_socio) db_ejemplo).
  - apply list_elem_of_further, list_elem_of_here.
  - vm_compute; reflexivity.
  - vm_compute; reflexivity.
Defined.

(** ** The assignment table *)

Lemma exito_error (st : Z) (msg : string) :
  (300 ≤ st)%Z → exito (Ok (error_response st msg)) = false.
Proof. intros H. unfold exito, error_response. cbn [status]. lia. Qed.

Lemma sin_id_false (id : option Z) :
  sin_id id = false → ∃ n, id = Some n ∧ n ≠ 0%Z.
Proof.
  destruct id as [n|]; [|discriminate]. cbn [sin_id]. intros H.
  exists n. split; [done|]. lia.
Qed.

Lemma asignaciones_validas_spec (db : DB) :
  asignaciones_validas db = true ↔
  NoDup ((λ ur, (ur_usuario ur, ur_rol ur)) <$> usuario_roles db) ∧
  NoDup (ur_id <$> usuario_roles db) ∧
  ∀ ur, ur ∈ usuario_roles db → (ur_id ur ≤ usuario_rol_seq db)%Z.
Proof.
  unfold asignaciones_validas.
  rewrite !andb_true_iff, !bool_decide_eq_true, forallb_forall.
  split.
  - intros [[H1 H2] H3]. repeat split; [done..|]. intros ur Hur.
    apply Z.leb_le, H3, list_elem_of_In, Hur.
  - intros (H1 & H2 & H3). repeat split; [done..|]. intros ur Hur.
    apply Z.leb_le, H3, list_elem_of_In, Hur.
Qed.

Lemma asignaciones_validas_filter (db db' : DB) (P : UsuarioRol → Prop)
    `{!∀ ur, Decision (P ur)} :
  usuario_roles db' = filter P (usuario_roles db) →
  usuario_rol_seq db' = usuario_rol_seq db →
  asignaciones_validas db = true → asignaciones_validas db' = true.
Proof.
  intros Hur Hseq. rewrite !asignaciones_validas_spec, Hur, Hseq.
  intros (H1 & H2 & H3). repeat split.
  - eapply sublist_NoDup; [exact H1|]. apply fmap_sublist, sublist_filter.
  - eapply sublist_NoDup; [exact H2|]. apply fmap_sublist, sublist_filter.
  - intros ur Hin. apply list_elem_of_filter in Hin as [_ Hin]. by apply H3.
Qed.

Lemma asignaciones_validas_anadir (db : DB) (uid rid : Z) :
  filter (λ ur, ur_rol ur = rid) (asignaciones_de db uid) = [] →
  asignaciones_validas db = true →
  asignaciones_validas (anadir_asignacion db uid rid) = true.
Proof.
  intros Hno. rewrite !asignaciones_validas_spec.
  cbn [anadir_asignacion usuario_roles usuario_rol_seq].
  intros (H1 & H2 & H3). rewrite !fmap_app. cbn [fmap list_fmap].
  cbn [ur_usuario ur_rol ur_id]. repeat split.
  - apply NoDup_app. split; [done|]. split; [|apply NoDup_singleton].
    intros par Hpar Hnuevo. apply list_elem_of_singleton in Hnuevo as ->.
    apply list_elem_of_fmap in Hpar as (ur & Heq & Hur).
    assert (ur ∉ asignaciones_de db uid) as Hfuera
      by (eapply filter_nil_not_elem_of; [exact Hno|congruence]).
    apply Hfuera, list_elem_of_filter. split; [congruence|done].
  - apply NoDup_app. split; [done|]. split; [|apply NoDup_singleton].
    intros id Hid Hnuevo. apply list_elem_of_singleton in Hnuevo as ->.
    apply list_elem_of_fmap in Hid as (ur & Heq & Hur).
    specialize (H3 ur Hur). lia.
  - intros ur Hur. apply elem_of_app in Hur as [Hur|Hur].
    + specialize (H3 ur Hur). lia.
    + apply list_elem_of_singleton in Hur as ->. cbn [ur_id]. lia.
Qed.

Lemma asignar_rol_usuario_inv (db : DB) (request_user : Z * Usuario)
    (usuario_id rol_id : option Z) :
  match asignar_rol_usuario db request_user usuario_id rol_id with
  | (db', r) =>
      if exito r
      then ∃ uid rid usuario_ rol entrada,
             usuario_id = Some uid ∧ rol_id = Some rid ∧
             uid ≠ 0%Z ∧ rid ≠ 0%Z ∧
             is_staff request_user.2 = true ∧
             usuarios db !! uid = Some usuario_ ∧
             roles db !! rid = Some rol ∧
             filter (λ ur, ur_rol ur = rid) (asignaciones_de db uid) = [] ∧
             db' = registrar (anadir_asignacion db uid rid) entrada ∧
             b_usuario entrada = request_user.1
      else db' = db
  end.
Proof.
  unfold asignar_rol_usuario.
  destruct (is_staff request_user.2) eqn:Hstaff; cbn [negb];
    [|by rewrite exito_error by lia].
  destruct (sin_id usuario_id) eqn:Hu; cbn [orb];
    [by rewrite exito_error by lia|].
  destruct (sin_id rol_id) eqn:Hr; [by rewrite exito_error by lia|].
  apply sin_id_false in Hu as (uid & -> & Huid).
  apply sin_id_false in Hr as (rid & -> & Hrid).
  cbv zeta. cbn [default from_option id].
  destruct (usuarios db !! uid) as [usuario_|] eqn:Husuario;
    [|by rewrite exito_error by lia].
  destruct (roles db !! rid) as [rol|] eqn:Hrol;
    [|by rewrite exito_error by lia].
  destruct (filter (λ ur, ur_rol ur = rid) (asignaciones_de db uid)) eqn:Hf;
    [|by rewrite exito_error by lia].
  change (exito (Ok {| status := 201; data := ?d |})) with true. cbv iota.
  eexists uid, rid, usuario_, rol, _. repeat (split; [first [reflexivity|eassumption]|]).
  split; reflexivity.
Qed.

Lemma asignar_usuario_inv (db : DB) (request_user : Z * Usuario) (pk : Z)
    (usuario_id : option Z) :
  match RolViewSetAcciones.asignar_usuario db request_user pk usuario_id with
  | (db', r) =>
      if exito r
      then ∃ uid usuario_ rol entrada,
             usuario_id = Some uid ∧ uid ≠ 0%Z ∧
             RolViewSet.get_object db request_user pk = Ok rol ∧
             usuarios db !! uid = Some usuario_ ∧
             filter (λ ur, ur_rol ur = pk) (asignaciones_de db uid) = [] ∧
             db' = registrar (anadir_asignacion db uid pk) entrada ∧
             b_usuario entrada = request_user.1
      else db' = db
  end.
Proof.
  unfold RolViewSetAcciones.asignar_usuario.
  destruct (RolViewSet.get_object db request_user pk) as [rol|e] eqn:Hrol;
    [|reflexivity].
  destruct (sin_id usuario_id) eqn:Hu; [by rewrite exito_error by lia|].
  apply sin_id_false in Hu as (uid & -> & Huid).
  cbv zeta. cbn [default from_option id].
  destruct (usuarios db !! uid) as [usuario_|] eqn:Husuario;
    [|by rewrite exito_error by lia].
  destruct (filter (λ ur, ur_rol ur = pk) (asignaciones_de db uid)) eqn:Hf;
    [|by rewrite exito_error by lia].
  change (exito (Ok {| status := 201; data := ?d |})) with true. cbv iota.
  eexists uid, usuario_, rol, _. repeat (split; [first [reflexivity|eassumption]|]).
  split; reflexivity.
Qed.

Lemma quitar_inv (db : DB) (request_user : Z * Usuario) (rol : Rol)
    (usuario_ : Usuario) (usuario_rol : UsuarioRol) :
  match quitar db request_user rol usuario_ usuario_rol with
  | (db', r) =>
      exito r = true ∧
      ∃ entrada,
        db' = registrar (borrar_usuario_rol db (ur_id usuario_rol)) entrada ∧
        b_usuario entrada = request_user.1
  end.
Proof.
  unfold quitar. cbv zeta. split; [reflexivity|].
  eexists. split; reflexivity.
Qed.

Lemma quitar_rol_usuario_inv (db : DB) (request_user : Z * Usuario)
    (usuario_id rol_id : option Z) :
  match quitar_rol_usuario db request_user usuario_id rol_id with
  | (db', r) =>
      if exito r
      then ∃ id entrada,
             db' = registrar (borrar_usuario_rol db id) entrada ∧
             b_usuario entrada = request_user.1
      else db' = db
  end.
Proof.
  unfold quitar_rol_usuario.
  destruct (is_staff request_user.2) eqn:Hstaff; cbn [negb];
    [|by rewrite exito_error by lia].
  destruct (sin_id usuario_id || sin_id rol_id);
    [by rewrite exito_error by lia|].
  cbv zeta.
  destruct (usuarios db !! default 0%Z usuario_id) as [usuario_|];
    [|by rewrite exito_error by lia].
  destruct (roles db !! default 0%Z rol_id) as [rol|];
    [|by rewrite exito_error by lia].
  destruct (obj_get _) as [usuario_rol|[]]; try reflexivity.
  destruct (es_sistema rol && _); [by rewrite exito_error by lia|].
  pose proof (quitar_inv db request_user rol usuario_ usuario_rol) as H.
  destruct (quitar db request_user rol usuario_ usuario_rol) as [db' r].
  destruct H as [-> (entrada & -> & He)]. by eexists _, _.
Qed.

Lemma quitar_usuario_inv (db : DB) (request_user : Z * Usuario) (pk : Z)
    (usuario_id : option Z) :
  match RolViewSet.quitar_usuario db request_user pk usuario_id with
  | (db', r) =>
      if exito r
      then ∃ id entrada,
             db' = registrar (borrar_usuario_rol db id) entrada ∧
             b_usuario entrada = request_user.1
      else db' = db
  end.
Proof.
  unfold RolViewSet.quitar_usuario.
  destruct (RolViewSet.get_object db request_user pk) as [rol|e];
    [|reflexivity].
  destruct (sin_id usuario_id); [by rewrite exito_error by lia|].
  cbv zeta.
  destruct (usuarios db !! default 0%Z usuario_id) as [usuario_|];
    [|by rewrite exito_error by lia].
  destruct (obj_get _) as [usuario_rol|[]]; try reflexivity.
  destruct (es_sistema rol && _); [by rewrite exito_error by lia|].
  pose proof (quitar_inv db request_user rol usuario_ usuario_rol) as H.
  destruct (quitar db request_user rol usuario_ usuario_rol) as [db' r].
  destruct H as [-> (entrada & -> & He)]. by eexists _, _.
Qed.

Lemma destroy_inv (db : DB) (request_user : Z * Usuario) (pk : Z) :
  match RolViewSet.destroy db request_user pk with
  | (db', r) =>
      if exito r
      then ∃ rol entrada,
             RolViewSet.get_object db request_user pk = Ok rol ∧
             es_sistema rol = false ∧
             db' = borrar_rol (registrar db entrada) pk ∧
             b_usuario entrada = request_user.1
      else db' = db
  end.
Proof.
  unfold RolViewSet.destroy, RolViewSet.perform_destroy.
  destruct (RolViewSet.get_object db request_user pk) as [rol|e];
    [|reflexivity].
  destruct (es_sistema rol) eqn:Hs; [reflexivity|]. cbv zeta.
  change (exito (Ok {| status := 204; data := ?d |})) with true. cbv iota.
  by eexists rol, _.
Qed.

(** Whatever the request, the five endpoints that write the assignment
    table ([asignar_rol_usuario], [quitar_rol_usuario],
    [RolViewSet.asignar_usuario], [RolViewSet.quitar_usuario] and, by
    cascade, [RolViewSet.destroy]) leave it well formed: no user holds
    a role twice, and the ids are distinct and below the sequence. *)
Theorem asignaciones_validas_se_conserva (db : DB)
    (request_user : Z * Usuario) (pk : Z) (usuario_id rol_id : option Z) :
  asignaciones_validas db = true →
  asignaciones_validas
    (asignar_rol_usuario db request_user usuario_id rol_id).1 = true ∧
  asignaciones_validas
    (quitar_rol_usuario db request_user usuario_id rol_id).1 = true ∧
  asignaciones_validas
    (RolViewSetAcciones.asignar_usuario db request_user pk usuario_id).1
  = true ∧
  asignaciones_validas
    (RolViewSet.quitar_usuario db request_user pk usuario_id).1 = true ∧
  asignaciones_validas (RolViewSet.destroy db request_user pk).1 = true.
Proof.
  intros Hv. repeat split.
  - pose proof (asignar_rol_usuario_inv db request_user usuario_id rol_id) as H.
    destruct (asignar_rol_usuario db request_user usuario_id rol_id)
      as [db' r].
    destruct (exito r); [|by rewrite H].
    destruct H as (uid & rid & u & rol & e & _ & _ & _ & _ & _ & _ & _ & Hno
                   & -> & _).
    by apply (asignaciones_validas_anadir db uid rid Hno).
  - pose proof (quitar_rol_usuario_inv db request_user usuario_id rol_id) as H.
    destruct (quitar_rol_usuario db request_user usuario_id rol_id)
      as [db' r].
    destruct (exito r); [|by rewrite H].
    destruct H as (id & e & -> & _).
    by apply (asignaciones_validas_filter db _ (λ ur, ur_id ur ≠ id)).
  - pose proof (asignar_usuario_inv db request_user pk usuario_id) as H.
    destruct (RolViewSetAcciones.asignar_usuario db request_user pk usuario_id)
      as [db' r].
    destruct (exito r); [|by rewrite H].
    destruct H as (uid & u & rol & e & _ & _ & _ & _ & Hno & -> & _).
    by apply (asignaciones_validas_anadir db uid pk Hno).
  - pose proof (quitar_usuario_inv db request_user pk usuario_id) as H.
    destruct (RolViewSet.quitar_usuario db request_user pk usuario_id)
      as [db' r].
    destruct (exito r); [|by rewrite H].
    destruct H as (id & e & -> & _).
    by apply (asignaciones_validas_filter db _ (λ ur, ur_id ur ≠ id)).
  - pose proof (destroy_inv db request_user pk) as H.
    destruct (RolViewSet.destroy db request_user pk) as [db' r].
    destruct (exito r); [|by rewrite H].
    destruct H as (rol & e & _ & _ & -> & _).
    by apply (asignaciones_validas_filter db _ (λ ur, ur_rol ur ≠ pk)).
Qed.

Lemma asignaciones_validas_se_conserva_witness :
  asignaciones_validas
    (asignar_rol_usuario db_ejemplo (1%Z, admin_user) (Some 2%Z) (Some 1%Z)).1
  = true ∧
  asignaciones_validas
    (quitar_rol_usuario db_ejemplo (1%Z, admin_user) (Some 2%Z) (Some 1%Z)).1
  = true ∧
  asignaciones_validas
    (RolViewSetAcciones.asignar_usuario db_ejemplo (1%Z, admin_user) 1
       (Some 2%Z)).1
  = true ∧
  asignaciones_validas
    (RolViewSet.quitar_usuario db_ejemplo (1%Z, admin_user) 1 (Some 2%Z)).1
  = true ∧
  asignaciones_validas (RolViewSet.destroy db_ejemplo (1%Z, admin_user) 1).1
  = true.
Proof.
  apply (asignaciones_validas_se_conserva db_ejemplo (1%Z, admin_user) 1
           (Some 2%Z) (Some 1%Z)).
  vm_compute; reflexivity.
Defined.

(** ** Assignment, then revocation or check *)

Lemma filter_uno_True {A} (P : A → Prop) `{!∀ x, Decision (P x)} (x : A) :
  P x → filter P [x] = [x].
Proof. intros HP. by rewrite filter_cons_True. Qed.

Lemma filter_uno_False {A} (P : A → Prop) `{!∀ x, Decision (P x)} (x : A) :
  ¬ P x → filter P [x] = [].
Proof. intros HP. by rewrite filter_cons_False. Qed.

Lemma asignaciones_de_anadir (db : DB) (uid rid : Z)
    (entrada : BitacoraAuditoria) :
  asignaciones_de (registrar (anadir_asignacion db uid rid) entrada) uid
  = (asignaciones_de db uid
     ++ [{| ur_id := (usuario_rol_seq db + 1)%Z; ur_usuario := uid;
            ur_rol := rid |}])%list.
Proof.
  unfold asignaciones_de. cbn [registrar anadir_asignacion usuario_roles].
  rewrite filter_app. f_equal. by apply filter_uno_True.
Qed.

Lemma filter_id_nuevo (db : DB) (filas : list UsuarioRol) :
  (∀ ur, ur ∈ filas → (ur_id ur ≤ usuario_rol_seq db)%Z) →
  filter (λ ur, ur_id ur ≠ (usuario_rol_seq db + 1)%Z) filas = filas.
Proof.
  intros H. apply filter_todos. intros ur Hur. specialize (H ur Hur). lia.
Qed.

Lemma estado_exito (salida : DB * result Response) (st : Z) :
  estado salida = Some st → (st < 300)%Z → exito salida.2 = true.
Proof.
  unfold estado, exito. destruct salida.2 as [resp|e]; [|discriminate].
  intros H. apply (inj Some) in H as ->. lia.
Qed.

Lemma asignar_rol_usuario_201 (db : DB) (request_user : Z * Usuario)
    (uid rid : Z) :
  estado (asignar_rol_usuario db request_user (Some uid) (Some rid))
  = Some 201%Z →
  ∃ usuario_ rol entrada,
    uid ≠ 0%Z ∧ rid ≠ 0%Z ∧
    is_staff request_user.2 = true ∧
    usuarios db !! uid = Some usuario_ ∧
    roles db !! rid = Some rol ∧
    filter (λ ur, ur_rol ur = rid) (asignaciones_de db uid) = [] ∧
    (asignar_rol_usuario db request_user (Some uid) (Some rid)).1
    = registrar (anadir_asignacion db uid rid) entrada.
Proof.
  intros Hst. apply estado_exito in Hst; [|lia].
  pose proof (asignar_rol_usuario_inv db request_user (Some uid) (Some rid))
    as Hinv.
  destruct (asignar_rol_usuario db request_user (Some uid) (Some rid))
    as [db' r].
  cbn [snd] in Hst. rewrite Hst in Hinv.
  destruct Hinv as (uid' & rid' & u & rol & e & Hu & Hr & Huid & Hrid & Hstaff
                    & Husr & Hrol & Hno & -> & _).
  apply (inj Some) in Hu as <-. apply (inj Some) in Hr as <-.
  by exists u, rol, e.
Qed.

Lemma sin_id_Some (n : Z) : n ≠ 0%Z → sin_id (Some n) = false.
Proof. intros H. cbn [sin_id]. lia. Qed.

(** Revoking, through [quitar_rol_usuario], the role that
    [asignar_rol_usuario] has just assigned (201) on a well-formed
    assignment table: the revocation is answered 200 and the assignment
    table, the roles and the users are those before the assignment;
    unless the role is a system role and the user held no role before,
    in which case the revocation is refused with 400 and changes
    nothing. *)
Theorem asignar_y_quitar_rol_usuario (db : DB) (request_user : Z * Usuario)
    (uid rid : Z) (rol : Rol) :
  asignaciones_validas db = true →
  estado (asignar_rol_usuario db request_user (Some uid) (Some rid))
  = Some 201%Z →
  roles db !! rid = Some rol →
  let db1 :=
    (asignar_rol_usuario db request_user (Some uid) (Some rid)).1 in
  if es_sistema rol && Nat.eqb (length (asignaciones_de db uid)) 0
  then quitar_rol_usuario db1 request_user (Some uid) (Some rid)
       = (db1, Ok (error_response 400
                     "No se puede quitar el último rol del usuario"))
  else ∃ db2 resp2,
         quitar_rol_usuario db1 request_user (Some uid) (Some rid)
         = (db2, Ok resp2) ∧
         status resp2 = 200%Z ∧
         usuario_roles db2 = usuario_roles db ∧
         roles db2 = roles db ∧
         usuarios db2 = usuarios db.
Proof.
  intros Hv Hst Hrol.
  destruct (asignar_rol_usuario_201 _ _ _ _ Hst)
    as (u & rol' & e & Huid & Hrid & Hstaff & Hu & Hrol' & Hno & ->).
  assert (rol' = rol) as -> by congruence.
  apply asignaciones_validas_spec in Hv as (_ & _ & Hseq).
  cbv zeta.
  unfold quitar_rol_usuario.
  rewrite Hstaff, (sin_id_Some _ Huid), (sin_id_Some _ Hrid). cbn [negb orb].
  cbv zeta. cbn [default from_option id].
  change (usuarios (registrar (anadir_asignacion db uid rid) e))
    with (usuarios db).
  change (roles (registrar (anadir_asignacion db uid rid) e)) with (roles db).
  rewrite Hu, Hrol, asignaciones_de_anadir, filter_app, Hno.
  rewrite filter_uno_True by reflexivity.
  cbn [app obj_get ur_id]. rewrite filter_app.
  rewrite (filter_id_nuevo db (asignaciones_de db uid)).
  2:{ intros ur Hur. apply list_elem_of_filter in Hur as [_ Hur].
      by apply Hseq. }
  rewrite filter_uno_False by (cbn [ur_id]; intros Hne; by apply Hne).
  rewrite app_nil_r.
  destruct (es_sistema rol && Nat.eqb (length (asignaciones_de db uid)) 0);
    [reflexivity|].
  unfold quitar. cbv zeta. eexists _, _. split; [reflexivity|].
  cbn [status registrar borrar_usuario_rol anadir_asignacion usuario_roles
       roles usuarios ur_id].
  split; [reflexivity|]. split; [|done].
  rewrite filter_app, (filter_id_nuevo db (usuario_roles db)) by done.
  rewrite filter_uno_False by (cbn [ur_id]; intros Hne; by apply Hne).
  apply app_nil_r.
Qed.

Lemma asignar_y_quitar_rol_usuario_witness :
  ∃ db2 resp2,
    quitar_rol_usuario
      (asignar_rol_usuario db_ejemplo (1%Z, admin_user) (Some 2%Z)
         (Some 1%Z)).1
      (1%Z, admin_user) (Some 2%Z) (Some 1%Z)
    = (db2, Ok resp2) ∧
    status resp2 = 200%Z ∧
    usuario_roles db2 = usuario_roles db_ejemplo ∧
    roles db2 = roles db_ejemplo ∧
    usuarios db2 = usuarios db_ejemplo.
Proof.
  apply (asignar_y_quitar_rol_usuario db_ejemplo (1%Z, admin_user) 2 1
           rol_admin).
  - vm_compute; reflexivity.
  - vm_compute; reflexivity.
  - reflexivity.
Defined.

Lemma asignar_usuario_201 (db : DB) (request_user : Z * Usuario)
    (pk uid : Z) :
  estado (RolViewSetAcciones.asignar_usuario db request_user pk (Some uid))
  = Some 201%Z →
  ∃ usuario_ rol entrada,
    uid ≠ 0%Z ∧
    RolViewSet.get_object db request_user pk = Ok rol ∧
    usuarios db !! uid = Some usuario_ ∧
    filter (λ ur, ur_rol ur = pk) (asignaciones_de db uid) = [] ∧
    (RolViewSetAcciones.asignar_usuario db request_user pk (Some uid)).1
    = registrar (anadir_asignacion db uid pk) entrada.
Proof.
  intros Hst. apply estado_exito in Hst; [|lia].
  pose proof (asignar_usuario_inv db request_user pk (Some uid)) as Hinv.
  destruct (RolViewSetAcciones.asignar_usuario db request_user pk (Some uid))
    as [db' r].
  cbn [snd] in Hst. rewrite Hst in Hinv.
  destruct Hinv as (uid' & u & rol & e & Hu & Huid & Hrol & Husr & Hno & ->
                    & _).
  apply (inj Some) in Hu as <-.
  by exists u, rol, e.
Qed.

(** The same round trip through the actions of [RolViewSet]: revoking
    with [quitar_usuario] the role that [asignar_usuario] has just
    assigned (201) restores the assignment table, unless the role is a
    system role and the user held no system role before; then the
    revocation is refused with 400 and changes nothing. *)
Theorem asignar_y_quitar_usuario (db : DB) (request_user : Z * Usuario)
    (pk uid : Z) (rol : Rol) :
  asignaciones_validas db = true →
  estado (RolViewSetAcciones.asignar_usuario db request_user pk (Some uid))
  = Some 201%Z →
  roles db !! pk = Some rol →
  let db1 :=
    (RolViewSetAcciones.asignar_usuario db request_user pk (Some uid)).1 in
  if es_sistema rol && Nat.eqb (roles_sistema_de db uid) 0
  then RolViewSet.quitar_usuario db1 request_user pk (Some uid)
       = (db1, Ok (error_response 400
                     "No se puede quitar el último rol del sistema del usuario"))
  else ∃ db2 resp2,
         RolViewSet.quitar_usuario db1 request_user pk (Some uid)
         = (db2, Ok resp2) ∧
         status resp2 = 200%Z ∧
         usuario_roles db2 = usuario_roles db ∧
         roles db2 = roles db ∧
         usuarios db2 = usuarios db.
Proof.
  intros Hv Hst Hrol.
  destruct (asignar_usuario_201 _ _ _ _ Hst)
    as (u & rol' & e & Huid & Hobj & Hu & Hno & ->).
  assert (rol' = rol) as ->
    by (apply get_object_roles in Hobj; congruence).
  apply asignaciones_validas_spec in Hv as (_ & _ & Hseq).
  cbv zeta.
  unfold RolViewSet.quitar_usuario.
  change (RolViewSet.get_object (registrar (anadir_asignacion db uid pk) e)
            request_user pk)
    with (RolViewSet.get_object db request_user pk).
  rewrite Hobj, (sin_id_Some _ Huid).
  cbv zeta. cbn [default from_option id].
  change (usuarios (registrar (anadir_asignacion db uid pk) e))
    with (usuarios db).
  rewrite Hu, asignaciones_de_anadir, filter_app, Hno.
  rewrite filter_uno_True by reflexivity.
  cbn [app obj_get ur_id].
  assert (length
            (filter (λ ur, ur_id ur ≠ (usuario_rol_seq db + 1)%Z)
               (filter (λ ur, rol_es_sistema
                                (registrar (anadir_asignacion db uid pk) e) ur
                              = true)
                  (asignaciones_de db uid
                   ++ [{| ur_id := (usuario_rol_seq db + 1)%Z;
                          ur_usuario := uid; ur_rol := pk |}])%list))
          = roles_sistema_de db uid) as ->.
  { unfold roles_sistema_de. rewrite filter_app, filter_app.
    rewrite length_app.
    rewrite (filter_id_nuevo db).
    2:{ intros ur Hur. apply list_elem_of_filter in Hur as [_ Hur].
        apply list_elem_of_filter in Hur as [_ Hur]. by apply Hseq. }
    assert (filter (λ ur, ur_id ur ≠ (usuario_rol_seq db + 1)%Z)
              (filter (λ ur, rol_es_sistema
                               (registrar (anadir_asignacion db uid pk) e) ur
                             = true)
                 [{| ur_id := (usuario_rol_seq db + 1)%Z;
                     ur_usuario := uid; ur_rol := pk |}]) = []) as ->.
    { destruct (decide (rol_es_sistema
                          (registrar (anadir_asignacion db uid pk) e)
                          {| ur_id := (usuario_rol_seq db + 1)%Z;
                             ur_usuario := uid; ur_rol := pk |} = true))
        as [Hs|Hs].
      - rewrite (filter_uno_True (λ ur, rol_es_sistema _ ur = true) _ Hs).
        apply filter_uno_False. cbn [ur_id]. intros Hne. by apply Hne.
      - by rewrite (filter_uno_False (λ ur, rol_es_sistema _ ur = true) _ Hs). }
    cbn [length]. rewrite Nat.add_0_r. reflexivity. }
  destruct (es_sistema rol && Nat.eqb (roles_sistema_de db uid) 0);
    [reflexivity|].
  unfold quitar. cbv zeta. eexists _, _. split; [reflexivity|].
  cbn [status registrar borrar_usuario_rol anadir_asignacion usuario_roles
       roles usuarios ur_id].
  split; [reflexivity|]. split; [|done].
  rewrite filter_app, (filter_id_nuevo db (usuario_roles db)) by done.
  rewrite filter_uno_False by (cbn [ur_id]; intros Hne; by apply Hne).
  apply app_nil_r.
Qed.

Lemma asignar_y_quitar_usuario_witness :
  ∃ db2 resp2,
    RolViewSet.quitar_usuario
      (RolViewSetAcciones.asignar_usuario db_ejemplo (1%Z, admin_user) 2
         (Some 1%Z)).1
      (1%Z, admin_user) 2 (Some 1%Z)
    = (db2, Ok resp2) ∧
    status resp2 = 200%Z ∧
    usuario_roles db2 = usuario_roles db_ejemplo ∧
    roles db2 = roles db_ejemplo ∧
    usuarios db2 = usuarios db_ejemplo.
Proof.
  apply (asignar_y_quitar_usuario db_ejemplo (1%Z, admin_user) 2 1 rol_socio).
  - vm_compute; reflexivity.
  - vm_compute; reflexivity.
  - reflexivity.
Defined.

Lemma con_rol_app (db : DB) (l1 l2 : list UsuarioRol) :
  con_rol db (l1 ++ l2) = (con_rol db l1 ++ con_rol db l2)%list.
Proof. unfold con_rol. apply omap_app. Qed.

Lemma algun_rol_permite_app_true (l l' : list (UsuarioRol * Rol))
    (modulo accion : string) :
  algun_rol_permite l modulo accion = Ok true →
  algun_rol_permite (l ++ l') modulo accion = Ok true.
Proof.
  induction l as [|r l IH]; cbn [algun_rol_permite app]; [discriminate|].
  destruct (Rol.tiene_permiso (permisos r.2) modulo accion) as [v|e];
    cbn [mbind result_bind]; [|discriminate].
  destruct (truthy v); [done|exact IH].
Qed.

Lemma algun_rol_permite_app_false (l l' : list (UsuarioRol * Rol))
    (modulo accion : string) :
  algun_rol_permite l modulo accion = Ok false →
  algun_rol_permite (l ++ l') modulo accion
  = algun_rol_permite l' modulo accion.
Proof.
  induction l as [|r l IH]; cbn [algun_rol_permite app]; [done|].
  destruct (Rol.tiene_permiso (permisos r.2) modulo accion) as [v|e];
    cbn [mbind result_bind]; [|discriminate].
  destruct (truthy v); [discriminate|exact IH].
Qed.

(** What an assignment adds.  After [asignar_rol_usuario] has assigned
    (201) a role to a user, both holding permission matrices, the
    decision of the permission check for that user at any module and
    action is the decision before the assignment or the cell of the new
    role: no permission is lost, and the cells of the role are
    gained. *)
Theorem asignar_anade_los_permisos_del_rol (db : DB)
    (request_user : Z * Usuario) (uid rid : Z) (usuario_ : Usuario)
    (rol : Rol) (modulo accion : string) :
  estado (asignar_rol_usuario db request_user (Some uid) (Some rid))
  = Some 201%Z →
  usuarios db !! uid = Some usuario_ →
  roles db !! rid = Some rol →
  forallb (λ r : UsuarioRol * Rol, es_matriz (permisos r.2))
          (con_rol db (asignaciones_de db uid)) = true →
  es_matriz (permisos rol) = true →
  let db1 :=
    (asignar_rol_usuario db request_user (Some uid) (Some rid)).1 in
  ∃ antes del_rol : bool,
    tiene_permiso_usuario usuario_ (con_rol db (asignaciones_de db uid))
      modulo accion = Ok antes ∧
    Rol.tiene_permiso (permisos rol) modulo accion = Ok (JBool del_rol) ∧
    tiene_permiso_usuario usuario_ (con_rol db1 (asignaciones_de db1 uid))
      modulo accion = Ok (antes || del_rol).
Proof.
  intros Hst Hu Hrol Hroles Hmat.
  destruct (asignar_rol_usuario_201 _ _ _ _ Hst)
    as (u & rol' & e & _ & _ & _ & _ & Hrol' & _ & ->).
  assert (rol' = rol) as -> by congruence.
  cbv zeta.
  destruct (tiene_permiso_matriz _ modulo accion Hmat) as (del_rol & Hdel & _).
  rewrite asignaciones_de_anadir.
  assert (con_rol (registrar (anadir_asignacion db uid rid) e)
            (asignaciones_de db uid
             ++ [{| ur_id := (usuario_rol_seq db + 1)%Z; ur_usuario := uid;
                    ur_rol := rid |}])
          = (con_rol db (asignaciones_de db uid)
             ++ [({| ur_id := (usuario_rol_seq db + 1)%Z; ur_usuario := uid;
                     ur_rol := rid |}, rol)])%list) as ->.
  { change (con_rol (registrar (anadir_asignacion db uid rid) e))
      with (con_rol db).
    rewrite con_rol_app. f_equal. unfold con_rol.
    cbn [omap list_omap ur_rol]. by rewrite Hrol. }
  unfold tiene_permiso_usuario.
  destruct (is_staff usuario_ || is_superuser usuario_).
  { by exists true, del_rol. }
  destruct (algun_rol_permite_matrices _ modulo accion Hroles)
    as (antes & Hantes & _).
  exists antes, del_rol. split; [done|]. split; [done|].
  destruct antes.
  - by apply algun_rol_permite_app_true.
  - rewrite (algun_rol_permite_app_false _ _ _ _ Hantes).
    cbn [algun_rol_permite snd]. rewrite Hdel. cbn [mbind result_bind truthy].
    by destruct del_rol.
Qed.

Lemma asignar_anade_los_permisos_del_rol_witness :
  ∃ antes del_rol : bool,
    tiene_permiso_usuario usuario1
      (con_rol db_ejemplo (asignaciones_de db_ejemplo 2)) "usuarios" "crear"
    = Ok antes ∧
    Rol.tiene_permiso (permisos rol_admin) "usuarios" "crear"
    = Ok (JBool del_rol) ∧
    tiene_permiso_usuario usuario1
      (con_rol
         (asignar_rol_usuario db_ejemplo (1%Z, admin_user) (Some 2%Z)
            (Some 1%Z)).1
         (asignaciones_de
            (asignar_rol_usuario db_ejemplo (1%Z, admin_user) (Some 2%Z)
               (Some 1%Z)).1 2))
      "usuarios" "crear"
    = Ok (antes || del_rol).
Proof.
  apply (asignar_anade_los_permisos_del_rol db_ejemplo (1%Z, admin_user) 2 1
           usuario1 rol_admin "usuarios" "crear").
  - vm_compute; reflexivity.
  - reflexivity.
  - reflexivity.
  - vm_compute; reflexivity.
  - vm_compute; reflexivity.
Defined.

(** ** The queryset of [RolViewSet] *)

Lemma get_object_oculto (db : DB) (request_user : Z * Usuario) (pk : Z)
    (rol : Rol) :
  is_staff request_user.2 = false →
  roles db !! pk = Some rol →
  es_sistema rol = true →
  RolViewSet.get_object db request_user pk = Raise Http404.
Proof.
  intros Hstaff Hrol Hs. unfold RolViewSet.get_object, RolViewSet.get_queryset.
  rewrite Hstaff. cbn [negb].
  assert (filter (λ fila : Z * Rol, es_sistema fila.2 = false) (roles db) !! pk
          = None) as ->; [|reflexivity].
  apply map_lookup_filter_None. right. intros rol' Hrol'. cbn [snd].
  assert (rol' = rol) as -> by congruence. by rewrite Hs.
Qed.

(** A system role does not exist for a caller who is not staff: every
    detail endpoint of [RolViewSet] (destroy, update, duplicar,
    asignar_usuario, quitar_usuario, usuarios) answers such a caller
    with Http404 on the key of a system role, whatever the request
    carries, and leaves the database as it was. *)
Theorem rol_sistema_oculto_para_no_staff (db : DB)
    (request_user : Z * Usuario) (pk : Z) (rol : Rol) (partial : bool)
    (body : RolData) (nuevo_nombre descripcion_ : option string)
    (usuario_id : option Z) :
  is_staff request_user.2 = false →
  roles db !! pk = Some rol →
  es_sistema rol = true →
  RolViewSet.destroy db request_user pk = (db, Raise Http404) ∧
  RolViewSet.update db request_user pk partial body = (db, Raise Http404) ∧
  RolViewSet.duplicar db request_user pk nuevo_nombre descripcion_
  = (db, Raise Http404) ∧
  RolViewSetAcciones.asignar_usuario db request_user pk usuario_id
  = (db, Raise Http404) ∧
  RolViewSet.quitar_usuario db request_user pk usuario_id
  = (db, Raise Http404) ∧
  RolViewSetAcciones.usuarios_de_rol db request_user pk = Raise Http404.
Proof.
  intros Hstaff Hrol Hs.
  pose proof (get_object_oculto db request_user pk rol Hstaff Hrol Hs) as H.
  unfold RolViewSet.destroy, RolViewSet.update, RolViewSet.duplicar,
    RolViewSetAcciones.asignar_usuario, RolViewSet.quitar_usuario,
    RolViewSetAcciones.usuarios_de_rol.
  rewrite H. repeat split; reflexivity.
Qed.

Lemma rol_sistema_oculto_para_no_staff_witness :
  RolViewSet.destroy db_ejemplo (2%Z, usuario1) 2 = (db_ejemplo, Raise Http404) ∧
  RolViewSet.update db_ejemplo (2%Z, usuario1) 2 true cuerpo_administrador
  = (db_ejemplo, Raise Http404) ∧
  RolViewSet.duplicar db_ejemplo (2%Z, usuario1) 2 (Some "Copia") None
  = (db_ejemplo, Raise Http404) ∧
  RolViewSetAcciones.asignar_usuario db_ejemplo (2%Z, usuario1) 2 (Some 2%Z)
  = (db_ejemplo, Raise Http404) ∧
  RolViewSet.quitar_usuario db_ejemplo (2%Z, usuario1) 2 (Some 2%Z)
  = (db_ejemplo, Raise Http404) ∧
  RolViewSetAcciones.usuarios_de_rol db_ejemplo (2%Z, usuario1) 2
  = Raise Http404.
Proof.
  apply (rol_sistema_oculto_para_no_staff db_ejemplo (2%Z, usuario1) 2
           rol_socio true cuerpo_administrador (Some "Copia") None (Some 2%Z));
    reflexivity.
Defined.

(** ** Creation, duplication and deletion of roles *)

Lemma insertar_rol_anadir (db : DB) (rol : Rol) :
  insertar_rol db rol
  = if RolSerializer_554.existe_nombre (roles db) (nombre rol) None
    then Raise IntegrityError
    else Ok (anadir_rol db rol, (rol_seq db + 1)%Z).
Proof. reflexivity. Qed.

Lemma sin_texto_false (s : option string) :
  sin_texto s = false → ∃ t, s = Some t ∧ t ≠ "".
Proof.
  destruct s as [t|]; [|discriminate]. cbn [sin_texto]. intros H.
  exists t. split; [done|]. by apply String.eqb_neq.
Qed.

Lemma py_copy_Ok (v copia : json) : py_copy v = Ok copia → copia = v.
Proof.
  destruct v; cbn [py_copy]; intros H; try discriminate H;
    by apply Ok_inj in H.
Qed.

Lemma duplicar_inv (db : DB) (request_user : Z * Usuario) (pk : Z)
    (nuevo_nombre descripcion_ : option string) :
  match RolViewSet.duplicar db request_user pk nuevo_nombre descripcion_ with
  | (db', r) =>
      if exito r
      then ∃ original nuevo entrada,
             RolViewSet.get_object db request_user pk = Ok original ∧
             nuevo_nombre = Some nuevo ∧ nuevo ≠ "" ∧
             existe_nombre_iexact (roles db) nuevo None = false ∧
             db' = registrar
                     (anadir_rol db
                        {| nombre := nuevo;
                           descripcion :=
                             Some (default ("Copia de " ++ nombre original)
                                           descripcion_);
                           permisos := permisos original;
                           es_sistema := false |}) entrada ∧
             b_usuario entrada = request_user.1
      else db' = db
  end.
Proof.
  unfold RolViewSet.duplicar.
  destruct (RolViewSet.get_object db request_user pk) as [original|e]
    eqn:Hobj; [|reflexivity].
  destruct (sin_texto nuevo_nombre) eqn:Hn; [reflexivity|].
  apply sin_texto_false in Hn as (nuevo & -> & Hne).
  cbv zeta. cbn [default from_option id].
  destruct (existe_nombre_iexact (roles db) nuevo None) eqn:Hex;
    [reflexivity|].
  destruct (py_copy (permisos original)) as [copia|e] eqn:Hcopia;
    cbn [mbind result_bind]; [|reflexivity].
  apply py_copy_Ok in Hcopia as ->.
  rewrite insertar_rol_anadir. cbn [nombre].
  destruct (RolSerializer_554.existe_nombre (roles db) nuevo None);
    [reflexivity|].
  change (exito (Ok {| status := 201; data := ?d |})) with true. cbv iota.
  eexists original, nuevo, _. repeat (split; [done|]). split; reflexivity.
Qed.






Lemma referencias_validas_spec (db : DB) :
  referencias_validas db = true →
  ∀ ur, ur ∈ usuario_roles db → is_Some (roles db !! ur_rol ur).
Proof.
  unfold referencias_validas. rewrite forallb_forall. intros H ur Hur.
  apply list_elem_of_In, H in Hur. by apply bool_decide_eq_true_1 in Hur.
Qed.

Lemma rol_nuevo_libre (db : DB) :
  secuencia_rol_valida db = true → roles db !! (rol_seq db + 1)%Z = None.
Proof.
  intros Hseq. destruct (roles db !! (rol_seq db + 1)%Z) as [r|] eqn:Hr;
    [|reflexivity].
  pose proof (secuencia_rol_valida_spec _ Hseq _ _ Hr). lia.
Qed.

Lemma get_object_visible (db : DB) (request_user : Z * Usuario) (pk : Z)
    (rol : Rol) :
  roles db !! pk = Some rol → es_sistema rol = false →
  RolViewSet.get_object db request_user pk = Ok rol.
Proof.
  intros Hrol Hs. unfold RolViewSet.get_object, RolViewSet.get_queryset.
  destruct (negb (is_staff request_user.2)); [|by rewrite Hrol].
  assert (filter (λ fila : Z * Rol, es_sistema fila.2 = false) (roles db) !! pk
          = Some rol) as ->; [|reflexivity].
  by apply map_lookup_filter_Some.
Qed.

Lemma duplicar_201 (db : DB) (request_user : Z * Usuario) (pk : Z)
    (nuevo_nombre descripcion_ : option string) :
  estado (RolViewSet.duplicar db request_user pk nuevo_nombre descripcion_)
  = Some 201%Z →
  ∃ original nuevo entrada,
    RolViewSet.get_object db request_user pk = Ok original ∧
    nuevo_nombre = Some nuevo ∧ nuevo ≠ "" ∧
    existe_nombre_iexact (roles db) nuevo None = false ∧
    (RolViewSet.duplicar db request_user pk nuevo_nombre descripcion_).1
    = registrar
        (anadir_rol db
           {| nombre := nuevo;
              descripcion :=
                Some (default ("Copia de " ++ nombre original) descripcion_);
              permisos := permisos original;
              es_sistema := false |}) entrada.
Proof.
  intros Hst. apply estado_exito in Hst; [|lia].
  pose proof (duplicar_inv db request_user pk nuevo_nombre descripcion_)
    as Hinv.
  destruct (RolViewSet.duplicar db request_user pk nuevo_nombre descripcion_)
    as [db' r].
  cbn [snd] in Hst. rewrite Hst in Hinv.
  destruct Hinv as (original & nuevo & e & Hobj & Hn & Hne & Hex & -> & _).
  by exists original, nuevo, e.
Qed.

(** Duplicating a role and deleting the copy.  When [duplicar] answers
    201, on a database whose role keys come from the sequence and whose
    assignments point to existing roles, the copy is stored under the
    next key with the requested name, the permission matrix of the
    original, and [es_sistema] false, also when the original is a
    system role; the other roles and the assignments are untouched.
    The same caller can then [destroy] the copy (204), which brings
    back the role table and the assignment table of before. *)
Theorem duplicar_y_destroy (db : DB) (request_user : Z * Usuario) (pk : Z)
    (nuevo_nombre descripcion_ : option string) :
  secuencia_rol_valida db = true →
  referencias_validas db = true →
  estado (RolViewSet.duplicar db request_user pk nuevo_nombre descripcion_)
  = Some 201%Z →
  let db1 :=
    (RolViewSet.duplicar db request_user pk nuevo_nombre descripcion_).1 in
  let copia := (rol_seq db + 1)%Z in
  ∃ original nueva,
    roles db !! pk = Some original ∧
    roles db !! copia = None ∧
    roles db1 !! copia = Some nueva ∧
    Some (nombre nueva) = nuevo_nombre ∧
    permisos nueva = permisos original ∧
    es_sistema nueva = false ∧
    (∀ k, k ≠ copia → roles db1 !! k = roles db !! k) ∧
    usuario_roles db1 = usuario_roles db ∧
    estado (RolViewSet.destroy db1 request_user copia) = Some 204%Z ∧
    roles (RolViewSet.destroy db1 request_user copia).1 = roles db ∧
    usuario_roles (RolViewSet.destroy db1 request_user copia).1
    = usuario_roles db.
Proof.
  intros Hseq Href Hst.
  destruct (duplicar_201 _ _ _ _ _ Hst)
    as (original & nuevo & e & Hobj & -> & Hne & Hex & ->).
  cbv zeta. pose proof (rol_nuevo_libre db Hseq) as Hlibre.
  eexists original, _.
  split; [by apply get_object_roles in Hobj|]. split; [exact Hlibre|].
  cbn [registrar anadir_rol roles usuario_roles].
  split; [apply lookup_insert_eq|]. cbn [nombre permisos es_sistema].
  repeat (split; [reflexivity|]).
  split; [intros k Hk; by rewrite lookup_insert_ne|].
  split; [reflexivity|].
  unfold RolViewSet.destroy.
  rewrite (get_object_visible _ _ _
             {| nombre := nuevo;
                descripcion :=
                  Some (default ("Copia de " ++ nombre original) descripcion_);
                permisos := permisos original; es_sistema := false |});
    [|apply lookup_insert_eq|reflexivity].
  unfold RolViewSet.perform_destroy. cbn [es_sistema]. cbv zeta.
  split; [reflexivity|].
  cbn [fst borrar_rol registrar roles usuario_roles].
  split; [by apply delete_insert_id|].
  apply filter_todos. intros ur Hur Heq.
  destruct (referencias_validas_spec db Href ur Hur) as [r Hr].
  rewrite Heq in Hr. congruence.
Qed.

Lemma duplicar_y_destroy_witness :
  ∃ original nueva,
    roles db_ejemplo !! 2%Z = Some original ∧
    roles db_ejemplo !! 5%Z = None ∧
    roles (RolViewSet.duplicar db_ejemplo (1%Z, admin_user) 2
             (Some "Copia") None).1 !! 5%Z = Some nueva ∧
    Some (nombre nueva) = Some "Copia" ∧
    permisos nueva = permisos original ∧
    es_sistema nueva = false ∧
    (∀ k, k ≠ 5%Z →
       roles (RolViewSet.duplicar db_ejemplo (1%Z, admin_user) 2
                (Some "Copia") None).1 !! k = roles db_ejemplo !! k) ∧
    usuario_roles (RolViewSet.duplicar db_ejemplo (1%Z, admin_user) 2
                     (Some "Copia") None).1 = usuario_roles db_ejemplo ∧
    estado (RolViewSet.destroy
              (RolViewSet.duplicar db_ejemplo (1%Z, admin_user) 2
                 (Some "Copia") None).1 (1%Z, admin_user) 5)
    = Some 204%Z ∧
    roles (RolViewSet.destroy
             (RolViewSet.duplicar db_ejemplo (1%Z, admin_user) 2
                (Some "Copia") None).1 (1%Z, admin_user) 5).1
    = roles db_ejemplo ∧
    usuario_roles (RolViewSet.destroy
                     (RolViewSet.duplicar db_ejemplo (1%Z, admin_user) 2
                        (Some "Copia") None).1 (1%Z, admin_user) 5).1
    = usuario_roles db_ejemplo.
Proof.
  apply (duplicar_y_destroy db_ejemplo (1%Z, admin_user) 2 (Some "Copia")
           None).
  - vm_compute; reflexivity.
  - vm_compute; reflexivity.
  - vm_compute; reflexivity.
Defined.

(** The system flag is an ordinary writable field of the serializer
    that [RolViewSet] uses.  A staff caller who is refused the deletion
    of a system role can clear the flag with a PATCH that carries only
    [es_sistema: false] (200; name, description and matrix are kept),
    after which [destroy] deletes the role (204). *)
Theorem update_levanta_la_proteccion (db : DB) (request_user : Z * Usuario)
    (pk : Z) (rol : Rol) :
  is_staff request_user.2 = true →
  roles db !! pk = Some rol →
  es_sistema rol = true →
  let db1 := (RolViewSet.update db request_user pk true cuerpo_sin_marca).1 in
  RolViewSet.destroy db request_user pk
  = (db, Raise (ValidationError
                  (JStr "No se puede eliminar un rol del sistema"))) ∧
  estado (RolViewSet.update db request_user pk true cuerpo_sin_marca)
  = Some 200%Z ∧
  roles db1 !! pk
  = Some {| nombre := nombre rol; descripcion := descripcion rol;
            permisos := permisos rol; es_sistema := false |} ∧
  estado (RolViewSet.destroy db1 request_user pk) = Some 204%Z ∧
  roles (RolViewSet.destroy db1 request_user pk).1 !! pk = None.
Proof.
  intros Hstaff Hrol Hs. cbv zeta.
  assert (∀ db', roles db' !! pk = roles db !! pk →
                 RolViewSet.get_object db' request_user pk = Ok rol) as Hobj.
  { intros db' Hdb'. unfold RolViewSet.get_object, RolViewSet.get_queryset.
    rewrite Hstaff. cbn [negb]. by rewrite Hdb', Hrol. }
  split.
  { unfold RolViewSet.destroy, RolViewSet.perform_destroy.
    rewrite (Hobj db eq_refl), Hs. reflexivity. }
  unfold RolViewSet.update. rewrite (Hobj db eq_refl).
  change (RolSerializer.is_valid (roles db) (Some (pk, rol)) true
            cuerpo_sin_marca) with (Ok cuerpo_sin_marca).
  cbv zeta. split; [reflexivity|].
  cbn [fst registrar guardar_rol roles].
  change (RolViewSet.rol_actualizado rol cuerpo_sin_marca)
    with {| nombre := nombre rol; descripcion := descripcion rol;
            permisos := permisos rol; es_sistema := false |}.
  split; [apply lookup_insert_eq|].
  unfold RolViewSet.destroy.
  rewrite (get_object_visible _ request_user pk
             {| nombre := nombre rol; descripcion := descripcion rol;
                permisos := permisos rol; es_sistema := false |});
    [|apply lookup_insert_eq|reflexivity].
  unfold RolViewSet.perform_destroy. cbn [es_sistema]. cbv zeta.
  split; [reflexivity|].
  cbn [fst borrar_rol registrar roles]. apply lookup_delete_eq.
Qed.

Lemma update_levanta_la_proteccion_witness :
  RolViewSet.destroy db_ejemplo (1%Z, admin_user) 1
  = (db_ejemplo,
     Raise (ValidationError (JStr "No se puede eliminar un rol del sistema"))) ∧
  estado (RolViewSet.update db_ejemplo (1%Z, admin_user) 1 true
            cuerpo_sin_marca) = Some 200%Z ∧
  roles (RolViewSet.update db_ejemplo (1%Z, admin_user) 1 true
           cuerpo_sin_marca).1 !! 1%Z
  = Some {| nombre := nombre rol_admin; descripcion := descripcion rol_admin;
            permisos := permisos rol_admin; es_sistema := false |} ∧
  estado (RolViewSet.destroy
            (RolViewSet.update db_ejemplo (1%Z, admin_user) 1 true
               cuerpo_sin_marca).1 (1%Z, admin_user) 1) = Some 204%Z ∧
  roles (RolViewSet.destroy
           (RolViewSet.update db_ejemplo (1%Z, admin_user) 1 true
              cuerpo_sin_marca).1 (1%Z, admin_user) 1).1 !! 1%Z = None.
Proof.
  apply (update_levanta_la_proteccion db_ejemplo (1%Z, admin_user) 1
           rol_admin); reflexivity.
Defined.

(** ** The consolidated report and the permission check *)

Lemma concede_b_spec (v : json) (modulo accion : string) :
  concede_b v modulo accion = true ↔ concede v modulo accion.
Proof.
  unfold concede_b, concede. split.
  - destruct v as [| | | | |m]; try discriminate.
    destruct (m !! modulo) as [[| | | | |acts]|] eqn:Hm; try discriminate.
    destruct (acts !! accion) as [[|[|]| | | |]|] eqn:Ha; try discriminate.
    intros _. by exists m, acts.
  - intros (m & acts & -> & Hm & Ha). by rewrite Hm, Ha.
Qed.

Lemma foldl_activar_lookup (items : list (string * json))
    (acc : gmap string json) (a : string) :
  foldl activar acc items !! a
  = if existsb (λ it : string * json, bool_decide (it.1 = a) && truthy it.2)
               items
    then Some (JBool true) else acc !! a.
Proof.
  revert acc. induction items as [|it items IH]; intros acc;
    cbn [foldl existsb]; [done|].
  rewrite IH.
  destruct (existsb _ items); [by rewrite orb_true_r|].
  rewrite orb_false_r. unfold activar.
  destruct (truthy it.2); [|by rewrite andb_false_r].
  rewrite andb_true_r. destruct (decide (it.1 = a)) as [->|Hne].
  - by rewrite bool_decide_eq_true_2, lookup_insert_eq.
  - by rewrite bool_decide_eq_false_2, lookup_insert_ne.
Qed.

Lemma existsb_activo (acts : gmap string json) (a : string) :
  es_acciones (JObj acts) = true →
  existsb (λ it : string * json, bool_decide (it.1 = a) && truthy it.2)
          (map_to_list acts)
  = match acts !! a with Some (JBool true) => true | _ => false end.
Proof.
  intros Hacts.
  destruct (existsb _ (map_to_list acts)) eqn:Hex.
  - apply existsb_exists in Hex as ([k v] & Hin & H).
    apply list_elem_of_In, elem_of_map_to_list in Hin.
    apply andb_true_iff in H as [Hk Hv]. cbn [fst snd] in Hk, Hv.
    apply bool_decide_eq_true_1 in Hk as ->. rewrite Hin.
    destruct (es_acciones_lookup _ _ _ Hacts Hin) as [b ->].
    cbn [truthy] in Hv. by rewrite Hv.
  - destruct (acts !! a) as [[|[|]| | | |]|] eqn:Ha; try reflexivity.
    assert (existsb (λ it : string * json,
                       bool_decide (it.1 = a) && truthy it.2)
                    (map_to_list acts) = true) as Hsi; [|congruence].
    apply existsb_exists. exists (a, JBool true). split.
    + by apply list_elem_of_In, elem_of_map_to_list.
    + cbn [fst snd truthy]. by rewrite bool_decide_eq_true_2.
Qed.

Lemma consolidar_rol_matriz (modulo : string) (acc : gmap string json)
    (r : UsuarioRol * Rol) :
  es_matriz (permisos r.2) = true →
  ∃ acc', consolidar_rol modulo acc r = Ok acc' ∧
    ∀ a, acc' !! a = if concede_b (permisos r.2) modulo a
                     then Some (JBool true) else acc !! a.
Proof.
  intros Hmat. unfold consolidar_rol, concede_b. cbv zeta.
  destruct (permisos r.2) as [| | | | |pm]; try discriminate Hmat.
  cbn [py_in mbind result_bind].
  destruct (pm !! modulo) as [v|] eqn:Hv.
  - rewrite bool_decide_eq_true_2 by eauto. cbn [py_getitem].
    rewrite Hv. cbn [mbind result_bind].
    pose proof (es_matriz_lookup _ _ _ Hmat Hv) as Hacts.
    destruct v as [| | | | |acts]; try discriminate Hacts.
    cbn [py_items mbind result_bind]. eexists. split; [reflexivity|].
    intros a. by rewrite foldl_activar_lookup, (existsb_activo _ _ Hacts).
  - rewrite bool_decide_eq_false_2 by (intros [? ?]; congruence).
    eexists. split; [reflexivity|]. done.
Qed.

Lemma for_each_consolidar_rol (modulo : string)
    (roles_usuario : list (UsuarioRol * Rol)) (acc : gmap string json) :
  forallb (λ r : UsuarioRol * Rol, es_matriz (permisos r.2)) roles_usuario
  = true →
  ∃ final, for_each (consolidar_rol modulo) acc roles_usuario = Ok final ∧
    ∀ a, final !! a
         = if existsb (λ r : UsuarioRol * Rol,
                         concede_b (permisos r.2) modulo a) roles_usuario
           then Some (JBool true) else acc !! a.
Proof.
  revert acc. induction roles_usuario as [|r resto IH]; intros acc Hroles.
  - exists acc. split; [reflexivity|]. done.
  - cbn [forallb] in Hroles. apply andb_true_iff in Hroles as [Hr Hresto].
    destruct (consolidar_rol_matriz modulo acc r Hr) as (acc1 & H1 & Hacc1).
    destruct (IH acc1 Hresto) as (final & Hf & Hfinal).
    exists final. cbn [for_each]. rewrite H1. cbn [mbind result_bind].
    split; [exact Hf|]. intros a. rewrite Hfinal, Hacc1. cbn [existsb].
    destruct (existsb _ resto); [by rewrite orb_true_r|].
    by rewrite orb_false_r.
Qed.

Lemma algun_rol_permite_existsb (roles_usuario : list (UsuarioRol * Rol))
    (modulo accion : string) :
  forallb (λ r : UsuarioRol * Rol, es_matriz (permisos r.2)) roles_usuario
  = true →
  algun_rol_permite roles_usuario modulo accion
  = Ok (existsb (λ r : UsuarioRol * Rol,
                   concede_b (permisos r.2) modulo accion) roles_usuario).
Proof.
  intros Hroles.
  destruct (algun_rol_permite_matrices _ modulo accion Hroles)
    as (b & -> & Hb).
  f_equal. apply eq_true_iff_eq. rewrite Hb, existsb_exists. split.
  - intros (r & Hin & Hc). exists r. split; [by apply list_elem_of_In|].
    by apply concede_b_spec.
  - intros (r & Hin & Hc). exists r. split; [by apply list_elem_of_In|].
    by apply concede_b_spec.
Qed.

Lemma acciones_todas_lookup (b : bool) (accion : string) :
  accion ∈ acciones → acciones_todas b !! accion = Some (JBool b).
Proof.
  intros Ha. unfold acciones in Ha.
  repeat (apply elem_of_cons in Ha as [->|Ha]; [vm_compute; reflexivity|]).
  by apply elem_of_nil in Ha.
Qed.

Lemma permisos_de_modulo_matrices (usuario_ : Usuario)
    (roles_usuario : list (UsuarioRol * Rol)) (modulo : string) :
  forallb (λ r : UsuarioRol * Rol, es_matriz (permisos r.2)) roles_usuario
  = true →
  ∃ pm, permisos_de_modulo usuario_ roles_usuario modulo = Ok pm ∧
    ∀ accion, accion ∈ acciones →
      ∃ b : bool, pm !! accion = Some (JBool b) ∧
        tiene_permiso_usuario usuario_ roles_usuario modulo accion = Ok b.
Proof.
  intros Hroles. unfold permisos_de_modulo, tiene_permiso_usuario.
  destruct (is_staff usuario_ || is_superuser usuario_).
  - eexists. split; [reflexivity|]. intros accion Ha. exists true.
    split; [by apply acciones_todas_lookup|reflexivity].
  - destruct (for_each_consolidar_rol modulo roles_usuario
                (acciones_todas false) Hroles) as (final & -> & Hfinal).
    exists final. split; [reflexivity|]. intros accion Ha.
    rewrite (algun_rol_permite_existsb _ _ _ Hroles), Hfinal.
    eexists. split; [|reflexivity].
    rewrite (acciones_todas_lookup false accion Ha).
    by destruct (existsb _ roles_usuario).
Qed.

Lemma for_each_modulos (f : string → result (gmap string json))
    (g : string → gmap string json) :
  (∀ modulo, f modulo = Ok (g modulo)) →
  ∀ (ms : list string) (c0 : gmap string json),
    ∃ c, for_each (λ consolidados modulo,
                     permisos_modulo ← f modulo;
                     Ok (<[modulo := JObj permisos_modulo]> consolidados))
                  c0 ms = Ok c ∧
      ∀ modulo, c !! modulo = if bool_decide (modulo ∈ ms)
                              then Some (JObj (g modulo)) else c0 !! modulo.
Proof.
  intros Hf ms. induction ms as [|m0 ms IH]; intros c0.
  - exists c0. split; [reflexivity|]. intros modulo.
    by rewrite bool_decide_eq_false_2 by apply not_elem_of_nil.
  - destruct (IH (<[m0 := JObj (g m0)]> c0)) as (c & Hc & Hlookup).
    exists c. cbn [for_each]. rewrite Hf. cbn [mbind result_bind].
    split; [exact Hc|]. intros modulo. rewrite Hlookup.
    destruct (decide (modulo ∈ ms)) as [Hin|Hnin].
    + rewrite !bool_decide_eq_true_2; [done| |done].
      by apply list_elem_of_further.
    + rewrite (bool_decide_eq_false_2 (modulo ∈ ms)) by done.
      destruct (decide (modulo = m0)) as [->|Hne].
      * rewrite bool_decide_eq_true_2 by apply list_elem_of_here.
        apply lookup_insert_eq.
      * rewrite bool_decide_eq_false_2.
        -- by apply lookup_insert_ne.
        -- intros Hin. apply elem_of_cons in Hin as [?|?]; done.
Qed.

(** The report and the check agree.  For a user (staff or not) whose
    roles hold permission matrices, [permisos_usuario]'s consolidated
    report is produced, and at every module and action of the closed
    sets it holds a boolean: the very decision that
    [validar_permiso_usuario] takes for that user, module and
    action. *)
Theorem informe_coincide_con_la_comprobacion (usuario_ : Usuario)
    (roles_usuario : list (UsuarioRol * Rol)) :
  forallb (λ r : UsuarioRol * Rol, es_matriz (permisos r.2)) roles_usuario
  = true →
  ∃ consolidados,
    permisos_consolidados usuario_ roles_usuario = Ok consolidados ∧
    ∀ modulo accion, modulo ∈ modulos → accion ∈ acciones →
      ∃ (permisos_modulo : gmap string json) (b : bool),
        consolidados !! modulo = Some (JObj permisos_modulo) ∧
        permisos_modulo !! accion = Some (JBool b) ∧
        tiene_permiso_usuario usuario_ roles_usuario modulo accion = Ok b.
Proof.
  intros Hroles.
  set (g := λ modulo,
         match permisos_de_modulo usuario_ roles_usuario modulo with
         | Ok pm => pm
         | Raise _ => ∅
         end).
  assert (∀ modulo,
            permisos_de_modulo usuario_ roles_usuario modulo = Ok (g modulo))
    as Hg.
  { intros modulo. unfold g.
    by destruct (permisos_de_modulo_matrices usuario_ _ modulo Hroles)
      as (pm & -> & _). }
  destruct (for_each_modulos _ g Hg modulos ∅) as (c & Hc & Hlookup).
  exists c. split; [exact Hc|]. intros modulo accion Hm Ha.
  destruct (permisos_de_modulo_matrices usuario_ _ modulo Hroles)
    as (pm & Hpm & Hacc).
  destruct (Hacc accion Ha) as (b & Hb & Hdec).
  exists pm, b. split; [|done].
  rewrite Hlookup, bool_decide_eq_true_2 by done.
  rewrite Hg in Hpm. apply Ok_inj in Hpm. by rewrite Hpm.
Qed.

Lemma informe_coincide_con_la_comprobacion_witness :
  ∃ consolidados,
    permisos_consolidados usuario1
      (con_rol db_ejemplo (asignaciones_de db_ejemplo 2)) = Ok consolidados ∧
    ∀ modulo accion, modulo ∈ modulos → accion ∈ acciones →
      ∃ (permisos_modulo : gmap string json) (b : bool),
        consolidados !! modulo = Some (JObj permisos_modulo) ∧
        permisos_modulo !! accion = Some (JBool b) ∧
        tiene_permiso_usuario usuario1
          (con_rol db_ejemplo (asignaciones_de db_ejemplo 2)) modulo accion
        = Ok b.
Proof.
  apply (informe_coincide_con_la_comprobacion usuario1
           (con_rol db_ejemplo (asignaciones_de db_ejemplo 2))).
  vm_compute; reflexivity.
Defined.

(** ** The age of a socio *)

Lemma tupla_menor_spec (a b : Z * Z) :
  tupla_menor a b = true ↔ (a.1 < b.1 ∨ (a.1 = b.1 ∧ a.2 < b.2))%Z.
Proof.
  unfold tupla_menor.
  rewrite orb_true_iff, andb_true_iff, !Z.ltb_lt, Z.eqb_eq. tauto.
Qed.

Lemma fecha_leb_spec (a b : fecha) :
  fecha_leb a b = true ↔
  (year a < year b ∨
   (year a = year b ∧
    (month a < month b ∨ (month a = month b ∧ day a ≤ day b))))%Z.
Proof.
  unfold fecha_leb.
  repeat first [rewrite orb_true_iff | rewrite andb_true_iff].
  rewrite !Z.ltb_lt, !Z.eqb_eq, Z.leb_le. tauto.
Qed.

Lemma edad_monotona (hoy hoy' nacimiento : fecha) :
  fecha_leb hoy hoy' = true → (edad hoy nacimiento ≤ edad hoy' nacimiento)%Z.
Proof.
  intros H. apply fecha_leb_spec in H. unfold edad.
  destruct (tupla_menor (month hoy, day hoy) _) eqn:H1;
    destruct (tupla_menor (month hoy', day hoy') _) eqn:H2;
    try (apply tupla_menor_spec in H1); try (apply tupla_menor_spec in H2);
    try (apply not_true_iff_false in H1; rewrite tupla_menor_spec in H1);
    try (apply not_true_iff_false in H2; rewrite tupla_menor_spec in H2);
    cbn [fst snd] in *; lia.
Qed.

(** The age formula and the calendar: the age computed by [Socio.clean]
    and by [get_edad] is at least [k] exactly from the day whose year is
    the year of birth plus [k] and whose month and day are those of the
    birth, in the order of dates; for a birth on 29 February that is
    1 March in a year that is not a leap year.  With [k] = 18 this is
    the day from which [Socio.clean] accepts the socio. *)
Theorem edad_desde_el_cumpleanos (hoy nacimiento : fecha) (k : Z) :
  (k ≤ edad hoy nacimiento)%Z ↔
  fecha_leb {| year := year nacimiento + k; month := month nacimiento;
               day := day nacimiento |} hoy = true.
Proof.
  rewrite fecha_leb_spec. cbn [year month day]. unfold edad.
  destruct (tupla_menor (month hoy, day hoy) _) eqn:H1.
  - apply tupla_menor_spec in H1. cbn [fst snd] in H1. lia.
  - apply not_true_iff_false in H1. rewrite tupla_menor_spec in H1.
    cbn [fst snd] in H1. lia.
Qed.

(** The acceptance of a socio does not expire.  If [Socio.clean]
    accepts a socio on some day, it accepts it on every later day, with
    the same result: the age never decreases as the date advances, so
    a stored socio cannot start failing the age check of [full_clean]
    (which [Socio.save] runs on every save). *)
Theorem clean_de_socio_no_caduca (hoy hoy' : fecha) (socio socio' : Socio) :
  fecha_leb hoy hoy' = true →
  SocioMetodos.clean hoy socio = Ok socio' →
  SocioMetodos.clean hoy' socio = Ok socio' ∧
  ∀ e, get_edad hoy socio = Some e →
       ∃ e', get_edad hoy' socio = Some e' ∧ (18 ≤ e ≤ e')%Z.
Proof.
  intros Hle. unfold SocioMetodos.clean, get_edad.
  destruct (fecha_nacimiento socio) as [n|]; cbn [fmap option_fmap option_map].
  - pose proof (edad_monotona hoy hoy' n Hle) as Hm.
    destruct (Z.ltb_spec (edad hoy n) 18); cbn [mbind result_bind];
      [discriminate|].
    destruct (Z.ltb_spec (edad hoy' n) 18); [lia|]. cbn [mbind result_bind].
    intros ->. split; [reflexivity|]. intros e He.
    apply (inj Some) in He as <-. eexists. split; [reflexivity|]. lia.
  - cbn [mbind result_bind]. intros ->. split; [reflexivity|]. discriminate.
Qed.

Lemma clean_de_socio_no_caduca_witness :
  SocioMetodos.clean {| year := 2018; month := 3; day := 1 |} socio_ejemplo
  = Ok {| fecha_nacimiento := fecha_nacimiento socio_ejemplo;
          codigo_interno := Some "SOC-12345678";
          usuario_ci_nit := usuario_ci_nit socio_ejemplo |} ∧
  SocioMetodos.clean {| year := 2026; month := 11; day := 3 |} socio_ejemplo
  = Ok {| fecha_nacimiento := fecha_nacimiento socio_ejemplo;
          codigo_interno := Some "SOC-12345678";
          usuario_ci_nit := usuario_ci_nit socio_ejemplo |}.
Proof.
  split; [vm_compute; reflexivity|].
  apply (clean_de_socio_no_caduca {| year := 2018; month := 3; day := 1 |}
           {| year := 2026; month := 11; day := 3 |} socio_ejemplo).
  - reflexivity.
  - vm_compute; reflexivity.
Defined.

(** ** [validate_ci_nit] and the generated code *)

Lemma es_ci_nit_upper (c : ascii) :
  es_ci_nit (upper_ascii c) = true → upper_ascii c = c.
Proof. por_caracter c. Qed.

Lemma es_digito_upper (c : ascii) :
  es_digito (upper_ascii c) = es_digito c.
Proof. por_caracter c. Qed.

Lemma es_digito_no_espacio (c : ascii) :
  es_espacio c = true → es_digito c = false.
Proof. por_caracter c. Qed.

Lemma es_digito_es_codigo (c : ascii) :
  es_digito c = true → (es_mayuscula c || es_digito c || Ascii.eqb c "-") = true.
Proof. intros ->. by rewrite orb_true_r. Qed.

Lemma upper_ci_nit (s : string) :
  forallb es_ci_nit (list_ascii_of_string (upper s)) = true → upper s = s.
Proof.
  induction s as [|c s IH]; [reflexivity|].
  cbn [upper list_ascii_of_string forallb]. intros H.
  apply andb_true_iff in H as [Hc Hs].
  by rewrite (es_ci_nit_upper c Hc), (IH Hs).
Qed.

Lemma solo_digitos_lstrip (s : string) :
  solo_digitos (lstrip s) = solo_digitos s.
Proof.
  induction s as [|c s IH]; [reflexivity|]. cbn [lstrip].
  destruct (es_espacio c) eqn:E; [|reflexivity].
  cbn [solo_digitos]. by rewrite (es_digito_no_espacio c E).
Qed.

Lemma solo_digitos_rstrip (s : string) :
  solo_digitos (rstrip s) = solo_digitos s.
Proof.
  induction s as [|c s IH]; [reflexivity|]. cbn [rstrip solo_digitos].
  rewrite <- IH. destruct (rstrip s) as [|d r].
  - destruct (es_espacio c) eqn:E.
    + by rewrite (es_digito_no_espacio c E).
    + reflexivity.
  - reflexivity.
Qed.

Lemma solo_digitos_py_strip (s : string) :
  solo_digitos (py_strip s) = solo_digitos s.
Proof. unfold py_strip. by rewrite solo_digitos_rstrip, solo_digitos_lstrip. Qed.

Lemma solo_digitos_digitos (s : string) :
  forallb es_digito (list_ascii_of_string (solo_digitos s)) = true.
Proof.
  induction s as [|c s IH]; [reflexivity|]. cbn [solo_digitos].
  destruct (es_digito c) eqn:E; [|exact IH].
  cbn [list_ascii_of_string forallb]. by rewrite E, IH.
Qed.

Lemma substring_digitos (n : nat) (s : string) :
  forallb es_digito (list_ascii_of_string s) = true →
  forallb es_digito (list_ascii_of_string (String.substring 0 n s)) = true.
Proof.
  revert s. induction n as [|n IH]; intros [|c s]; try reflexivity.
  cbn [String.substring list_ascii_of_string forallb]. intros H.
  apply andb_true_iff in H as [Hc Hs]. by rewrite Hc, (IH s Hs).
Qed.

Lemma length_substring_0 (n : nat) (s : string) :
  String.length (String.substring 0 n s) = Nat.min n (String.length s).
Proof.
  revert s. induction n as [|n IH]; intros [|c s]; try reflexivity.
  cbn [String.substring String.length Nat.min]. by rewrite IH.
Qed.

Lemma py_strip_py_strip (s : string) : py_strip (py_strip s) = py_strip s.
Proof.
  destruct (py_strip_limpio s) as [Hl Hr].
  unfold py_strip at 1. by rewrite Hl, Hr.
Qed.

Lemma validate_ci_nit_Ok (v v' : string) :
  validate_ci_nit v = Ok v' →
  v' = py_strip v ∧ v' ≠ "" ∧
  forallb es_ci_nit (list_ascii_of_string v') = true ∧
  (6 ≤ String.length (solo_digitos v) ≤ 12)%nat.
Proof.
  unfold validate_ci_nit. destruct (String.eqb v ""); [discriminate|].
  cbv zeta.
  destruct (String.eqb (upper (py_strip v)) "") eqn:Hvacio;
    cbn [negb andb]; [discriminate|].
  destruct (forallb es_ci_nit (list_ascii_of_string (upper (py_strip v))))
    eqn:Hchars; cbn [negb]; [|discriminate].
  destruct (Nat.ltb_spec (String.length (solo_digitos (upper (py_strip v)))) 6)
    as [|H6]; cbn [orb]; [discriminate|].
  destruct (Nat.ltb_spec 12 (String.length (solo_digitos (upper (py_strip v)))))
    as [|H12]; [discriminate|].
  intros H. apply Ok_inj in H as <-.
  pose proof (upper_ci_nit _ Hchars) as Hup.
  rewrite Hup in Hchars, H6, H12, Hvacio |- *.
  rewrite solo_digitos_py_strip in H6, H12.
  apply String.eqb_neq in Hvacio. repeat split; try done; lia.
Qed.

(** What [validate_ci_nit] accepts, and what it returns.  An accepted
    value is returned stripped of surrounding whitespace and otherwise
    unchanged (the upper-casing never changes an accepted value); the
    result is a non-empty text of digits and hyphens with 6 to 12
    digits, and the validator accepts its own result and returns it
    again. *)
Theorem validate_ci_nit_normaliza (v v' : string) :
  validate_ci_nit v = Ok v' →
  v' = py_strip v ∧
  forallb es_ci_nit (list_ascii_of_string v') = true ∧
  (6 ≤ String.length (solo_digitos v') ≤ 12)%nat ∧
  validate_ci_nit v' = Ok v'.
Proof.
  intros H. destruct (validate_ci_nit_Ok v v' H) as (-> & Hne & Hchars & Hlen).
  split; [reflexivity|]. split; [exact Hchars|].
  rewrite solo_digitos_py_strip. split; [exact Hlen|].
  unfold validate_ci_nit in H |- *.
  destruct (String.eqb v ""); [discriminate|].
  apply String.eqb_neq in Hne. rewrite Hne.
  by rewrite py_strip_py_strip.
Qed.

Lemma validate_ci_nit_normaliza_witness :
  "1234567-8901" = py_strip "  1234567-8901 " ∧
  forallb es_ci_nit (list_ascii_of_string "1234567-8901") = true ∧
  (6 ≤ String.length (solo_digitos "1234567-8901") ≤ 12)%nat ∧
  validate_ci_nit "1234567-8901" = Ok "1234567-8901".
Proof.
  apply (validate_ci_nit_normaliza "  1234567-8901 " "1234567-8901").
  vm_compute; reflexivity.
Defined.

(** The code that [Socio.clean] generates is a valid code.  For a
    socio without a code whose user has a CI/NIT that [validate_ci_nit]
    accepts, a successful [clean] sets [codigo_interno] to [SOC-]
    followed by the first 8 digits of the CI/NIT (at least 6 are
    there): a text of 10 to 12 characters, within the 20 of the column,
    that the validator of the column accepts.  Digits beyond the eighth
    do not reach the code. *)
Theorem codigo_generado_es_valido (hoy : fecha) (socio socio' : Socio)
    (ci : string) :
  validate_ci_nit (usuario_ci_nit socio) = Ok ci →
  sin_texto (codigo_interno socio) = true →
  SocioMetodos.clean hoy socio = Ok socio' →
  ∃ codigo,
    codigo_interno socio' = Some codigo ∧
    codigo = "SOC-" ++ String.substring 0 8 (solo_digitos ci) ∧
    (10 ≤ String.length codigo ≤ 12)%nat ∧
    codigo_interno_valido codigo = true.
Proof.
  intros Hci Hsin. unfold SocioMetodos.clean. rewrite Hsin.
  destruct (validate_ci_nit_Ok _ _ Hci) as (-> & _ & _ & Hlen).
  destruct (match fecha_nacimiento socio with Some _ => _ | None => _ end)
    as [[]|e]; cbn [mbind result_bind]; [|discriminate].
  cbv zeta. intros H. apply Ok_inj in H as <-. cbn [codigo_interno].
  eexists. split; [reflexivity|]. rewrite solo_digitos_py_strip.
  split; [reflexivity|].
  change ("SOC-" ++ String.substring 0 8 (solo_digitos (usuario_ci_nit socio)))
    with (String "S" (String "O" (String "C" (String "-"
            (String.substring 0 8 (solo_digitos (usuario_ci_nit socio))))))).
  split.
  - cbn [String.length]. rewrite length_substring_0. lia.
  - unfold codigo_interno_valido.
    cbn [String.eqb Ascii.eqb negb andb list_ascii_of_string forallb].
    change (forallb (λ c, es_mayuscula c || es_digito c || Ascii.eqb c "-")
              (list_ascii_of_string
                 (String.substring 0 8
                    (solo_digitos (usuario_ci_nit socio)))) = true).
    pose proof (substring_digitos 8 _
                  (solo_digitos_digitos (usuario_ci_nit socio))) as Hd.
    rewrite forallb_forall in Hd |- *. intros c Hc.
    by apply es_digito_es_codigo, Hd.
Qed.

Lemma codigo_generado_es_valido_witness :
  ∃ codigo,
    codigo_interno
      {| fecha_nacimiento := fecha_nacimiento socio_ejemplo;
         codigo_interno := Some "SOC-12345678";
         usuario_ci_nit := usuario_ci_nit socio_ejemplo |} = Some codigo ∧
    codigo = "SOC-" ++ String.substring 0 8 (solo_digitos "1234567-8901") ∧
    (10 ≤ String.length codigo ≤ 12)%nat ∧
    codigo_interno_valido codigo = true.
Proof.
  apply (codigo_generado_es_valido {| year := 2026; month := 11; day := 3 |}
           socio_ejemplo).
  - vm_compute; reflexivity.
  - reflexivity.
  - vm_compute; reflexivity.
Defined.

(** ** Pagination *)






(** The requests the pagination fails on.  With a positive
    [page_size] and a [page] below 1 the request always fails, on the
    negative bound of the slice; with [page_size] 0 it always fails,
    on the division of [total_pages], whatever the page and the rows.
    The views do not catch either error. *)
Theorem paginar_falla {A} (queryset : list A) (page page_size : Z) :
  (0 < page_size)%Z → (page < 1)%Z →
  paginar queryset page page_size = inl IndiceNegativo ∧
  ∀ otra, paginar queryset otra 0 = inl DivisionPorCero.
Proof.
  intros Hk Hp. split.
  - unfold paginar, slice. cbv zeta.
    destruct (Z.ltb_spec ((page - 1) * page_size) 0) as [|]; [reflexivity|].
    nia.
  - intros otra. unfold paginar, slice. cbv zeta.
    rewrite Z.mul_0_r, Z.add_0_r. reflexivity.
Qed.

Lemma paginar_falla_witness :
  paginar (usuario_roles db_ejemplo) 0 20 = inl IndiceNegativo ∧
  ∀ otra, paginar (usuario_roles db_ejemplo) otra 0 = inl DivisionPorCero.
Proof. apply (paginar_falla (usuario_roles db_ejemplo) 0 20); lia. Defined.

(** ** The transfer of a parcel *)

Lemma procesar_rechazar (full_clean : Z → Parcela → result unit) (db : DBT)
    (request_user : Z * Usuario) (pk : Z) (t : TransferenciaParcela)
    (parcela : Parcela) (observaciones : string) (ahora : Z) :
  transferencias db !! pk = Some t →
  is_staff request_user.2 = true →
  parcelas db !! t_parcela t = Some parcela →
  let parcela' := {| p_socio := t_socio_nuevo t;
                     p_estado := p_estado parcela |} in
  let t' := {| t_parcela := t_parcela t;
               t_socio_anterior := t_socio_anterior t;
               t_socio_nuevo := t_socio_nuevo t;
               t_estado := "RECHAZADA";
               t_autorizado_por := t_autorizado_por t;
               t_fecha_aprobacion := t_fecha_aprobacion t;
               t_observaciones := Some observaciones |} in
  match full_clean (t_parcela t) parcela' with
  | Raise e =>
      procesar_transferencia_parcela full_clean db request_user pk
        (Some "RECHAZAR") observaciones ahora = (db, Raise e)
  | Ok _ =>
      ∃ resp entrada,
        procesar_transferencia_parcela full_clean db request_user pk
          (Some "RECHAZAR") observaciones ahora
        = ({| parcelas := <[t_parcela t := parcela']> (parcelas db);
              transferencias := <[pk := t']> (transferencias db);
              bitacora_transferencias :=
                bitacora_transferencias db ++ [entrada] |}, Ok resp) ∧
        status resp = 200%Z ∧ b_usuario entrada = request_user.1
  end.
Proof.
  intros Ht Hstaff Hp. cbv zeta.
  unfold procesar_transferencia_parcela. rewrite Ht, Hstaff.
  cbn [negb].
  change (String.eqb "RECHAZAR" "APROBAR") with false.
  change (String.eqb "RECHAZAR" "RECHAZAR") with true.
  cbn [orb negb]. cbv zeta.
  unfold TransferenciaParcelaMetodos.save, ParcelaMetodos.save.
  cbn [t_parcela t_socio_nuevo]. rewrite Hp.
  destruct (full_clean (t_parcela t) _) as [[]|e];
    cbn [mbind result_bind]; [|reflexivity].
  eexists _, _. split; [reflexivity|]. split; reflexivity.
Qed.

Lemma procesar_aprobar (full_clean : Z → Parcela → result unit) (db : DBT)
    (request_user : Z * Usuario) (pk : Z) (t : TransferenciaParcela)
    (parcela : Parcela) (observaciones : string) (ahora : Z) :
  transferencias db !! pk = Some t →
  is_staff request_user.2 = true →
  parcelas db !! t_parcela t = Some parcela →
  let parcela' := {| p_socio := t_socio_nuevo t;
                     p_estado := p_estado parcela |} in
  let t' := {| t_parcela := t_parcela t;
               t_socio_anterior := t_socio_anterior t;
               t_socio_nuevo := t_socio_nuevo t;
               t_estado := "APROBADA";
               t_autorizado_por := t_autorizado_por t;
               t_fecha_aprobacion := Some ahora;
               t_observaciones := Some observaciones |} in
  match full_clean (t_parcela t) parcela' with
  | Raise e =>
      procesar_transferencia_parcela full_clean db request_user pk
        (Some "APROBAR") observaciones ahora = (db, Raise e)
  | Ok _ =>
      ∃ resp entrada,
        procesar_transferencia_parcela full_clean db request_user pk
          (Some "APROBAR") observaciones ahora
        = ({| parcelas := <[t_parcela t := parcela']> (parcelas db);
              transferencias := <[pk := t']> (transferencias db);
              bitacora_transferencias :=
                bitacora_transferencias db ++ [entrada] |}, Ok resp) ∧
        status resp = 200%Z ∧ b_usuario entrada = request_user.1
  end.
Proof.
  intros Ht Hstaff Hp. cbv zeta.
  unfold procesar_transferencia_parcela. rewrite Ht, Hstaff.
  cbn [negb].
  change (String.eqb "APROBAR" "APROBAR") with true.
  cbn [orb negb]. cbv zeta. rewrite Hp.
  unfold TransferenciaParcelaMetodos.save, ParcelaMetodos.save.
  destruct (full_clean (t_parcela t) _) as [[]|e] eqn:Hfc;
    cbn [mbind result_bind]; [|reflexivity].
  cbn [t_parcela t_socio_nuevo parcelas]. rewrite lookup_insert_eq.
  cbn [p_estado]. rewrite Hfc. cbn [mbind result_bind].
  cbn [parcelas transferencias bitacora_transferencias].
  rewrite insert_insert_eq.
  eexists _, _. split; [reflexivity|]. split; reflexivity.
Qed.

(** Rejecting a transfer hands the parcel over.  On every database and
    request, rejecting a transfer leaves the parcels exactly as
    approving it does, and succeeds exactly when approving does; when
    the answer is 200 the parcel belongs to [socio_nuevo], the transfer
    is stored as RECHAZADA with the observations of the request, and
    its [autorizado_por] is as before.  Nothing is asked of the state
    of the transfer or of the present owner. *)
Theorem rechazar_tambien_transfiere
    (full_clean : Z → Parcela → result unit) (db : DBT)
    (request_user : Z * Usuario) (pk : Z) (observaciones otras : string)
    (ahora luego : Z) :
  let rechazada :=
    procesar_transferencia_parcela full_clean db request_user pk
      (Some "RECHAZAR") observaciones ahora in
  let aprobada :=
    procesar_transferencia_parcela full_clean db request_user pk
      (Some "APROBAR") otras luego in
  parcelas rechazada.1 = parcelas aprobada.1 ∧
  exito rechazada.2 = exito aprobada.2 ∧
  (exito rechazada.2 = true →
   ∃ t parcela t',
     transferencias db !! pk = Some t ∧
     parcelas db !! t_parcela t = Some parcela ∧
     parcelas rechazada.1 !! t_parcela t
     = Some {| p_socio := t_socio_nuevo t; p_estado := p_estado parcela |} ∧
     transferencias rechazada.1 !! pk = Some t' ∧
     t_estado t' = "RECHAZADA" ∧
     t_observaciones t' = Some observaciones ∧
     t_autorizado_por t' = t_autorizado_por t).
Proof.
  cbv zeta.
  destruct (transferencias db !! pk) as [t|] eqn:Ht.
  2:{ unfold procesar_transferencia_parcela. rewrite Ht. cbn [fst snd].
      repeat split; try reflexivity.
      intros H. rewrite exito_error in H by lia. discriminate H. }
  destruct (is_staff request_user.2) eqn:Hstaff.
  2:{ unfold procesar_transferencia_parcela. rewrite Ht, Hstaff.
      cbn [negb fst snd]. repeat split; try reflexivity.
      intros H. rewrite exito_error in H by lia. discriminate H. }
  destruct (parcelas db !! t_parcela t) as [parcela|] eqn:Hp.
  2:{ unfold procesar_transferencia_parcela. rewrite Ht, Hstaff.
      cbn [negb].
      change (String.eqb "RECHAZAR" "APROBAR") with false.
      change (String.eqb "RECHAZAR" "RECHAZAR") with true.
      change (String.eqb "APROBAR" "APROBAR") with true.
      cbn [orb negb]. cbv zeta.
      unfold TransferenciaParcelaMetodos.save. cbn [t_parcela].
      rewrite Hp. cbn [fst snd exito]. repeat split; try reflexivity.
      intros H. discriminate H. }
  pose proof (procesar_rechazar full_clean db request_user pk t parcela
                observaciones ahora Ht Hstaff Hp) as Hr.
  pose proof (procesar_aprobar full_clean db request_user pk t parcela
                otras luego Ht Hstaff Hp) as Ha.
  cbv zeta in Hr, Ha.
  destruct (full_clean (t_parcela t) _) as [[]|e].
  - destruct Hr as (r1 & e1 & -> & Hs1 & _).
    destruct Ha as (r2 & e2 & -> & Hs2 & _).
    cbn [fst snd parcelas transferencias exito]. rewrite Hs1, Hs2.
    split; [reflexivity|]. split; [reflexivity|]. intros _.
    eexists t, parcela, _. split; [reflexivity|]. split; [exact Hp|].
    split; [apply lookup_insert_eq|]. split; [apply lookup_insert_eq|].
    repeat split.
  - rewrite Hr, Ha. cbn [fst snd exito]. repeat split; try reflexivity.
    intros H. discriminate H.
Qed.

(** A saved transfer no longer validates.  A transfer that
    [TransferenciaParcela.clean] accepts (the parcel belongs to
    [socio_anterior], who is not [socio_nuevo]) is refused by the same
    [clean] once [save] has stored it, since [save] has made
    [socio_nuevo] the owner, whatever the state of the transfer. *)
Theorem transferencia_guardada_no_valida
    (full_clean : Z → Parcela → result unit) (db db' : DBT) (pk : Z)
    (t : TransferenciaParcela) :
  TransferenciaParcelaMetodos.clean db t = Ok () →
  TransferenciaParcelaMetodos.save full_clean db pk t = Ok db' →
  (∃ parcela, parcelas db !! t_parcela t = Some parcela ∧
              p_socio parcela = t_socio_anterior t ∧
              parcelas db' !! t_parcela t
              = Some {| p_socio := t_socio_nuevo t;
                        p_estado := p_estado parcela |}) ∧
  transferencias db' !! pk = Some t ∧
  TransferenciaParcelaMetodos.clean db' t
  = Raise (ValidationError
             (JStr "El socio anterior no es el propietario actual de la parcela")).
Proof.
  unfold TransferenciaParcelaMetodos.clean, TransferenciaParcelaMetodos.save,
    ParcelaMetodos.save.
  destruct (Z.eqb_spec (t_socio_anterior t) (t_socio_nuevo t)) as [|Hne];
    [discriminate|].
  destruct (parcelas db !! t_parcela t) as [parcela|] eqn:Hp; [|discriminate].
  destruct (Z.eqb_spec (p_socio parcela) (t_socio_anterior t)) as [Hprop|];
    cbn [negb]; [|discriminate].
  intros _. cbv zeta.
  destruct (full_clean (t_parcela t) _) as [[]|e]; cbn [mbind result_bind];
    [|discriminate].
  intros H. apply Ok_inj in H as <-.
  cbn [parcelas transferencias]. rewrite !lookup_insert_eq.
  split; [by exists parcela|]. split; [reflexivity|].
  cbn [p_socio]. destruct (Z.eqb_spec (t_socio_nuevo t) (t_socio_anterior t));
    [congruence|reflexivity].
Qed.

Lemma transferencia_guardada_no_valida_witness :
  (∃ parcela,
     parcelas db_transferencias !! 7%Z = Some parcela ∧
     p_socio parcela = 1%Z ∧
     parcelas
       {| parcelas := {[ 7%Z := {| p_socio := 2; p_estado := "ACTIVA" |} ]};
          transferencias := {[ 1%Z := transferencia_ejemplo ]};
          bitacora_transferencias := [] |} !! 7%Z
     = Some {| p_socio := 2; p_estado := p_estado parcela |}) ∧
  transferencias
    {| parcelas := {[ 7%Z := {| p_socio := 2; p_estado := "ACTIVA" |} ]};
       transferencias := {[ 1%Z := transferencia_ejemplo ]};
       bitacora_transferencias := [] |} !! 1%Z
  = Some transferencia_ejemplo ∧
  TransferenciaParcelaMetodos.clean
    {| parcelas := {[ 7%Z := {| p_socio := 2; p_estado := "ACTIVA" |} ]};
       transferencias := {[ 1%Z := transferencia_ejemplo ]};
       bitacora_transferencias := [] |} transferencia_ejemplo
  = Raise (ValidationError
             (JStr "El socio anterior no es el propietario actual de la parcela")).
Proof.
  apply (transferencia_guardada_no_valida parcela_siempre_valida
           db_transferencias _ 1 transferencia_ejemplo).
  - reflexivity.
  - vm_compute; reflexivity.
Defined.

(** ** [Usuario.clean] *)







(** ** A matrix that was never validated *)






(** ** Who may create a role *)



(** ** The permission counts of the report *)

Lemma ceros_lookup (a : string) :
  is_Some (ceros !! a) ↔ a ∈ acciones.
Proof.
  split.
  - intros [n Hn]. unfold ceros in Hn. unfold acciones.
    repeat (apply lookup_insert_Some in Hn as [[<- _]|[_ Hn]];
            [rewrite !elem_of_cons; tauto|]).
    by rewrite lookup_empty in Hn.
  - intros Ha. unfold acciones in Ha.
    repeat (apply elem_of_cons in Ha as [->|Ha];
            [exists 0%Z; vm_compute; reflexivity|]).
    by apply elem_of_nil in Ha.
Qed.

Lemma ceros_cero (a : string) (n : Z) : ceros !! a = Some n → n = 0%Z.
Proof.
  unfold ceros. intros Hn.
  repeat (apply lookup_insert_Some in Hn as [[_ <-]|[_ Hn]]; [reflexivity|]).
  by rewrite lookup_empty in Hn.
Qed.

Lemma existsb_clave_ausente (a : string) (items : list (string * json)) :
  a ∉ items.*1 →
  existsb (λ it : string * json, bool_decide (it.1 = a) && truthy it.2) items
  = false.
Proof.
  intros Hno. apply not_true_is_false. rewrite existsb_exists.
  intros ([k v] & Hin & Hb). apply andb_true_iff in Hb as [Hk _].
  apply bool_decide_eq_true_1 in Hk. cbn [fst] in Hk. subst k.
  apply Hno. apply list_elem_of_fmap. exists (a, v).
  split; [reflexivity|]. by apply list_elem_of_In.
Qed.

Lemma contar_paso (acc : gmap string Z) (k : string) (v : json) :
  contar acc (k, v)
  = if truthy v
    then match acc !! k with
         | Some n => Ok (<[k := (n + 1)%Z]> acc)
         | None => Raise KeyError
         end
    else Ok acc.
Proof. reflexivity. Qed.

Lemma for_each_contar (items : list (string * json)) (acc : gmap string Z) :
  NoDup items.*1 →
  (∀ a, is_Some (acc !! a) ↔ a ∈ acciones) →
  if forallb (λ item : string * json,
                negb (truthy item.2) || bool_decide (item.1 ∈ acciones)) items
  then ∃ acc', for_each contar acc items = Ok acc' ∧
         ∀ a, acc' !! a
              = (λ n, (n + if existsb (λ it : string * json,
                                         bool_decide (it.1 = a) && truthy it.2)
                                      items
                           then 1 else 0)%Z) <$> acc !! a
  else for_each contar acc items = Raise KeyError.
Proof.
  revert acc. induction items as [|[k v] items IH]; intros acc Hnd Hdom.
  - cbn [forallb for_each existsb]. exists acc. split; [reflexivity|].
    intros a. destruct (acc !! a) as [n|]; cbn [fmap option_fmap option_map];
      [f_equal; lia|reflexivity].
  - cbn [fmap list_fmap fst] in Hnd. apply NoDup_cons in Hnd as [Hk Hnd].
    cbn [forallb for_each existsb fst snd]. rewrite !(contar_paso acc k v).
    destruct (truthy v) eqn:Hv; cbn [negb orb andb].
    + destruct (decide (k ∈ acciones)) as [Hin|Hout].
      * rewrite (bool_decide_eq_true_2 _ Hin). cbn [andb].
        destruct (proj2 (Hdom k) Hin) as [n Hn]. rewrite Hn.
        cbn [mbind result_bind].
        assert (∀ a, is_Some (<[k := (n + 1)%Z]> acc !! a) ↔ a ∈ acciones)
          as Hdom1.
        { intros a. destruct (decide (a = k)) as [->|Hne].
          - rewrite lookup_insert_eq. split; [done|eauto].
          - rewrite lookup_insert_ne by done. apply Hdom. }
        specialize (IH (<[k := (n + 1)%Z]> acc) Hnd Hdom1).
        destruct (forallb _ items); [|exact IH].
        destruct IH as (acc' & Hacc' & Hl). exists acc'.
        split; [exact Hacc'|]. intros a. rewrite Hl.
        destruct (decide (k = a)) as [<-|Hne].
        -- rewrite lookup_insert_eq, Hn, (existsb_clave_ausente k items Hk).
           rewrite bool_decide_eq_true_2 by done.
           cbn [fmap option_fmap option_map orb andb]. f_equal. lia.
        -- rewrite lookup_insert_ne by done.
           by rewrite (bool_decide_eq_false_2 _ Hne).
      * rewrite (bool_decide_eq_false_2 _ Hout). cbn [andb].
        destruct (acc !! k) as [n|] eqn:Hn; [|reflexivity].
        exfalso. apply Hout, Hdom. eauto.
    + cbn [mbind result_bind]. specialize (IH acc Hnd Hdom).
      destruct (forallb _ items); [|exact IH].
      destruct IH as (acc' & Hacc' & Hl). exists acc'. split; [exact Hacc'|].
      intros a. rewrite Hl, andb_false_r. reflexivity.
Qed.

Lemma dom_fmap_suma (acc acc' : gmap string Z) (f : string → Z → Z) :
  (∀ a, is_Some (acc !! a) ↔ a ∈ acciones) →
  (∀ a, acc' !! a = f a <$> acc !! a) →
  ∀ a, is_Some (acc' !! a) ↔ a ∈ acciones.
Proof.
  intros Hdom Hl a. rewrite Hl, <- Hdom. apply fmap_is_Some.
Qed.

Lemma concede_b_activo (pm acts : gmap string json) (modulo a : string) :
  pm !! modulo = Some (JObj acts) →
  concede_b (JObj pm) modulo a
  = match acts !! a with Some (JBool true) => true | _ => false end.
Proof. intros H. unfold concede_b. by rewrite H. Qed.

Lemma contar_rol_matriz (modulo : string) (acc : gmap string Z) (rol : Rol) :
  es_matriz (permisos rol) = true →
  (∀ a, is_Some (acc !! a) ↔ a ∈ acciones) →
  if acciones_cerradas modulo rol
  then ∃ acc', contar_rol modulo acc rol = Ok acc' ∧
         ∀ a, acc' !! a
              = (λ n, (n + if concede_b (permisos rol) modulo a
                           then 1 else 0)%Z) <$> acc !! a
  else contar_rol modulo acc rol = Raise KeyError.
Proof.
  intros Hmat Hdom. unfold contar_rol, acciones_cerradas.
  destruct (permisos rol) as [| | | | |pm]; try discriminate Hmat.
  cbn [py_in mbind result_bind].
  destruct (pm !! modulo) as [v|] eqn:Hv.
  - rewrite bool_decide_eq_true_2 by eauto. cbn [py_getitem].
    rewrite Hv. cbn [mbind result_bind].
    pose proof (es_matriz_lookup _ _ _ Hmat Hv) as Hacts.
    destruct v as [| | | | |acts]; try discriminate Hacts.
    cbn [py_items mbind result_bind].
    pose proof (for_each_contar (map_to_list acts) acc
                  (NoDup_fst_map_to_list acts) Hdom) as H.
    destruct (forallb _ (map_to_list acts)); [|exact H].
    destruct H as (acc' & Hacc' & Hl). exists acc'. split; [exact Hacc'|].
    intros a. rewrite Hl, (existsb_activo _ _ Hacts).
    by rewrite (concede_b_activo pm acts modulo a Hv).
  - rewrite bool_decide_eq_false_2 by (intros [? ?]; congruence).
    exists acc. split; [reflexivity|]. intros a. unfold concede_b.
    rewrite Hv. destruct (acc !! a); cbn [fmap option_fmap option_map];
      [f_equal; lia|reflexivity].
Qed.

Lemma for_each_contar_rol (modulo : string) (roles_ : list Rol)
    (acc : gmap string Z) :
  forallb (λ rol, es_matriz (permisos rol)) roles_ = true →
  (∀ a, is_Some (acc !! a) ↔ a ∈ acciones) →
  if forallb (acciones_cerradas modulo) roles_
  then ∃ acc', for_each (contar_rol modulo) acc roles_ = Ok acc' ∧
         ∀ a, acc' !! a
              = (λ n, (n + Z.of_nat
                             (length (filter (λ rol, concede_b (permisos rol)
                                                       modulo a = true)
                                             roles_)))%Z) <$> acc !! a
  else for_each (contar_rol modulo) acc roles_ = Raise KeyError.
Proof.
  revert acc. induction roles_ as [|rol resto IH]; intros acc Hmat Hdom.
  - cbn [forallb for_each]. exists acc. split; [reflexivity|]. intros a.
    rewrite filter_nil. cbn [length].
    destruct (acc !! a); cbn [fmap option_fmap option_map];
      [f_equal; lia|reflexivity].
  - cbn [forallb] in Hmat |- *. apply andb_true_iff in Hmat as [Hr Hresto].
    cbn [for_each].
    pose proof (contar_rol_matriz modulo acc rol Hr Hdom) as H1.
    destruct (acciones_cerradas modulo rol); cbn [andb];
      [|by rewrite H1].
    destruct H1 as (acc1 & -> & Hl1). cbn [mbind result_bind].
    specialize (IH acc1 Hresto (dom_fmap_suma acc acc1 _ Hdom Hl1)).
    destruct (forallb (acciones_cerradas modulo) resto); [|exact IH].
    destruct IH as (acc' & Hacc' & Hl). exists acc'. split; [exact Hacc'|].
    intros a. rewrite Hl, Hl1, filter_cons.
    destruct (acc !! a) as [n|]; cbn [fmap option_fmap option_map];
      [|reflexivity].
    f_equal. destruct (decide (concede_b (permisos rol) modulo a = true))
      as [Hc|Hc].
    + rewrite Hc. cbn [length]. lia.
    + apply not_true_is_false in Hc. rewrite Hc. lia.
Qed.

Lemma filter_has_key (modulo : string) (roles_ : list Rol) :
  forallb (λ rol, es_matriz (permisos rol)) roles_ = true →
  forallb (λ rol, es_matriz (permisos rol))
          (filter (λ rol, has_key (permisos rol) modulo = true) roles_) = true ∧
  forallb (acciones_cerradas modulo)
          (filter (λ rol, has_key (permisos rol) modulo = true) roles_)
  = forallb (acciones_cerradas modulo) roles_ ∧
  ∀ a, length (filter (λ rol, concede_b (permisos rol) modulo a = true)
                 (filter (λ rol, has_key (permisos rol) modulo = true) roles_))
       = length (filter (λ rol, concede_b (permisos rol) modulo a = true)
                   roles_).
Proof.
  induction roles_ as [|rol resto IH]; intros Hmat.
  - rewrite filter_nil. by repeat split.
  - cbn [forallb] in Hmat. apply andb_true_iff in Hmat as [Hr Hresto].
    destruct (IH Hresto) as (IH1 & IH2 & IH3).
    rewrite (filter_cons (λ rol, has_key (permisos rol) modulo = true)).
    destruct (decide (has_key (permisos rol) modulo = true)) as [Hk|Hk].
    + cbn [forallb]. rewrite Hr, IH1, IH2. split; [done|]. split; [done|].
      intros a. rewrite !filter_cons.
      destruct (decide (concede_b (permisos rol) modulo a = true));
        cbn [length]; by rewrite IH3.
    + apply not_true_is_false in Hk.
      assert (acciones_cerradas modulo rol = true ∧
              ∀ a, concede_b (permisos rol) modulo a = false) as [Hc Hn].
      { unfold acciones_cerradas, concede_b.
        destruct (permisos rol) as [| | | | |pm]; try discriminate Hr.
        cbn [has_key] in Hk. apply bool_decide_eq_false_1 in Hk.
        destruct (pm !! modulo) as [v|]; [|done].
        exfalso. apply Hk. eauto. }
      cbn [forallb]. rewrite Hc. split; [exact IH1|]. split; [exact IH2|].
      intros a. rewrite IH3, (filter_cons _ rol).
      destruct (decide (concede_b (permisos rol) modulo a = true)) as [Hsi|];
        [|reflexivity].
      rewrite Hn in Hsi. discriminate Hsi.
Qed.

Lemma for_each_insertar {V} (f : string → result V) (ms : list string)
    (c0 : gmap string V) :
  match for_each (λ c modulo, v ← f modulo; Ok (<[modulo := v]> c)) c0 ms with
  | Ok c =>
      ∀ modulo, (modulo ∈ ms → ∃ v, f modulo = Ok v ∧ c !! modulo = Some v) ∧
                (modulo ∉ ms → c !! modulo = c0 !! modulo)
  | Raise e => ∃ modulo, modulo ∈ ms ∧ f modulo = Raise e
  end.
Proof.
  revert c0. induction ms as [|m0 ms IH]; intros c0.
  - cbn [for_each]. intros modulo. split; [|done].
    intros H. by apply elem_of_nil in H.
  - cbn [for_each]. destruct (f m0) as [v0|e] eqn:Hf0;
      cbn [mbind result_bind].
    + specialize (IH (<[m0 := v0]> c0)).
      destruct (for_each _ (<[m0 := v0]> c0) ms) as [c|e].
      * intros modulo. destruct (IH modulo) as [IHin IHout].
        destruct (decide (modulo ∈ ms)) as [Hin|Hnin].
        -- split; [intros _; by apply IHin|].
           intros Hno. exfalso. apply Hno. by apply list_elem_of_further.
        -- split.
           ++ intros Hm. apply elem_of_cons in Hm as [->|Hm]; [|done].
              exists v0. split; [exact Hf0|].
              rewrite (IHout Hnin). apply lookup_insert_eq.
           ++ intros Hno. rewrite (IHout Hnin). apply lookup_insert_ne.
              intros ->. apply Hno, list_elem_of_here.
      * destruct IH as (modulo & Hin & Hf). exists modulo.
        split; [by apply list_elem_of_further|exact Hf].
    + exists m0. split; [apply list_elem_of_here|exact Hf0].
Qed.

(** The permission counts of [reporte_roles_permisos], on a role table
    of permission matrices.  If no role holds a true value at an action
    outside the closed set under a module of the closed set, the counts
    are produced, and the count at each module and action is the
    number of roles whose matrix grants that cell (the cell that
    [tiene_permiso] reads).  Otherwise, a single such value in a single
    role makes the statement [permisos_modulo[accion] += 1] raise
    KeyError, and the report fails for every caller. *)
Theorem permisos_comunes_cuenta (tabla : gmap Z Rol) :
  forallb (λ rol, es_matriz (permisos rol)) (snd <$> map_to_list tabla)
  = true →
  if forallb (λ modulo,
                forallb (acciones_cerradas modulo) (snd <$> map_to_list tabla))
             modulos
  then ∃ comunes,
         permisos_comunes tabla = Ok comunes ∧
         ∀ modulo accion, modulo ∈ modulos → accion ∈ acciones →
           ∃ permisos_modulo,
             comunes !! modulo = Some permisos_modulo ∧
             permisos_modulo !! accion
             = Some (Z.of_nat
                       (length (filter (λ rol, concede_b (permisos rol)
                                                 modulo accion = true)
                                       (snd <$> map_to_list tabla))))
  else permisos_comunes tabla = Raise KeyError.
Proof.
  intros Hmat. set (roles_ := snd <$> map_to_list tabla) in *.
  assert (∀ modulo,
            if forallb (acciones_cerradas modulo) roles_
            then ∃ acc',
                   for_each (contar_rol modulo) ceros
                     (filter (λ rol, has_key (permisos rol) modulo = true)
                             roles_) = Ok acc' ∧
                   ∀ a, a ∈ acciones →
                     acc' !! a
                     = Some (Z.of_nat
                               (length (filter (λ rol, concede_b (permisos rol)
                                                         modulo a = true)
                                               roles_)))
            else for_each (contar_rol modulo) ceros
                   (filter (λ rol, has_key (permisos rol) modulo = true)
                           roles_) = Raise KeyError) as Hmod.
  { intros modulo.
    destruct (filter_has_key modulo roles_ Hmat) as (H1 & H2 & H3).
    pose proof (for_each_contar_rol modulo _ ceros H1 ceros_lookup) as H.
    rewrite H2 in H.
    destruct (forallb (acciones_cerradas modulo) roles_); [|exact H].
    destruct H as (acc' & Hacc' & Hl). exists acc'. split; [exact Hacc'|].
    intros a Ha. rewrite Hl, H3.
    destruct (proj2 (ceros_lookup a) Ha) as [n Hn]. rewrite Hn.
    rewrite (ceros_cero a n Hn). reflexivity. }
  unfold permisos_comunes. cbv zeta. fold roles_.
  pose proof (for_each_insertar
                (λ modulo,
                   for_each (contar_rol modulo) ceros
                     (filter (λ rol, has_key (permisos rol) modulo = true)
                             roles_)) modulos ∅) as Hfe.
  cbv beta in Hfe.
  destruct (for_each _ ∅ modulos) as [comunes|e].
  - assert (forallb (λ modulo, forallb (acciones_cerradas modulo) roles_)
                    modulos = true) as ->.
    { apply forallb_forall. intros modulo Hin.
      apply list_elem_of_In in Hin.
      destruct (proj1 (Hfe modulo) Hin) as (v & Hv & _).
      specialize (Hmod modulo).
      destruct (forallb (acciones_cerradas modulo) roles_); [done|].
      rewrite Hv in Hmod. discriminate Hmod. }
    exists comunes. split; [reflexivity|]. intros modulo accion Hm Ha.
    destruct (proj1 (Hfe modulo) Hm) as (v & Hv & Hc).
    exists v. split; [exact Hc|].
    specialize (Hmod modulo).
    destruct (forallb (acciones_cerradas modulo) roles_).
    + destruct Hmod as (acc' & Hacc' & Hl). rewrite Hv in Hacc'.
      apply Ok_inj in Hacc' as ->. by apply Hl.
    + rewrite Hv in Hmod. discriminate Hmod.
  - destruct Hfe as (modulo & Hin & Hf).
    pose proof (Hmod modulo) as Hm.
    destruct (forallb (acciones_cerradas modulo) roles_) eqn:Hc.
    + destruct Hm as (acc' & Hacc' & _). rewrite Hf in Hacc'.
      discriminate Hacc'.
    + assert (forallb (λ modulo, forallb (acciones_cerradas modulo) roles_)
                      modulos = false) as ->.
      { apply not_true_is_false. rewrite forallb_forall. intros Hall.
        apply list_elem_of_In in Hin. specialize (Hall modulo Hin).
        cbv beta in Hall. congruence. }
      rewrite Hf in Hm. congruence.
Qed.

Lemma permisos_comunes_cuenta_witness :
  ∃ comunes,
    permisos_comunes (roles db_ejemplo) = Ok comunes ∧
    ∀ modulo accion, modulo ∈ modulos → accion ∈ acciones →
      ∃ permisos_modulo,
        comunes !! modulo = Some permisos_modulo ∧
        permisos_modulo !! accion
        = Some (Z.of_nat
                  (length (filter (λ rol, concede_b (permisos rol)
                                            modulo accion = true)
                                  (snd <$> map_to_list (roles db_ejemplo))))).
Proof.
  apply (permisos_comunes_cuenta (roles db_ejemplo)).
  vm_compute; reflexivity.
Defined.
